(** * A shallow embedding of the product-evaluation pipeline

    The Python sources are embedded module by module: [Py] gives the
    fragment of Python's dynamic values, exceptions and [str]/[dict]
    operations the sources use, [Json] the decoder and the string
    encoder of the [json] module, and one module per source file follows
    ([OllamaUtils], [Llm], [SamAltman], [ProjectAdvisor], [AgentSelector],
    [Orchestrator]).  The second half of the file states and proves the
    properties of these definitions. *)

From Stdlib Require Import ZArith List String Ascii Bool Lia Permutation.
From Stdlib Require Import Floats.
Import ListNotations.

Local Open Scope string_scope.
Local Open Scope list_scope.
Local Open Scope Z_scope.

(* ===================================================================== *)
(** * Part I: the embedding                                               *)
(* ===================================================================== *)

(* --------------------------------------------------------------------- *)
(** ** Python values, exceptions and built-in operations                  *)
(* --------------------------------------------------------------------- *)

Module Py.

(** The subclasses of [Exception] that the sources raise or catch.
    [JSONDecodeError] (json) and [ValidationError] (pydantic) derive from
    [ValueError]; [UnboundLocalError] derives from [NameError].
    [OtherException] stands for any further subclass of [Exception]
    unrelated to the named ones (a network error of the model backend). *)
Inductive exn : Type :=
| ValueError
| JSONDecodeError
| ValidationError
| TypeError
| IndexError
| KeyError
| AttributeError
| UnboundLocalError
| OSError
| OtherException.

(** [isinstance(e, ValueError)]. *)
Definition is_ValueError (e : exn) : bool :=
  match e with
  | ValueError | JSONDecodeError | ValidationError => true
  | _ => false
  end.

(** [isinstance(e, TypeError)]. *)
Definition is_TypeError (e : exn) : bool :=
  match e with
  | TypeError => true
  | _ => false
  end.

(** The outcome of running a piece of Python: a value, or a raised
    exception. *)
Inductive result (A : Type) : Type :=
| Ok (a : A)
| Raise (e : exn).

Arguments Ok {A} a.
Arguments Raise {A} e.

Definition bind {A B : Type} (c : result A) (k : A -> result B) : result B :=
  match c with
  | Ok a => k a
  | Raise e => Raise e
  end.

(** [try: body except <classes> as e: handler e]. *)
Definition try_except {A : Type} (body : result A) (catches : exn -> bool)
  (handler : exn -> result A) : result A :=
  match body with
  | Ok a => Ok a
  | Raise e => if catches e then handler e else Raise e
  end.

(** [except Exception]: every member of [exn] is an [Exception]. *)
Definition any_Exception (_ : exn) : bool := true.

(** A [dict] with [str] keys: the association list of its items in
    insertion order. *)
Definition dict (V : Type) : Type := list (string * V).

(** [d.get(k)]. *)
Fixpoint dict_get {V : Type} (d : dict V) (k : string) : option V :=
  match d with
  | [] => None
  | (k', v) :: rest => if String.eqb k' k then Some v else dict_get rest k
  end.

(** [k in d]. *)
Definition dict_mem {V : Type} (d : dict V) (k : string) : bool :=
  match dict_get d k with
  | Some _ => true
  | None => false
  end.

(** [d[k] = v]: an existing key keeps its place, a new key goes last. *)
Fixpoint dict_set {V : Type} (d : dict V) (k : string) (v : V) : dict V :=
  match d with
  | [] => [(k, v)]
  | (k', v') :: rest =>
      if String.eqb k' k then (k', v) :: rest else (k', v') :: dict_set rest k v
  end.

(** [d[k]], which raises [KeyError] on a missing key. *)
Definition dict_getitem {V : Type} (d : dict V) (k : string) : result V :=
  match dict_get d k with
  | Some v => Ok v
  | None => Raise KeyError
  end.

(** [list(d.keys())]. *)
Definition dict_keys {V : Type} (d : dict V) : list string := map fst d.

(** The values [json] produces and consumes, which are also the values a
    model call returns. *)
#[warnings="-register-all"]
Inductive pyval : Type :=
| PNone
| PBool (b : bool)
| PInt (z : Z)
| PFloat (f : float)
| PStr (s : string)
| PList (l : list pyval)
| PDict (d : list (string * pyval)).

(** Truth value testing, as [if v:] and [not v] do it. *)
Definition truthy (v : pyval) : bool :=
  match v with
  | PNone => false
  | PBool b => b
  | PInt z => negb (z =? 0)
  | PFloat f => negb (PrimFloat.eqb f 0%float)
  | PStr s => negb (String.eqb s "")
  | PList l => match l with [] => false | _ :: _ => true end
  | PDict d => match d with [] => false | _ :: _ => true end
  end.

(** *** [str] methods

    A [str] is represented by the bytes of its UTF-8 encoding.  The
    sources search a text for ASCII characters only (braces, brackets,
    the code fence, field names), and these sit at the same places in
    both readings; an index is used only to cut the text where it was
    found. *)

Definition len (s : string) : Z := Z.of_nat (String.length s).

Fixpoint find_from (sub s : string) (i : Z) : Z :=
  if String.prefix sub s then i
  else match s with
       | EmptyString => -1
       | String _ s' => find_from sub s' (i + 1)
       end.

(** [s.find(sub)]: the lowest index of [sub] in [s], or [-1]. *)
Definition find (s sub : string) : Z := find_from sub s 0.

Fixpoint rfind_from (sub s : string) (i : Z) : Z :=
  match s with
  | EmptyString => if String.prefix sub s then i else -1
  | String _ s' =>
      let r := rfind_from sub s' (i + 1) in
      if 0 <=? r then r else if String.prefix sub s then i else -1
  end.

(** [s.rfind(sub)]: the highest index of [sub] in [s], or [-1]. *)
Definition rfind (s sub : string) : Z := rfind_from sub s 0.

(** How a slice bound is read against a sequence of length [n]: a
    negative bound counts from the end, and both are clipped. *)
Definition slice_bound (n i : Z) : Z :=
  if i <? 0 then Z.max 0 (n + i) else Z.min i n.

(** [s[start:stop]]; [None] is an omitted bound. *)
Definition slice (s : string) (start stop : option Z) : string :=
  let n := len s in
  let a := match start with Some i => slice_bound n i | None => 0 end in
  let b := match stop with Some j => slice_bound n j | None => n end in
  String.substring (Z.to_nat a) (Z.to_nat (b - a)) s.

(** [sub in s] for two strings. *)
Definition str_contains (s sub : string) : bool := 0 <=? find s sub.

Fixpoint split_go (sep s : string) (skip : nat) (cur : string) : list string :=
  match s with
  | EmptyString => [cur]
  | String c s' =>
      match skip with
      | S k => split_go sep s' k cur
      | O =>
          if String.prefix sep s
          then cur :: split_go sep s' (String.length sep - 1) ""
          else split_go sep s' 0 (String.append cur (String c ""))
      end
  end.

(** [s.split(sep)] for a given separator: the pieces between the
    occurrences of [sep], found from the left; an empty separator
    raises [ValueError]. *)
Definition split (s sep : string) : result (list string) :=
  if String.eqb sep "" then Raise ValueError else Ok (split_go sep s 0 "").

(** *** Operations on dynamically typed values *)

(** [obj.split(sep)]: only a [str] has the method. *)
Definition py_split (obj : pyval) (sep : string) : result (list string) :=
  match obj with
  | PStr s => split s sep
  | _ => Raise AttributeError
  end.

(** [l[i]] on a list, with Python's negative indices. *)
Definition list_getitem {A : Type} (l : list A) (i : Z) : result A :=
  let n := Z.of_nat (List.length l) in
  let j := if i <? 0 then n + i else i in
  if (0 <=? j) && (j <? n)
  then match nth_error l (Z.to_nat j) with
       | Some x => Ok x
       | None => Raise IndexError
       end
  else Raise IndexError.

(** [key in obj] for a [str] key. *)
Definition py_contains (obj : pyval) (key : string) : result bool :=
  match obj with
  | PStr s => Ok (str_contains s key)
  | PDict d => Ok (dict_mem d key)
  | PList l =>
      Ok (existsb (fun x => match x with
                            | PStr t => String.eqb t key
                            | _ => false
                            end) l)
  | PNone | PBool _ | PInt _ | PFloat _ => Raise TypeError
  end.

(** [obj[key]] for a [str] key. *)
Definition py_getitem (obj : pyval) (key : string) : result pyval :=
  match obj with
  | PDict d => dict_getitem d key
  | _ => Raise TypeError
  end.

(** [obj[key] = v] for a [str] key; the value of [obj] afterwards. *)
Definition py_setitem (obj : pyval) (key : string) (v : pyval) : result pyval :=
  match obj with
  | PDict d => Ok (PDict (dict_set d key v))
  | _ => Raise TypeError
  end.

(** Unpacking [obj] into keyword arguments (a call with two stars before
    [obj]): only a mapping unpacks. *)
Definition py_kwargs (obj : pyval) : result (dict pyval) :=
  match obj with
  | PDict d => Ok d
  | _ => Raise TypeError
  end.

(** [all(key in obj for key in keys)]. *)
Fixpoint all_in (keys : list string) (obj : pyval) : result bool :=
  match keys with
  | [] => Ok true
  | k :: rest =>
      match py_contains obj k with
      | Ok true => all_in rest obj
      | Ok false => Ok false
      | Raise e => Raise e
      end
  end.

End Py.

Notation "x <- c ;; k" := (Py.bind c (fun x => k))
  (at level 61, c at next level, right associativity).

(* --------------------------------------------------------------------- *)
(** ** The [json] module                                                  *)
(* --------------------------------------------------------------------- *)

(** The decoder follows [json.loads] with its default arguments, the
    encoder [json.dumps] on a [str] (where [ensure_ascii] holds).  The
    decoder's fuel is bounded by the length of the text, which every
    document fits; the limits of an interpreter (the recursion depth on
    deeply nested documents, the number of digits of an integer) are
    not modelled. *)
Module Json.
Import Py.

Definition byte_of (c : ascii) : Z := Z.of_N (N_of_ascii c).

Definition chr (z : Z) : ascii := ascii_of_N (Z.to_N z).

Definition quote : ascii := "034"%char.

Definition backslash : ascii := "092"%char.

Definition is_continuation (b : Z) : bool := (0x80 <=? b) && (b <? 0xC0).

(** The code points of a UTF-8 encoded text; a byte that starts no
    well-formed sequence is read as the code point of its value. *)
Fixpoint code_points (s : string) : list Z :=
  match s with
  | EmptyString => []
  | String c0 r0 =>
      let b0 := byte_of c0 in
      match r0 with
      | String c1 r1 =>
          let b1 := byte_of c1 in
          if (0xC0 <=? b0) && (b0 <? 0xE0) && is_continuation b1
          then Z.lor (Z.shiftl (Z.land b0 0x1F) 6) (Z.land b1 0x3F) :: code_points r1
          else
            match r1 with
            | String c2 r2 =>
                let b2 := byte_of c2 in
                if (0xE0 <=? b0) && (b0 <? 0xF0) && is_continuation b1 && is_continuation b2
                then Z.lor (Z.shiftl (Z.land b0 0x0F) 12)
                       (Z.lor (Z.shiftl (Z.land b1 0x3F) 6) (Z.land b2 0x3F))
                     :: code_points r2
                else
                  match r2 with
                  | String c3 r3 =>
                      let b3 := byte_of c3 in
                      if (0xF0 <=? b0) && (b0 <? 0xF8) && is_continuation b1
                         && is_continuation b2 && is_continuation b3
                      then Z.lor (Z.shiftl (Z.land b0 0x07) 18)
                             (Z.lor (Z.shiftl (Z.land b1 0x3F) 12)
                                (Z.lor (Z.shiftl (Z.land b2 0x3F) 6) (Z.land b3 0x3F)))
                           :: code_points r3
                      else b0 :: code_points r0
                  | EmptyString => b0 :: code_points r0
                  end
            | EmptyString => b0 :: code_points r0
            end
      | EmptyString => [b0]
      end
  end.

(** The UTF-8 encoding of one code point. *)
Definition utf8 (cp : Z) : string :=
  let cont (x : Z) := chr (Z.lor 0x80 (Z.land x 0x3F)) in
  if cp <? 0x80 then String (chr cp) ""
  else if cp <? 0x800 then
    String (chr (Z.lor 0xC0 (Z.shiftr cp 6))) (String (cont cp) "")
  else if cp <? 0x10000 then
    String (chr (Z.lor 0xE0 (Z.shiftr cp 12)))
      (String (cont (Z.shiftr cp 6)) (String (cont cp) ""))
  else
    String (chr (Z.lor 0xF0 (Z.shiftr cp 18)))
      (String (cont (Z.shiftr cp 12))
         (String (cont (Z.shiftr cp 6)) (String (cont cp) ""))).

(** *** Encoding a [str] *)

Definition hex_digit (d : Z) : ascii :=
  chr (if d <? 10 then 48 + d else 87 + d).

(** [backslash u] and the four lower-case hexadecimal digits of [n]. *)
Definition u_escape (n : Z) : string :=
  String backslash
    (String "u"
       (String (hex_digit (Z.land (Z.shiftr n 12) 15))
          (String (hex_digit (Z.land (Z.shiftr n 8) 15))
             (String (hex_digit (Z.land (Z.shiftr n 4) 15))
                (String (hex_digit (Z.land n 15)) ""))))).

Definition escape (cp : Z) : string :=
  if cp =? 34 then String backslash (String quote "")
  else if cp =? 92 then String backslash (String backslash "")
  else if cp =? 10 then String backslash "n"
  else if cp =? 13 then String backslash "r"
  else if cp =? 9 then String backslash "t"
  else if cp =? 8 then String backslash "b"
  else if cp =? 12 then String backslash "f"
  else if (32 <=? cp) && (cp <=? 126) then String (chr cp) ""
  else if cp <? 0x10000 then u_escape cp
  else
    let n := cp - 0x10000 in
    String.append (u_escape (Z.lor 0xD800 (Z.land (Z.shiftr n 10) 0x3FF)))
      (u_escape (Z.lor 0xDC00 (Z.land n 0x3FF))).

(** [json.dumps(s)] for a [str]: the quoted, escaped text. *)
Definition dumps_str (s : string) : string :=
  String quote
    (String.append (String.concat "" (map escape (code_points s)))
       (String quote "")).

(** *** Decoding *)

Definition is_ws (c : ascii) : bool :=
  let b := byte_of c in
  (b =? 32) || (b =? 9) || (b =? 10) || (b =? 13).

Fixpoint skip_ws (s : string) : string :=
  match s with
  | EmptyString => EmptyString
  | String c r => if is_ws c then skip_ws r else s
  end.

Definition is_digit (c : ascii) : bool :=
  let b := byte_of c in
  (48 <=? b) && (b <=? 57).

Fixpoint take_digits (s : string) : list Z * string :=
  match s with
  | EmptyString => ([], EmptyString)
  | String c r =>
      if is_digit c
      then let (ds, rest) := take_digits r in (byte_of c - 48 :: ds, rest)
      else ([], s)
  end.

Definition digits_value (ds : list Z) : Z :=
  fold_left (fun acc d => 10 * acc + d) ds 0.

(** The binary64 number nearest to [m * 10 ^ e] (ties to even), with the
    sign [neg], for [0 <= m]: what [float] makes of a decimal literal.
    For a negative exponent the quotient is taken with more than 64
    bits and a sticky last bit, and rounded once. *)
Definition float_of_decimal (neg : bool) (m e : Z) : float :=
  let signed (x : Z) := if neg then - x else x in
  if m =? 0 then (if neg then neg_zero else zero)
  else if 0 <=? e then
    SF2Prim (binary_normalize prec emax (signed (m * 10 ^ e)) 0 false)
  else
    let d := 10 ^ (- e) in
    let s := Z.max 0 (Z.log2 d + 66 - Z.log2 m) in
    let n := Z.shiftl m s in
    let q := 2 * (n / d) + (if n mod d =? 0 then 0 else 1) in
    SF2Prim (binary_normalize prec emax (signed q) (- s - 1) false).

(** A number at the head of [s], as the decoder's pattern reads it: an
    optional minus, [0] or a digit run without leading zero, an optional
    fraction, an optional exponent.  An [int] without fraction and
    exponent, a [float] otherwise. *)
Definition scan_number (s : string) : option (pyval * string) :=
  let (neg, s1) :=
    match s with
    | String "-" r => (true, r)
    | _ => (false, s)
    end in
  match s1 with
  | String c r =>
      if is_digit c then
        let (int_digits, s2) :=
          if Ascii.eqb c "0" then ([0], r) else take_digits s1 in
        let (frac, s3) :=
          match s2 with
          | String "." r2 =>
              match take_digits r2 with
              | ([], _) => (None, s2)
              | (fd, r3) => (Some fd, r3)
              end
          | _ => (None, s2)
          end in
        let (exp, s4) :=
          match s3 with
          | String e r3 =>
              if Ascii.eqb e "e" || Ascii.eqb e "E" then
                let (sign, r4) :=
                  match r3 with
                  | String "-" r' => (-1, r')
                  | String "+" r' => (1, r')
                  | _ => (1, r3)
                  end in
                match take_digits r4 with
                | ([], _) => (None, s3)
                | (ed, r5) => (Some (sign * digits_value ed), r5)
                end
              else (None, s3)
          | EmptyString => (None, s3)
          end in
        match frac, exp with
        | None, None =>
            let v := digits_value int_digits in
            Some (PInt (if neg then - v else v), s4)
        | _, _ =>
            let fd := match frac with Some fd => fd | None => [] end in
            let e := match exp with Some e => e | None => 0 end in
            Some (PFloat (float_of_decimal neg (digits_value (int_digits ++ fd))
                            (e - Z.of_nat (List.length fd))), s4)
        end
      else None
  | EmptyString => None
  end.

Definition hex_value (c : ascii) : option Z :=
  let b := byte_of c in
  if (48 <=? b) && (b <=? 57) then Some (b - 48)
  else if (97 <=? b) && (b <=? 102) then Some (b - 87)
  else if (65 <=? b) && (b <=? 70) then Some (b - 55)
  else None.

Definition hex4 (h1 h2 h3 h4 : ascii) : option Z :=
  match hex_value h1, hex_value h2, hex_value h3, hex_value h4 with
  | Some a, Some b, Some c, Some d => Some (((a * 16 + b) * 16 + c) * 16 + d)
  | _, _, _, _ => None
  end.

(** The character a one-letter escape stands for. *)
Definition simple_escape (c : ascii) : option ascii :=
  let b := byte_of c in
  if b =? 34 then Some quote
  else if b =? 92 then Some backslash
  else if b =? 47 then Some "/"%char
  else if b =? 98 then Some (chr 8)
  else if b =? 102 then Some (chr 12)
  else if b =? 110 then Some (chr 10)
  else if b =? 114 then Some (chr 13)
  else if b =? 116 then Some (chr 9)
  else None.

(** The pieces of a string literal: a character of the text, or the
    code unit of a [\u] escape. *)
Inductive item : Type :=
| Raw (c : ascii)
| Unit (u : Z).

(** The text after an opening quote, up to the closing one (strict
    mode: a control character in the literal is an error). *)
Fixpoint scan_string (s : string) : result (list item * string) :=
  match s with
  | EmptyString => Raise JSONDecodeError
  | String c r =>
      if Ascii.eqb c quote then Ok ([], r)
      else if Ascii.eqb c backslash then
        match r with
        | String e r' =>
            if Ascii.eqb e "u" then
              match r' with
              | String h1 (String h2 (String h3 (String h4 r''))) =>
                  match hex4 h1 h2 h3 h4 with
                  | Some u =>
                      match scan_string r'' with
                      | Ok (items, rest) => Ok (Unit u :: items, rest)
                      | Raise x => Raise x
                      end
                  | None => Raise JSONDecodeError
                  end
              | _ => Raise JSONDecodeError
              end
            else
              match simple_escape e with
              | Some ch =>
                  match scan_string r' with
                  | Ok (items, rest) => Ok (Raw ch :: items, rest)
                  | Raise x => Raise x
                  end
              | None => Raise JSONDecodeError
              end
        | EmptyString => Raise JSONDecodeError
        end
      else if byte_of c <? 32 then Raise JSONDecodeError
      else
        match scan_string r with
        | Ok (items, rest) => Ok (Raw c :: items, rest)
        | Raise x => Raise x
        end
  end.

(** The decoded text: two adjacent escapes that form a surrogate pair
    give one code point. *)
Fixpoint items_to_string (l : list item) : string :=
  match l with
  | [] => EmptyString
  | Raw c :: r => String c (items_to_string r)
  | Unit hi :: r =>
      match r with
      | Unit lo :: r' =>
          if (0xD800 <=? hi) && (hi <=? 0xDBFF) && (0xDC00 <=? lo) && (lo <=? 0xDFFF)
          then String.append
                 (utf8 (0x10000 + Z.lor (Z.shiftl (hi - 0xD800) 10) (lo - 0xDC00)))
                 (items_to_string r')
          else String.append (utf8 hi) (items_to_string r)
      | _ => String.append (utf8 hi) (items_to_string r)
      end
  end.

Definition scan_str (s : string) : result (string * string) :=
  match scan_string s with
  | Ok (items, rest) => Ok (items_to_string items, rest)
  | Raise x => Raise x
  end.

Definition starts_with (p s : string) : option string :=
  if String.prefix p s
  then Some (String.substring (String.length p) (String.length s) s)
  else None.

(** The constants of the grammar other than numbers, in the order the
    scanner tries them around the number pattern. *)
Definition scan_constant (s : string) : option (pyval * string) :=
  match starts_with "null" s with
  | Some r => Some (PNone, r)
  | None =>
  match starts_with "true" s with
  | Some r => Some (PBool true, r)
  | None =>
  match starts_with "false" s with
  | Some r => Some (PBool false, r)
  | None =>
  match scan_number s with
  | Some vr => Some vr
  | None =>
  match starts_with "NaN" s with
  | Some r => Some (PFloat nan, r)
  | None =>
  match starts_with "Infinity" s with
  | Some r => Some (PFloat infinity, r)
  | None =>
  match starts_with "-Infinity" s with
  | Some r => Some (PFloat neg_infinity, r)
  | None => None
  end end end end end end end.

(** One value at the head of [s], and the text after it.  [members]
    reads an object from the first character of a key on, [elements] an
    array from the first character of a value on. *)
Fixpoint parse_value (fuel : nat) (s : string) : result (pyval * string) :=
  match fuel with
  | O => Raise JSONDecodeError
  | S fuel' =>
      match s with
      | EmptyString => Raise JSONDecodeError
      | String c rest =>
          if Ascii.eqb c quote then
            match scan_str rest with
            | Ok (t, r) => Ok (PStr t, r)
            | Raise x => Raise x
            end
          else if Ascii.eqb c "{" then
            match skip_ws rest with
            | String c' r =>
                if Ascii.eqb c' "}" then Ok (PDict [], r)
                else if Ascii.eqb c' quote then members fuel' r []
                else Raise JSONDecodeError
            | EmptyString => Raise JSONDecodeError
            end
          else if Ascii.eqb c "[" then
            match skip_ws rest with
            | String "]" r => Ok (PList [], r)
            | s' => elements fuel' s' []
            end
          else
            match scan_constant s with
            | Some vr => Ok vr
            | None => Raise JSONDecodeError
            end
      end
  end
with members (fuel : nat) (s : string) (acc : dict pyval) : result (pyval * string) :=
  match fuel with
  | O => Raise JSONDecodeError
  | S fuel' =>
      match scan_str s with
      | Raise x => Raise x
      | Ok (key, r) =>
          match skip_ws r with
          | String ":" r1 =>
              match parse_value fuel' (skip_ws r1) with
              | Raise x => Raise x
              | Ok (v, r2) =>
                  let acc' := dict_set acc key v in
                  match skip_ws r2 with
                  | String c r3 =>
                      if Ascii.eqb c "}" then Ok (PDict acc', r3)
                      else if Ascii.eqb c "," then
                        match skip_ws r3 with
                        | String c' r4 =>
                            if Ascii.eqb c' quote then members fuel' r4 acc'
                            else Raise JSONDecodeError
                        | EmptyString => Raise JSONDecodeError
                        end
                      else Raise JSONDecodeError
                  | EmptyString => Raise JSONDecodeError
                  end
              end
          | _ => Raise JSONDecodeError
          end
      end
  end
with elements (fuel : nat) (s : string) (acc : list pyval) : result (pyval * string) :=
  match fuel with
  | O => Raise JSONDecodeError
  | S fuel' =>
      match parse_value fuel' s with
      | Raise x => Raise x
      | Ok (v, r) =>
          match skip_ws r with
          | String c r' =>
              if Ascii.eqb c "]" then Ok (PList (rev (v :: acc)), r')
              else if Ascii.eqb c "," then elements fuel' (skip_ws r') (v :: acc)
              else Raise JSONDecodeError
          | EmptyString => Raise JSONDecodeError
          end
      end
  end.

(** [json.loads(s)]: one value between optional white space, and nothing
    after it. *)
Definition loads (s : string) : result pyval :=
  match parse_value (2 * String.length s + 2) (skip_ws s) with
  | Raise x => Raise x
  | Ok (v, rest) =>
      match skip_ws rest with
      | EmptyString => Ok v
      | String _ _ => Raise JSONDecodeError
      end
  end.

End Json.

(* --------------------------------------------------------------------- *)
(** ** utils/ollama_utils.py                                              *)
(* --------------------------------------------------------------------- *)

Module OllamaUtils.
Import Py.

(** The body of the [try] of [extract_json_from_response]. *)
Definition extract_body (content : string) : result pyval :=
  let json_start := find content "{" in
  let json_end := rfind content "}" + 1 in
  if (0 <=? json_start) && (json_start <? json_end) then
    let json_str := slice content (Some json_start) (Some json_end) in
    Json.loads json_str
  else
    let json_start := find content "[" in
    let json_end := rfind content "]" + 1 in
    if (0 <=? json_start) && (json_start <? json_end) then
      let json_str := slice content (Some json_start) (Some json_end) in
      Json.loads json_str
    else Ok PNone.

(** [extract_json_from_response(content)]: any exception of the body is
    printed and turned into [None]. *)
Definition extract_json_from_response (content : string) : result pyval :=
  try_except (extract_body content) any_Exception (fun _ => Ok PNone).

End OllamaUtils.

(* --------------------------------------------------------------------- *)
(** ** utils/llm.py                                                       *)
(* --------------------------------------------------------------------- *)

Module Llm.
Import Py.

(** The field annotations of the record classes.  [TList] is [list[X]]
    or [List[X]], [TDict] is [Dict[K, V]], [TLiteral] a [Literal] of
    strings (it has at least one value), [TModel] a nested record
    class. *)
Inductive annotation : Type :=
| TStr
| TFloat
| TInt
| TBool
| TAny
| TList (a : annotation)
| TDict (k v : annotation)
| TOptional (a : annotation)
| TLiteral (v : string) (vs : list string)
| TModel (name : string).

(** A record class, by its [model_fields] in declaration order. *)
Definition model_class : Type := list (string * annotation).

(** What [create_default_response] puts into [default_values]: a value,
    or a class object (the first type argument of a generic alias). *)
Inductive default_value : Type :=
| DValue (v : pyval)
| DClass (a : annotation).

(** The chain of tests on [field.annotation].  A generic alias other
    than a [dict] has [__args__], and so has [Optional] and [Literal];
    [bool], [Any] and a record class have not. *)
Definition default_for (a : annotation) : default_value :=
  match a with
  | TStr => DValue (PStr "Error in analysis, using default")
  | TFloat => DValue (PFloat 0%float)
  | TInt => DValue (PInt 0)
  | TDict _ _ => DValue (PDict [])
  | TList x => DClass x
  | TOptional x => DClass x
  | TLiteral v _ => DValue (PStr v)
  | TBool | TAny | TModel _ => DValue PNone
  end.

(** Whether the validation of a field annotated [a] accepts a default
    value (judged on the values [default_for] can produce). *)
Definition accepts (a : annotation) (d : default_value) : bool :=
  match a, d with
  | TAny, _ => true
  | TStr, DValue (PStr _) => true
  | TFloat, DValue (PFloat _) => true
  | TInt, DValue (PInt _) => true
  | TBool, DValue (PBool _) => true
  | TDict _ _, DValue (PDict []) => true
  | TOptional _, DValue PNone => true
  | TLiteral v vs, DValue (PStr s) => existsb (String.eqb s) (v :: vs)
  | _, _ => false
  end.

(** The call of [model_class] on the unpacked [default_values]: the
    validated field values of the new instance, or [ValidationError]. *)
Fixpoint construct (fields : model_class) (values : dict default_value)
  : result (dict pyval) :=
  match fields with
  | [] => Ok []
  | (name, a) :: rest =>
      match dict_get values name with
      | Some (DValue v) =>
          if accepts a (DValue v)
          then match construct rest values with
               | Ok inst => Ok ((name, v) :: inst)
               | Raise e => Raise e
               end
          else Raise ValidationError
      | Some (DClass _) | None => Raise ValidationError
      end
  end.

(** [create_default_response(model_class)]. *)
Definition create_default_response (cls : model_class) : result (dict pyval) :=
  let default_values :=
    fold_left (fun acc '(field_name, a) => dict_set acc field_name (default_for a))
      cls [] in
  construct cls default_values.

End Llm.

(* --------------------------------------------------------------------- *)
(** ** agents: the signal records                                         *)
(* --------------------------------------------------------------------- *)

Module SamAltman.
Import Py.

Record SamAltmanSignal : Type := {
  opportunity_score : float;
  market_potential : float;
  technical_feasibility : float;
  reasoning : string;
  key_insights : list string;
  potential_risks : list string
}.

Definition model_fields : Llm.model_class :=
  [("opportunity_score", Llm.TFloat); ("market_potential", Llm.TFloat);
   ("technical_feasibility", Llm.TFloat); ("reasoning", Llm.TStr);
   ("key_insights", Llm.TList Llm.TStr); ("potential_risks", Llm.TList Llm.TStr)].

(** The record [generate_altman_output] builds when no JSON is found in
    the response or the JSON does not parse. *)
Definition default_parsed : pyval :=
  PDict [("opportunity_score", PFloat 0.5%float);
         ("market_potential", PFloat 0.5%float);
         ("technical_feasibility", PFloat 0.5%float);
         ("reasoning", PStr "Unable to generate detailed reasoning.");
         ("key_insights", PList [PStr "Default insight"]);
         ("potential_risks", PList [PStr "Default risk"])].

Definition is_JSONDecodeError (e : exn) : bool :=
  match e with
  | JSONDecodeError => true
  | _ => false
  end.

(** From the response of the model call to [parsed_response]: a [str]
    is searched for a JSON object, anything else is taken as it is. *)
Definition parse_response (response : pyval) : result pyval :=
  match response with
  | PStr s =>
      try_except
        (let json_start := find s "{" in
         let json_end := rfind s "}" + 1 in
         if (0 <=? json_start) && (json_start <? json_end)
         then Json.loads (slice s (Some json_start) (Some json_end))
         else Ok default_parsed)
        is_JSONDecodeError
        (fun _ => Ok default_parsed)
  | _ => Ok response
  end.

(** [if key not in parsed_response: parsed_response[key] = default]. *)
Definition ensure_field (key : string) (default : pyval) (parsed_response : pyval)
  : result pyval :=
  present <- py_contains parsed_response key ;;
  if present then Ok parsed_response else py_setitem parsed_response key default.

(** The block that ensures all required fields are present. *)
Definition ensure_required_fields (parsed_response : pyval) : result pyval :=
  p <- ensure_field "opportunity_score" (PFloat 0.5%float) parsed_response ;;
  p <- ensure_field "market_potential" (PFloat 0.5%float) p ;;
  p <- ensure_field "technical_feasibility" (PFloat 0.5%float) p ;;
  p <- ensure_field "reasoning" (PStr "Unable to generate detailed reasoning.") p ;;
  p <- ensure_field "key_insights" (PList [PStr "Default insight"]) p ;;
  ensure_field "potential_risks" (PList [PStr "Default risk"]) p.

(** The signal returned when anything in the [try] raises. *)
Definition error_signal : SamAltmanSignal := {|
  opportunity_score := 0.5%float;
  market_potential := 0.5%float;
  technical_feasibility := 0.5%float;
  reasoning := "Error occurred during evaluation.";
  key_insights := ["Default insight"];
  potential_risks := ["Default risk"]
|}.

(** [generate_altman_output], from the outcome of its model call on.
    [init] is the validating constructor of [SamAltmanSignal] applied
    to keyword arguments (pydantic's, taken as given). *)
Definition generate_altman_output
  (init : dict pyval -> result SamAltmanSignal) (llm_outcome : result pyval)
  : result SamAltmanSignal :=
  try_except
    (response <- llm_outcome ;;
     parsed_response <- parse_response response ;;
     parsed_response <- ensure_required_fields parsed_response ;;
     kwargs <- py_kwargs parsed_response ;;
     init kwargs)
    any_Exception
    (fun _ => Ok error_signal).

End SamAltman.

Module DemisHassabis.

Record DemisHassabisSignal : Type := {
  scientific_breakthrough_potential : float;
  technical_advancement : float;
  research_feasibility : float;
  reasoning : string;
  key_breakthroughs : list string;
  research_challenges : list string
}.

End DemisHassabis.

Module ElonMusk.

Record ElonMuskSignal : Type := {
  opportunity_score : float;
  market_potential : float;
  technical_feasibility : float;
  reasoning : string;
  key_insights : list string;
  potential_risks : list string
}.

End ElonMusk.

Module AdamDAngelo.

Record AdamDAngeloSignal : Type := {
  platform_potential : float;
  ai_infrastructure : float;
  social_impact : float;
  reasoning : string;
  key_features : list string;
  platform_challenges : list string
}.

End AdamDAngelo.

Module DanielGross.

Record DanielGrossSignal : Type := {
  startup_potential : float;
  ai_infrastructure : float;
  market_fit : float;
  reasoning : string;
  key_advantages : list string;
  startup_challenges : list string
}.

End DanielGross.

Module SebastianThrun.

Record SebastianThrunSignal : Type := {
  autonomous_systems_score : float;
  educational_impact : float;
  innovation_potential : float;
  reasoning : string;
  key_innovations : list string;
  technical_challenges : list string
}.

End SebastianThrun.

Module EmadMostaque.

Record EmadMostaqueSignal : Type := {
  infrastructure_score : float;
  open_source_potential : float;
  community_impact : float;
  reasoning : string;
  key_infrastructure : list string;
  community_challenges : list string
}.

End EmadMostaque.

Module ClementDelangue.

Record ClementDelangueSignal : Type := {
  ai_innovation_score : float;
  practical_application : float;
  technical_feasibility : float;
  reasoning : string;
  key_ai_features : list string;
  implementation_challenges : list string
}.

End ClementDelangue.

(* --------------------------------------------------------------------- *)
(** ** agents/project_advisor.py                                          *)
(* --------------------------------------------------------------------- *)

Module ProjectAdvisor.
Import Py.

Record ProjectTimeline : Type := {
  phase1 : string;
  phase2 : string;
  phase3 : string;
  phase4 : string;
  total_duration : string;
  key_milestones : list string
}.

Record ProjectRecommendation : Type := {
  pursue_project : bool;
  confidence_score : float;
  key_factors : list string;
  resource_requirements : list string;
  timeline : ProjectTimeline;
  next_steps : list string;
  alternative_suggestions : list string
}.

Definition required_fields : list string :=
  ["pursue_project"; "confidence_score"; "key_factors"; "resource_requirements";
   "timeline"; "next_steps"; "alternative_suggestions"].

Definition timeline_fields : list string :=
  ["phase1"; "phase2"; "phase3"; "phase4"; "total_duration"; "key_milestones"].

(** The recommendation of the [except] branch. *)
Definition fallback_recommendation : ProjectRecommendation := {|
  pursue_project := false;
  confidence_score := 0%float;
  key_factors :=
    ["Error occurred during analysis"; "Unable to parse recommendation";
     "Please check the input data and try again"];
  resource_requirements :=
    ["Technical review needed"; "Data validation required"; "System check necessary"];
  timeline := {|
    phase1 := "Analysis phase pending";
    phase2 := "Development phase pending";
    phase3 := "Testing phase pending";
    phase4 := "Launch phase pending";
    total_duration := "To be determined";
    key_milestones :=
      ["Initial analysis completion"; "Technical validation"; "Resource assessment"]
  |};
  next_steps :=
    ["Review input data for completeness"; "Validate agent insights";
     "Retry analysis with verified data"];
  alternative_suggestions :=
    ["Consider simplifying the product idea"; "Break down into smaller components";
     "Gather more specific requirements"]
|}.

(** The body of the [try] of [_generate_recommendation], from the value
    [call_llm] returned.  [init] is the validating constructor of
    [ProjectRecommendation] applied to keyword arguments. *)
Definition parse_recommendation
  (init : dict pyval -> result ProjectRecommendation) (response : pyval)
  : result ProjectRecommendation :=
  parts <- py_split response "```" ;;
  response <- list_getitem parts 1 ;;
  let recommendation_data := PStr (Json.dumps_str response) in
  present <- all_in required_fields recommendation_data ;;
  if negb present then Raise ValueError else
  timeline_data <- py_getitem recommendation_data "timeline" ;;
  present <- all_in timeline_fields timeline_data ;;
  if negb present then Raise ValueError else
  kwargs <- py_kwargs recommendation_data ;;
  init kwargs.

(** [_generate_recommendation], from the outcome of [call_llm] on: the
    call stands before the [try], so its exception propagates. *)
Definition _generate_recommendation
  (init : dict pyval -> result ProjectRecommendation) (llm_outcome : result pyval)
  : result ProjectRecommendation :=
  response <- llm_outcome ;;
  try_except (parse_recommendation init response) any_Exception
    (fun _ => Ok fallback_recommendation).

End ProjectAdvisor.

(* --------------------------------------------------------------------- *)
(** ** agent_selector.py                                                  *)
(* --------------------------------------------------------------------- *)

Module AgentSelector.
Import Py.

(** [AgentConfig].  The class does not validate assignments, so after a
    load [enabled] and [priority] hold whatever JSON value the file
    gave. *)
Record AgentConfig : Type := {
  name : string;
  description : string;
  enabled : pyval;
  priority : pyval
}.

Definition with_enabled (a : AgentConfig) (v : pyval) : AgentConfig :=
  {| name := name a; description := description a; enabled := v; priority := priority a |}.

Definition with_priority (a : AgentConfig) (v : pyval) : AgentConfig :=
  {| name := name a; description := description a; enabled := enabled a; priority := v |}.

(** What is stored under [config_file]: nothing, a file that cannot be
    read as JSON, or a file holding a JSON document.  The file is
    represented by the document it holds: what [json.dump] writes,
    [json.load] reads back (the values of the agents' fields are
    booleans, integers or values that came from a file). *)
Inductive file_content : Type :=
| NoFile
| Unreadable
| Document (v : pyval).

(** The storage: the content under [config_file], and whether the file
    can be written. *)
Record disk : Type := {
  content : file_content;
  writable : bool
}.

(** The default agent configurations of [__init__]. *)
Definition default_agents : dict AgentConfig :=
  [("sam_altman",
    {| name := "Sam Altman";
       description := "Evaluates startup potential, market fit, and technical feasibility";
       enabled := PBool true; priority := PInt 1 |});
   ("demis_hassabis",
    {| name := "Demis Hassabis";
       description := "Analyzes scientific breakthroughs, technical advancement, and research feasibility";
       enabled := PBool true; priority := PInt 2 |});
   ("elon_musk",
    {| name := "Elon Musk";
       description := "Assesses innovation potential, market disruption, and technical feasibility";
       enabled := PBool true; priority := PInt 3 |});
   ("adam_dangelo",
    {| name := "Adam D'Angelo";
       description := "Evaluates platform potential, AI infrastructure, and social impact";
       enabled := PBool true; priority := PInt 4 |});
   ("daniel_gross",
    {| name := "Daniel Gross";
       description := "Analyzes startup potential, AI infrastructure, and market fit";
       enabled := PBool true; priority := PInt 5 |});
   ("sebastian_thrun",
    {| name := "Sebastian Thrun";
       description := "Evaluates autonomous systems, educational impact, and innovation potential";
       enabled := PBool true; priority := PInt 6 |});
   ("emad_mostaque",
    {| name := "Emad Mostaque";
       description := "Assesses AI infrastructure, community impact, and open source potential";
       enabled := PBool true; priority := PInt 7 |});
   ("clement_delangue",
    {| name := "Clement Delangue";
       description := "Analyzes AI innovation, technical feasibility, and practical applications";
       enabled := PBool true; priority := PInt 8 |});
   ("project_advisor",
    {| name := "Project Advisor";
       description := "Provides final recommendation and timeline based on all other agents";
       enabled := PBool true; priority := PInt 9 |})].

(** [config.get(key, default)] on one entry of the stored document:
    only a [dict] has the method. *)
Definition config_get (config : pyval) (key : string) (default : pyval) : result pyval :=
  match config with
  | PDict c =>
      Ok (match dict_get c key with
          | Some v => v
          | None => default
          end)
  | _ => Raise AttributeError
  end.

(** The loop of [_load_config] over [config_data.items()].  The agents
    are updated in place, so an exception leaves the assignments made
    before it. *)
Fixpoint load_items (items : dict pyval) (agents : dict AgentConfig)
  : dict AgentConfig * result unit :=
  match items with
  | [] => (agents, Ok tt)
  | (agent_id, config) :: rest =>
      match dict_get agents agent_id with
      | Some a =>
          match config_get config "enabled" (PBool true) with
          | Raise e => (agents, Raise e)
          | Ok e =>
              let a1 := with_enabled a e in
              let agents1 := dict_set agents agent_id a1 in
              match config_get config "priority" (PInt 0) with
              | Raise x => (agents1, Raise x)
              | Ok p => load_items rest (dict_set agents1 agent_id (with_priority a1 p))
              end
          end
      | None => load_items rest agents
      end
  end.

(** [_load_config]: every exception is caught and printed. *)
Definition _load_config (d : disk) (agents : dict AgentConfig) : dict AgentConfig :=
  match content d with
  | NoFile => agents
  | Unreadable => agents
  | Document (PDict items) => fst (load_items items agents)
  | Document _ => agents
  end.

(** [AgentSelector(config_file)]: the agents of the new selector. *)
Definition init (d : disk) : dict AgentConfig := _load_config d default_agents.

(** The document [_save_config] writes. *)
Definition config_data (agents : dict AgentConfig) : pyval :=
  PDict (map (fun '(agent_id, agent) =>
                (agent_id, PDict [("enabled", enabled agent); ("priority", priority agent)]))
           agents).

(** [_save_config]: the file is rewritten as a whole; when it cannot be
    written the exception is caught and printed. *)
Definition _save_config (agents : dict AgentConfig) (d : disk) : disk :=
  if writable d
  then {| content := Document (config_data agents); writable := writable d |}
  else d.

(** [toggle_agent(agent_id)]: the returned flag, the agents and the
    storage afterwards. *)
Definition toggle_agent (agents : dict AgentConfig) (d : disk) (agent_id : string)
  : bool * dict AgentConfig * disk :=
  match dict_get agents agent_id with
  | Some a =>
      if String.eqb agent_id "project_advisor" then (false, agents, d)
      else
        let agents' := dict_set agents agent_id (with_enabled a (PBool (negb (truthy (enabled a))))) in
        (true, agents', _save_config agents' d)
  | None => (false, agents, d)
  end.

(** [set_agent_priority(agent_id, priority)]. *)
Definition set_agent_priority (agents : dict AgentConfig) (d : disk)
  (agent_id : string) (p : Z) : bool * dict AgentConfig * disk :=
  match dict_get agents agent_id with
  | Some a =>
      let agents' := dict_set agents agent_id (with_priority a (PInt p)) in
      (true, agents', _save_config agents' d)
  | None => (false, agents, d)
  end.

(** [get_enabled_agents()]. *)
Definition get_enabled_agents (agents : dict AgentConfig) : dict AgentConfig :=
  filter (fun '(_, agent) => truthy (enabled agent)) agents.

(** The registry operations a session performs on one selector. *)
Inductive operation : Type :=
| Toggle (agent_id : string)
| SetPriority (agent_id : string) (p : Z)
| Save.

Definition step (st : dict AgentConfig * disk) (o : operation) : dict AgentConfig * disk :=
  let (agents, d) := st in
  match o with
  | Toggle agent_id =>
      let '(_, agents', d') := toggle_agent agents d agent_id in (agents', d')
  | SetPriority agent_id p =>
      let '(_, agents', d') := set_agent_priority agents d agent_id p in (agents', d')
  | Save => (agents, _save_config agents d)
  end.

(** A session: a selector is constructed over the storage and the
    operations are applied in turn. *)
Definition session (d : disk) (ops : list operation) : dict AgentConfig * disk :=
  fold_left step ops (init d, d).

End AgentSelector.

(* --------------------------------------------------------------------- *)
(** ** orchestrator.py                                                    *)
(* --------------------------------------------------------------------- *)

Module Orchestrator.
Import Py.

(** What a slot of [agent_insights] holds: [None], or the record an
    agent returned. *)
Inductive insight : Type :=
| INone
| ISamAltman (s : SamAltman.SamAltmanSignal)
| IDemisHassabis (s : DemisHassabis.DemisHassabisSignal)
| IElonMusk (s : ElonMusk.ElonMuskSignal)
| IAdamDAngelo (s : AdamDAngelo.AdamDAngeloSignal)
| IDanielGross (s : DanielGross.DanielGrossSignal)
| ISebastianThrun (s : SebastianThrun.SebastianThrunSignal)
| IEmadMostaque (s : EmadMostaque.EmadMostaqueSignal)
| IClementDelangue (s : ClementDelangue.ClementDelangueSignal)
| IProjectRecommendation (r : ProjectAdvisor.ProjectRecommendation).

Record ProductEvaluation : Type := {
  product_idea : string;
  overall_score : float;
  market_potential : float;
  technical_feasibility : float;
  innovation_potential : float;
  key_insights : list string;
  potential_risks : list string;
  agent_insights : dict insight;
  recommendations : list string;
  project_recommendation : insight
}.

(** The data of the [AgentState] handed to every agent. *)
Record AgentState : Type := {
  state_product_idea : string;
  state_market_context : dict pyval;
  state_technical_context : dict pyval;
  state_user_background : dict pyval
}.

(** The nine agent functions: what each returns or raises on a state.
    They call the model backend, so they are taken as given. *)
Record agent_functions : Type := {
  sam_altman_agent : AgentState -> result SamAltman.SamAltmanSignal;
  demis_hassabis_agent : AgentState -> result DemisHassabis.DemisHassabisSignal;
  elon_musk_agent : AgentState -> result ElonMusk.ElonMuskSignal;
  adam_dangelo_agent : AgentState -> result AdamDAngelo.AdamDAngeloSignal;
  daniel_gross_agent : AgentState -> result DanielGross.DanielGrossSignal;
  sebastian_thrun_agent : AgentState -> result SebastianThrun.SebastianThrunSignal;
  emad_mostaque_agent : AgentState -> result EmadMostaque.EmadMostaqueSignal;
  clement_delangue_agent : AgentState -> result ClementDelangue.ClementDelangueSignal;
  project_advisor_agent : AgentState -> result ProjectAdvisor.ProjectRecommendation
}.

(** What [_generate_recommendations] formats into its prompt. *)
Record recommendations_prompt : Type := {
  prompt_product_idea : string;
  prompt_overall_score : float;
  prompt_market_potential : float;
  prompt_technical_feasibility : float;
  prompt_scientific_breakthrough_potential : float;
  prompt_key_insights : list string;
  prompt_potential_risks : list string
}.

(** [call_llm] on that prompt: the value it returns, or the exception
    it raises. *)
Definition llm : Type := recommendations_prompt -> result pyval.

Definition lift {A : Type} (wrap : A -> insight) (f : AgentState -> result A)
  : AgentState -> result insight :=
  fun state =>
    match f state with
    | Ok a => Ok (wrap a)
    | Raise e => Raise e
    end.

(** [self.all_agents], in registration order. *)
Definition all_agents (fs : agent_functions) : dict (AgentState -> result insight) :=
  [("Sam Altman", lift ISamAltman (sam_altman_agent fs));
   ("Demis Hassabis", lift IDemisHassabis (demis_hassabis_agent fs));
   ("Elon Musk", lift IElonMusk (elon_musk_agent fs));
   ("Adam D'Angelo", lift IAdamDAngelo (adam_dangelo_agent fs));
   ("Daniel Gross", lift IDanielGross (daniel_gross_agent fs));
   ("Sebastian Thrun", lift ISebastianThrun (sebastian_thrun_agent fs));
   ("Emad Mostaque", lift IEmadMostaque (emad_mostaque_agent fs));
   ("Clement Delangue", lift IClementDelangue (clement_delangue_agent fs));
   ("Project Advisor", lift IProjectRecommendation (project_advisor_agent fs))].

(** *** [_generate_recommendations] *)

Definition fallback_recommendations : list string :=
  ["Conduct more detailed market research";
   "Develop a minimum viable product (MVP)";
   "Assemble a diverse team with complementary skills";
   "Create a detailed roadmap with milestones";
   "Establish key performance indicators (KPIs)"].

(** [except (json.JSONDecodeError, TypeError, ValueError)]. *)
Definition caught_by_parse_handler (e : exn) : bool :=
  is_ValueError e || is_TypeError e.

(** [scores.get(key, 0)]. *)
Definition scores_get (scores : dict float) (key : string) : float :=
  match dict_get scores key with
  | Some v => v
  | None => 0%float
  end.

(** The statements of the [try] after the model call.  The serialised
    response is a [str], never a [dict], so the [return] under the
    [isinstance] test is skipped and control falls through to the
    fallback list. *)
Definition parse_recommendations (response : pyval) : result (list string) :=
  parts <- py_split response "```" ;;
  response <- list_getitem parts 1 ;;
  let recommendations : string := Json.dumps_str response in
  Ok fallback_recommendations.

(** [_generate_recommendations].  The handler prints [response]; when
    the model call itself raised, that name is unbound there. *)
Definition _generate_recommendations (call_llm : llm) (product_idea : string)
  (scores : dict float) (key_insights potential_risks : list string)
  : result (list string) :=
  let prompt := {|
    prompt_product_idea := product_idea;
    prompt_overall_score := scores_get scores "opportunity_score";
    prompt_market_potential := scores_get scores "market_potential";
    prompt_technical_feasibility := scores_get scores "technical_feasibility";
    prompt_scientific_breakthrough_potential :=
      scores_get scores "scientific_breakthrough_potential";
    prompt_key_insights := key_insights;
    prompt_potential_risks := potential_risks
  |} in
  match call_llm prompt with
  | Raise e => if caught_by_parse_handler e then Raise UnboundLocalError else Raise e
  | Ok response =>
      try_except (parse_recommendations response) caught_by_parse_handler
        (fun _ => Ok fallback_recommendations)
  end.

(** *** [_combine_insights]: the scores *)

Definition initial_scores : dict float :=
  [("opportunity_score", 0%float);
   ("market_potential", 0%float);
   ("technical_feasibility", 0%float);
   ("scientific_breakthrough_potential", 0%float);
   ("technical_advancement", 0%float);
   ("research_feasibility", 0%float);
   ("startup_potential", 0%float);
   ("ai_infrastructure", 0%float);
   ("platform_potential", 0%float);
   ("social_impact", 0%float);
   ("autonomous_systems_score", 0%float);
   ("educational_impact", 0%float);
   ("innovation_potential", 0%float)].

(** [{k: 0 for k in scores.keys()}]. *)
Definition initial_counts : dict Z := map (fun '(k, _) => (k, 0)) initial_scores.

(** The conversion of an [int] to a [float] that a division of a
    [float] by an [int] performs. *)
Definition float_of_int (z : Z) : float :=
  SF2Prim (binary_normalize prec emax z 0 false).

(** [scores[key] += x]. *)
Definition score_add (scores : dict float) (key : string) (x : float)
  : result (dict float) :=
  v <- dict_getitem scores key ;;
  Ok (dict_set scores key (v + x)%float).

(** [score_counts[key] += 1]. *)
Definition count_incr (score_counts : dict Z) (key : string) : result (dict Z) :=
  c <- dict_getitem score_counts key ;;
  Ok (dict_set score_counts key (c + 1)).

(** The running sums and counts. *)
Definition tally : Type := (dict float * dict Z)%type.

Fixpoint add_all (scores : dict float) (entries : list (string * float))
  : result (dict float) :=
  match entries with
  | [] => Ok scores
  | (key, x) :: rest => scores' <- score_add scores key x ;; add_all scores' rest
  end.

Fixpoint incr_all (score_counts : dict Z) (keys : list string) : result (dict Z) :=
  match keys with
  | [] => Ok score_counts
  | key :: rest => counts' <- count_incr score_counts key ;; incr_all counts' rest
  end.

(** The body of one "Process ...'s insights" block: the three additions
    to [scores], then the three increments of [score_counts]. *)
Definition accumulate (t : tally) (entries : list (string * float)) : result tally :=
  let (scores, score_counts) := t in
  scores' <- add_all scores entries ;;
  counts' <- incr_all score_counts (map fst entries) ;;
  Ok (scores', counts').

(** The [isinstance] tests on [agent_insights.get(name)]. *)
Definition as_SamAltman (o : option insight) : option SamAltman.SamAltmanSignal :=
  match o with Some (ISamAltman s) => Some s | _ => None end.

Definition as_DemisHassabis (o : option insight) : option DemisHassabis.DemisHassabisSignal :=
  match o with Some (IDemisHassabis s) => Some s | _ => None end.

Definition as_ElonMusk (o : option insight) : option ElonMusk.ElonMuskSignal :=
  match o with Some (IElonMusk s) => Some s | _ => None end.

Definition as_AdamDAngelo (o : option insight) : option AdamDAngelo.AdamDAngeloSignal :=
  match o with Some (IAdamDAngelo s) => Some s | _ => None end.

Definition as_DanielGross (o : option insight) : option DanielGross.DanielGrossSignal :=
  match o with Some (IDanielGross s) => Some s | _ => None end.

Definition as_SebastianThrun (o : option insight) : option SebastianThrun.SebastianThrunSignal :=
  match o with Some (ISebastianThrun s) => Some s | _ => None end.

Definition as_EmadMostaque (o : option insight) : option EmadMostaque.EmadMostaqueSignal :=
  match o with Some (IEmadMostaque s) => Some s | _ => None end.

Definition as_ClementDelangue (o : option insight) : option ClementDelangue.ClementDelangueSignal :=
  match o with Some (IClementDelangue s) => Some s | _ => None end.

Definition as_ProjectRecommendation (o : option insight)
  : option ProjectAdvisor.ProjectRecommendation :=
  match o with Some (IProjectRecommendation r) => Some r | _ => None end.

(** The score entries each agent's block adds, in the order of its
    statements. *)
Definition altman_entries (s : SamAltman.SamAltmanSignal) : list (string * float) :=
  [("opportunity_score", SamAltman.opportunity_score s);
   ("market_potential", SamAltman.market_potential s);
   ("technical_feasibility", SamAltman.technical_feasibility s)].

Definition hassabis_entries (s : DemisHassabis.DemisHassabisSignal) : list (string * float) :=
  [("scientific_breakthrough_potential", DemisHassabis.scientific_breakthrough_potential s);
   ("technical_advancement", DemisHassabis.technical_advancement s);
   ("research_feasibility", DemisHassabis.research_feasibility s)].

Definition musk_entries (s : ElonMusk.ElonMuskSignal) : list (string * float) :=
  [("opportunity_score", ElonMusk.opportunity_score s);
   ("market_potential", ElonMusk.market_potential s);
   ("technical_feasibility", ElonMusk.technical_feasibility s)].

Definition dangelo_entries (s : AdamDAngelo.AdamDAngeloSignal) : list (string * float) :=
  [("platform_potential", AdamDAngelo.platform_potential s);
   ("ai_infrastructure", AdamDAngelo.ai_infrastructure s);
   ("social_impact", AdamDAngelo.social_impact s)].

Definition gross_entries (s : DanielGross.DanielGrossSignal) : list (string * float) :=
  [("startup_potential", DanielGross.startup_potential s);
   ("ai_infrastructure", DanielGross.ai_infrastructure s);
   ("market_potential", DanielGross.market_fit s)].

Definition thrun_entries (s : SebastianThrun.SebastianThrunSignal) : list (string * float) :=
  [("autonomous_systems_score", SebastianThrun.autonomous_systems_score s);
   ("educational_impact", SebastianThrun.educational_impact s);
   ("innovation_potential", SebastianThrun.innovation_potential s)].

Definition mostaque_entries (s : EmadMostaque.EmadMostaqueSignal) : list (string * float) :=
  [("ai_infrastructure", EmadMostaque.infrastructure_score s);
   ("social_impact", EmadMostaque.community_impact s);
   ("technical_feasibility", EmadMostaque.open_source_potential s)].

Definition delangue_entries (s : ClementDelangue.ClementDelangueSignal) : list (string * float) :=
  [("ai_infrastructure", ClementDelangue.ai_innovation_score s);
   ("technical_feasibility", ClementDelangue.technical_feasibility s);
   ("market_potential", ClementDelangue.practical_application s)].

(** [if isinstance(...): <block>]. *)
Definition process {S : Type} (o : option S) (entries : S -> list (string * float))
  (t : tally) : result tally :=
  match o with
  | Some s => accumulate t (entries s)
  | None => Ok t
  end.

(** The eight blocks, in the order of the source. *)
Definition process_insights (agent_insights : dict insight) : result tally :=
  let get := dict_get agent_insights in
  t <- process (as_SamAltman (get "Sam Altman")) altman_entries
         (initial_scores, initial_counts) ;;
  t <- process (as_DemisHassabis (get "Demis Hassabis")) hassabis_entries t ;;
  t <- process (as_ElonMusk (get "Elon Musk")) musk_entries t ;;
  t <- process (as_AdamDAngelo (get "Adam D'Angelo")) dangelo_entries t ;;
  t <- process (as_DanielGross (get "Daniel Gross")) gross_entries t ;;
  t <- process (as_SebastianThrun (get "Sebastian Thrun")) thrun_entries t ;;
  t <- process (as_EmadMostaque (get "Emad Mostaque")) mostaque_entries t ;;
  process (as_ClementDelangue (get "Clement Delangue")) delangue_entries t.

(** [for key in scores: if score_counts[key] > 0: scores[key] /= score_counts[key]],
    over the keys [keys] of [scores]. *)
Fixpoint average (keys : list string) (scores : dict float) (score_counts : dict Z)
  : result (dict float) :=
  match keys with
  | [] => Ok scores
  | key :: rest =>
      c <- dict_getitem score_counts key ;;
      if 0 <? c then
        v <- dict_getitem scores key ;;
        average rest (dict_set scores key (v / float_of_int c)%float) score_counts
      else average rest scores score_counts
  end.

Definition key_metrics : list string :=
  ["opportunity_score"; "market_potential"; "technical_feasibility";
   "scientific_breakthrough_potential"; "ai_infrastructure"; "innovation_potential"].

(** The built-in [sum] over floats, from its start value, the [int] 0:
    the items are added from left to right, each addition rounding as
    [+=] does.  (From version 3.12 on the interpreter carries a
    correction term for the rounding errors of this sum; the result is
    the same up to the rounding of the last digits.) *)
Definition py_sum (items : list float) : float :=
  fold_left (fun acc x => (acc + x)%float) items 0%float.

(** [scores[metric] for metric in key_metrics]. *)
Fixpoint lookup_all (scores : dict float) (keys : list string) : result (list float) :=
  match keys with
  | [] => Ok []
  | key :: rest =>
      v <- dict_getitem scores key ;;
      vs <- lookup_all scores rest ;;
      Ok (v :: vs)
  end.

(** The averaged scores and the overall score. *)
Definition compute_scores (agent_insights : dict insight) : result (dict float * float) :=
  t <- process_insights agent_insights ;;
  let (sums, score_counts) := t in
  scores <- average (dict_keys sums) sums score_counts ;;
  metrics <- lookup_all scores key_metrics ;;
  Ok (scores, (py_sum metrics / float_of_int (Z.of_nat (List.length key_metrics)))%float).

(** *** [_combine_insights]: the insight and risk lists *)

(** [if isinstance(...): l.extend(field)]. *)
Definition extend_with {S : Type} (o : option S) (field : S -> list string)
  (l : list string) : list string :=
  match o with
  | Some s => l ++ field s
  | None => l
  end.

Definition collect_key_insights (agent_insights : dict insight) : list string :=
  let get := dict_get agent_insights in
  let l := extend_with (as_SamAltman (get "Sam Altman")) SamAltman.key_insights [] in
  let l := extend_with (as_DemisHassabis (get "Demis Hassabis")) DemisHassabis.key_breakthroughs l in
  let l := extend_with (as_ElonMusk (get "Elon Musk")) ElonMusk.key_insights l in
  let l := extend_with (as_AdamDAngelo (get "Adam D'Angelo")) AdamDAngelo.key_features l in
  let l := extend_with (as_DanielGross (get "Daniel Gross")) DanielGross.key_advantages l in
  let l := extend_with (as_SebastianThrun (get "Sebastian Thrun")) SebastianThrun.key_innovations l in
  let l := extend_with (as_EmadMostaque (get "Emad Mostaque")) EmadMostaque.key_infrastructure l in
  extend_with (as_ClementDelangue (get "Clement Delangue")) ClementDelangue.key_ai_features l.

Definition collect_potential_risks (agent_insights : dict insight) : list string :=
  let get := dict_get agent_insights in
  let l := extend_with (as_SamAltman (get "Sam Altman")) SamAltman.potential_risks [] in
  let l := extend_with (as_DemisHassabis (get "Demis Hassabis")) DemisHassabis.research_challenges l in
  let l := extend_with (as_ElonMusk (get "Elon Musk")) ElonMusk.potential_risks l in
  let l := extend_with (as_AdamDAngelo (get "Adam D'Angelo")) AdamDAngelo.platform_challenges l in
  let l := extend_with (as_DanielGross (get "Daniel Gross")) DanielGross.startup_challenges l in
  let l := extend_with (as_SebastianThrun (get "Sebastian Thrun")) SebastianThrun.technical_challenges l in
  let l := extend_with (as_EmadMostaque (get "Emad Mostaque")) EmadMostaque.community_challenges l in
  extend_with (as_ClementDelangue (get "Clement Delangue")) ClementDelangue.implementation_challenges l.

(** The block "Process Project Advisor's recommendations": the pair of
    [project_recommendation] and [recommendations] after it.  The class
    [ProjectRecommendation] has no attribute [recommendations], so the
    [extend] raises [AttributeError]. *)
Definition advisor_recommendations (agent_insights : dict insight)
  : result (insight * list string) :=
  match as_ProjectRecommendation (dict_get agent_insights "Project Advisor") with
  | Some r => Raise AttributeError
  | None => Ok (INone, [])
  end.

(** [_combine_insights(product_idea, agent_insights)]. *)
Definition _combine_insights (call_llm : llm) (product_idea : string)
  (agent_insights : dict insight) : result ProductEvaluation :=
  sc <- compute_scores agent_insights ;;
  let (scores, overall_score) := sc in
  let key_insights := collect_key_insights agent_insights in
  let potential_risks := collect_potential_risks agent_insights in
  pr <- advisor_recommendations agent_insights ;;
  let (project_recommendation, recommendations) := pr in
  recommendations <-
    match recommendations with
    | [] => _generate_recommendations call_llm product_idea scores key_insights potential_risks
    | _ :: _ => Ok recommendations
    end ;;
  market <- dict_getitem scores "market_potential" ;;
  technical <- dict_getitem scores "technical_feasibility" ;;
  innovation <- dict_getitem scores "scientific_breakthrough_potential" ;;
  Ok {| product_idea := product_idea;
        overall_score := overall_score;
        market_potential := market;
        technical_feasibility := technical;
        innovation_potential := innovation;
        key_insights := key_insights;
        potential_risks := potential_risks;
        agent_insights := agent_insights;
        recommendations := recommendations;
        project_recommendation := project_recommendation |}.

(** *** [evaluate_product] *)

(** [name in selected_agents]. *)
Definition selected (selected_agents : list string) (name : string) : bool :=
  existsb (String.eqb name) selected_agents.

Definition enabled_agents (fs : agent_functions) (selected_agents : option (list string))
  : dict (AgentState -> result insight) :=
  match selected_agents with
  | None => all_agents fs
  | Some names => filter (fun '(name, _) => selected names name) (all_agents fs)
  end.

(** One turn of the loop that collects the insights of the enabled
    agents: [except Exception] stores [None] in the slot. *)
Definition run_agent (state : AgentState) (agent_insights : dict insight)
  (entry : string * (AgentState -> result insight)) : dict insight :=
  let (agent_name, agent_func) := entry in
  match agent_func state with
  | Ok v => dict_set agent_insights agent_name v
  | Raise _ => dict_set agent_insights agent_name INone
  end.

Definition collect_insights (state : AgentState)
  (agents : dict (AgentState -> result insight)) : dict insight :=
  fold_left (run_agent state) agents [].

(** Truth value of a slot: a record is true, [None] is not. *)
Definition present (i : insight) : bool :=
  match i with
  | INone => false
  | _ => true
  end.

Definition or_empty (context : option (dict pyval)) : dict pyval :=
  match context with
  | Some d => d
  | None => []
  end.

Definition with_project_recommendation (e : ProductEvaluation) (r : insight)
  : ProductEvaluation :=
  {| product_idea := product_idea e;
     overall_score := overall_score e;
     market_potential := market_potential e;
     technical_feasibility := technical_feasibility e;
     innovation_potential := innovation_potential e;
     key_insights := key_insights e;
     potential_risks := potential_risks e;
     agent_insights := agent_insights e;
     recommendations := recommendations e;
     project_recommendation := r |}.

(** [evaluate_product(product_idea, selected_agents, market_context,
    technical_context, user_background)]. *)
Definition evaluate_product (fs : agent_functions) (call_llm : llm)
  (product_idea : string) (selected_agents : option (list string))
  (market_context technical_context user_background : option (dict pyval))
  : result ProductEvaluation :=
  let state := {|
    state_product_idea := product_idea;
    state_market_context := or_empty market_context;
    state_technical_context := or_empty technical_context;
    state_user_background := or_empty user_background
  |} in
  let agent_insights := collect_insights state (enabled_agents fs selected_agents) in
  evaluation <- _combine_insights call_llm product_idea agent_insights ;;
  match dict_get agent_insights "Project Advisor" with
  | Some r =>
      if present r
      then Ok (with_project_recommendation evaluation r)
      else Ok evaluation
  | None => Ok evaluation
  end.

End Orchestrator.

(* ===================================================================== *)
(** * Part II: properties of the embedding                                *)
(* ===================================================================== *)

(* --------------------------------------------------------------------- *)
(** ** Dictionaries                                                       *)
(* --------------------------------------------------------------------- *)

Module DictFacts.
Import Py.

Section Lookup.
Context {V : Type}.
Implicit Types (d : dict V) (k : string) (v : V).

Lemma dict_get_set d k v k' :
  dict_get (dict_set d k v) k' = if String.eqb k k' then Some v else dict_get d k'.
Proof.
  induction d as [|[k0 v0] d IH]; simpl.
  - reflexivity.
  - destruct (String.eqb k0 k) eqn:E0; simpl.
    + apply String.eqb_eq in E0; subst k0.
      destruct (String.eqb k k'); reflexivity.
    + rewrite IH.
      destruct (String.eqb k0 k') eqn:E1; [|reflexivity].
      apply String.eqb_eq in E1; subst k0.
      rewrite String.eqb_sym, E0; reflexivity.
Qed.

Lemma dict_get_set_same d k v : dict_get (dict_set d k v) k = Some v.
Proof. rewrite dict_get_set, String.eqb_refl; reflexivity. Qed.

Lemma dict_get_set_other d k v k' :
  k <> k' -> dict_get (dict_set d k v) k' = dict_get d k'.
Proof.
  intros H. rewrite dict_get_set.
  destruct (String.eqb k k') eqn:E; [|reflexivity].
  apply String.eqb_eq in E; contradiction.
Qed.

Lemma dict_keys_set_present d k v :
  dict_get d k <> None -> dict_keys (dict_set d k v) = dict_keys d.
Proof.
  unfold dict_keys.
  induction d as [|[k0 v0] d IH]; simpl; intros H.
  - contradiction.
  - destruct (String.eqb k0 k) eqn:E; simpl.
    + reflexivity.
    + rewrite IH by exact H; reflexivity.
Qed.

Lemma dict_keys_set_absent d k v :
  dict_get d k = None -> dict_keys (dict_set d k v) = dict_keys d ++ [k].
Proof.
  unfold dict_keys.
  induction d as [|[k0 v0] d IH]; simpl; intros H.
  - reflexivity.
  - destruct (String.eqb k0 k) eqn:E; simpl.
    + discriminate.
    + rewrite IH by exact H; reflexivity.
Qed.

Lemma dict_get_none_iff d k : dict_get d k = None <-> ~ In k (dict_keys d).
Proof.
  unfold dict_keys.
  induction d as [|[k0 v0] d IH]; simpl.
  - tauto.
  - destruct (String.eqb k0 k) eqn:E.
    + apply String.eqb_eq in E. split; [discriminate | tauto].
    + apply String.eqb_neq in E. rewrite IH. tauto.
Qed.

Lemma dict_get_in d k v :
  NoDup (dict_keys d) -> In (k, v) d -> dict_get d k = Some v.
Proof.
  unfold dict_keys.
  induction d as [|[k0 v0] d IH]; simpl; intros ND HIn.
  - contradiction.
  - inversion ND as [|? ? Hnot ND']; subst.
    destruct HIn as [Heq | HIn].
    + inversion Heq; subst. rewrite String.eqb_refl; reflexivity.
    + destruct (String.eqb k0 k) eqn:E.
      * apply String.eqb_eq in E; subst k0.
        exfalso; apply Hnot. apply (in_map fst) in HIn; exact HIn.
      * apply IH; assumption.
Qed.

Lemma dict_get_some_in d k v : dict_get d k = Some v -> In (k, v) d.
Proof.
  induction d as [|[k0 v0] d IH]; simpl; intros H.
  - discriminate.
  - destruct (String.eqb k0 k) eqn:E.
    + apply String.eqb_eq in E; subst. inversion H; subst. left; reflexivity.
    + right; apply IH; exact H.
Qed.

(** A dictionary is read by key: the order of its items does not show
    in a lookup. *)
Lemma dict_get_permutation d d' k :
  NoDup (dict_keys d) -> Permutation d d' -> dict_get d k = dict_get d' k.
Proof.
  intros ND HP.
  assert (ND' : NoDup (dict_keys d')).
  { unfold dict_keys in *. eapply Permutation_NoDup; [|exact ND].
    apply Permutation_map; exact HP. }
  destruct (dict_get d k) as [v|] eqn:E.
  - symmetry. apply dict_get_in; [exact ND'|].
    eapply Permutation_in; [exact HP|]. apply dict_get_some_in; exact E.
  - destruct (dict_get d' k) as [v'|] eqn:E'; [|reflexivity].
    apply dict_get_some_in in E'.
    apply Permutation_sym in HP.
    eapply Permutation_in in E'; [|exact HP].
    apply dict_get_in in E'; [|exact ND]. congruence.
Qed.

End Lookup.

End DictFacts.

(* --------------------------------------------------------------------- *)
(** ** The project advisor's recommendation                               *)
(* --------------------------------------------------------------------- *)

Module ProjectAdvisorFacts.
Import Py ProjectAdvisor.

(** Membership tests against a [str] are substring tests and never
    raise. *)
Lemma all_in_str keys s :
  all_in keys (PStr s) = Ok (forallb (str_contains s) keys).
Proof.
  induction keys as [|k keys IH]; simpl.
  - reflexivity.
  - destruct (str_contains s k); simpl; [exact IH | reflexivity].
Qed.

(** Each way through the [try] ends in an exception: [IndexError] when
    the response has no code fence, [ValueError] when the fenced text
    lacks a field name, [TypeError] at the subscript with a [str] key
    otherwise. *)
Lemma parse_recommendation_raises init s :
  parse_recommendation init (PStr s) = Raise IndexError
  \/ parse_recommendation init (PStr s) = Raise ValueError
  \/ parse_recommendation init (PStr s) = Raise TypeError.
Proof.
  unfold parse_recommendation, py_split, split.
  cbn -[all_in list_getitem split_go Json.dumps_str required_fields].
  destruct (list_getitem (split_go "```" s 0 "") 1) as [piece|e] eqn:E;
    cbn -[all_in Json.dumps_str required_fields].
  - rewrite all_in_str.
    destruct (forallb _ required_fields); cbn; auto.
  - left. unfold list_getitem in E.
    destruct ((0 <=? _) && _).
    + destruct (nth_error _ _); [discriminate | congruence].
    + congruence.
Qed.


End ProjectAdvisorFacts.

(* --------------------------------------------------------------------- *)
(** ** Default records and default fields                                 *)
(* --------------------------------------------------------------------- *)

Module DefaultFacts.
Import Py Llm.

(** The defaults the persona's output step fills in. *)
Definition fill_defaults : dict pyval :=
  [("opportunity_score", PFloat 0.5%float);
   ("market_potential", PFloat 0.5%float);
   ("technical_feasibility", PFloat 0.5%float);
   ("reasoning", PStr "Unable to generate detailed reasoning.");
   ("key_insights", PList [PStr "Default insight"]);
   ("potential_risks", PList [PStr "Default risk"])].

(** The fields for which [create_default_response] has a case of its
    own, and the value of that case. *)
Definition plain (a : annotation) : bool :=
  match a with
  | TStr | TFloat | TInt | TDict _ _ => true
  | _ => false
  end.

Definition plain_default (a : annotation) : pyval :=
  match a with
  | TStr => PStr "Error in analysis, using default"
  | TFloat => PFloat 0%float
  | TInt => PInt 0
  | _ => PDict []
  end.

Lemma ensure_field_dict key default d :
  SamAltman.ensure_field key default (PDict d)
  = Ok (PDict (if dict_mem d key then d else dict_set d key default)).
Proof.
  unfold SamAltman.ensure_field; simpl.
  destruct (dict_mem d key); reflexivity.
Qed.

Lemma dict_get_filled (d : dict pyval) key default k :
  dict_get (if dict_mem d key then d else dict_set d key default) k
  = match dict_get d k with
    | Some v => Some v
    | None => if String.eqb key k then Some default else None
    end.
Proof.
  unfold dict_mem.
  destruct (dict_get d key) as [v|] eqn:E.
  - destruct (dict_get d k) eqn:Ek; [reflexivity|].
    destruct (String.eqb key k) eqn:Eq; [|reflexivity].
    apply String.eqb_eq in Eq; subst; congruence.
  - rewrite DictFacts.dict_get_set.
    destruct (String.eqb key k) eqn:Eq.
    + apply String.eqb_eq in Eq; subst. rewrite E; reflexivity.
    + destruct (dict_get d k); reflexivity.
Qed.

(** On a [dict] the filling step succeeds, keeps every field that was
    there and gives every omitted required field its default. *)
Lemma ensure_required_fields_dict d :
  exists d',
    SamAltman.ensure_required_fields (PDict d) = Ok (PDict d')
    /\ forall k, dict_get d' k = match dict_get d k with
                                 | Some v => Some v
                                 | None => dict_get fill_defaults k
                                 end.
Proof.
  unfold SamAltman.ensure_required_fields.
  repeat (rewrite ensure_field_dict; cbn [bind]).
  eexists; split; [reflexivity|].
  intros k. rewrite !dict_get_filled.
  destruct (dict_get d k); [reflexivity|].
  cbn [fill_defaults dict_get].
  repeat match goal with
         | |- context [String.eqb ?a k] => destruct (String.eqb a k); [reflexivity|]
         end.
  reflexivity.
Qed.

Lemma default_values_get (cls : model_class) :
  forall acc name,
    ~ In name (map fst cls) ->
    dict_get
      (fold_left (fun acc '(field_name, a) => dict_set acc field_name (default_for a)) cls acc)
      name
    = dict_get acc name.
Proof.
  induction cls as [|[n a] cls IH]; simpl; intros acc name Hn.
  - reflexivity.
  - rewrite IH by tauto.
    apply DictFacts.dict_get_set_other. intros ->; tauto.
Qed.

Lemma default_values_in (cls : model_class) :
  forall acc name a,
    NoDup (map fst cls) -> In (name, a) cls ->
    dict_get
      (fold_left (fun acc '(field_name, a) => dict_set acc field_name (default_for a)) cls acc)
      name
    = Some (default_for a).
Proof.
  induction cls as [|[n0 a0] cls IH]; simpl; intros acc name a ND HIn.
  - contradiction.
  - inversion ND as [|? ? Hnot ND']; subst.
    destruct HIn as [Heq | HIn].
    + inversion Heq; subst.
      rewrite default_values_get by exact Hnot.
      apply DictFacts.dict_get_set_same.
    + apply IH; assumption.
Qed.

Lemma construct_plain values :
  forall fields : model_class,
    (forall name a, In (name, a) fields -> dict_get values name = Some (default_for a)) ->
    forallb (fun '(_, a) => plain a) fields = true ->
    construct fields values = Ok (map (fun '(name, a) => (name, plain_default a)) fields).
Proof.
  induction fields as [|[n a] fields IH]; simpl; intros Hget Hplain.
  - reflexivity.
  - apply andb_true_iff in Hplain as [Ha Hrest].
    rewrite (Hget n a) by (left; reflexivity).
    rewrite IH; [|intros; apply Hget; right; assumption | exact Hrest].
    destruct a; try discriminate; reflexivity.
Qed.

Lemma float_half_is_not_zero : PFloat 0.5%float <> PFloat 0%float.
Proof.
  intros H.
  apply (f_equal (fun v => match v with
                           | PFloat f => PrimFloat.eqb f 0%float
                           | _ => false
                           end)) in H.
  vm_compute in H. discriminate.
Qed.

(** C2, as amended: the persona's output step gives every omitted score
    0.5, the omitted reasoning the text "Unable to generate detailed
    reasoning." and every omitted list a single placeholder, and keeps
    the fields that are there; [create_default_response] gives a
    [float] field 0.0, an [int] field 0, a [str] field the text "Error
    in analysis, using default" and a [dict] field the empty [dict], and
    returns the record when every field of the class is of these
    kinds. *)
Theorem neutral_defaults_by_design :
  (forall d : dict pyval,
     exists d',
       SamAltman.ensure_required_fields (PDict d) = Ok (PDict d')
       /\ forall k, dict_get d' k = match dict_get d k with
                                    | Some v => Some v
                                    | None => dict_get fill_defaults k
                                    end)
  /\ SamAltman.default_parsed = PDict fill_defaults
  /\ (default_for TFloat = DValue (PFloat 0%float)
      /\ default_for TInt = DValue (PInt 0)
      /\ default_for TStr = DValue (PStr "Error in analysis, using default")
      /\ forall k v, default_for (TDict k v) = DValue (PDict []))
  /\ (forall cls : model_class,
        NoDup (map fst cls) ->
        forallb (fun '(_, a) => plain a) cls = true ->
        create_default_response cls
        = Ok (map (fun '(name, a) => (name, plain_default a)) cls)).
Proof.
  split; [exact ensure_required_fields_dict|].
  split; [reflexivity|].
  split; [repeat split|].
  intros cls ND Hplain.
  unfold create_default_response.
  apply construct_plain; [|exact Hplain].
  intros name a HIn. apply default_values_in; assumption.
Qed.

(** The amended statement at a response that omits every score, and at
    a class of one text and one score field. *)
Lemma neutral_defaults_by_design_witness :
  (exists d',
     SamAltman.ensure_required_fields (PDict [("reasoning", PStr "Promising.")])
     = Ok (PDict d')
     /\ dict_get d' "reasoning" = Some (PStr "Promising.")
     /\ dict_get d' "market_potential" = Some (PFloat 0.5%float))
  /\ create_default_response [("reasoning", TStr); ("confidence", TFloat)]
     = Ok [("reasoning", PStr "Error in analysis, using default");
           ("confidence", PFloat 0%float)].
Proof.
  split.
  - destruct (proj1 neutral_defaults_by_design [("reasoning", PStr "Promising.")])
      as [d' [H Hget]].
    exists d'. split; [exact H|].
    split; rewrite Hget; reflexivity.
  - apply (proj2 (proj2 (proj2 neutral_defaults_by_design))
             [("reasoning", TStr); ("confidence", TFloat)]).
    + repeat constructor; simpl; intuition discriminate.
    + reflexivity.
Defined.

(** C2 as stated fails: a response that omits [opportunity_score] gets
    0.5 for it, not 0.0; the text default of the retry layer is not the
    persona's "unable to generate" text; and for the declared record
    [SamAltmanSignal] the default record is not produced at all, since
    a list field is given a class object and validation rejects it. *)
Lemma neutral_default_counterexample :
  (exists d',
     SamAltman.ensure_required_fields (PDict []) = Ok (PDict d')
     /\ dict_get d' "opportunity_score" = Some (PFloat 0.5%float)
     /\ PFloat 0.5%float <> PFloat 0%float)
  /\ default_for (TList TStr) = DClass TStr
  /\ default_for TStr <> DValue (PStr "Unable to generate detailed reasoning.")
  /\ create_default_response SamAltman.model_fields = Raise ValidationError.
Proof.
  split.
  - eexists. split; [reflexivity|]. split; [reflexivity|].
    exact float_half_is_not_zero.
  - split; [reflexivity|]. split; [|reflexivity].
    simpl. intros H. discriminate H.
Qed.

End DefaultFacts.

(* --------------------------------------------------------------------- *)
(** ** Extraction of JSON from a response                                 *)
(* --------------------------------------------------------------------- *)

Module ExtractFacts.
Import Py OllamaUtils.

(** The part of [s] from the first [c] on. *)
Fixpoint from_first (c : ascii) (s : string) : option string :=
  match s with
  | EmptyString => None
  | String a s' => if Ascii.eqb a c then Some s else from_first c s'
  end.

(** The part of [s] up to and including the last [c]. *)
Fixpoint upto_last (c : ascii) (s : string) : option string :=
  match s with
  | EmptyString => None
  | String a s' =>
      match upto_last c s' with
      | Some p => Some (String a p)
      | None => if Ascii.eqb a c then Some (String a EmptyString) else None
      end
  end.

(** The span from the first [o] to the last [c] after it. *)
Definition outer_span (o c : ascii) (s : string) : option string :=
  match from_first o s with
  | Some t => upto_last c t
  | None => None
  end.

Definition parsed_or_none (span : string) : pyval :=
  match Json.loads span with
  | Ok v => v
  | Raise _ => PNone
  end.

(** What the extraction returns, read off the text: the parsed span
    between the outermost braces when there is such a span, else the
    parsed span between the outermost square brackets, else [None]. *)
Definition extraction (content : string) : pyval :=
  match outer_span "{" "}" content with
  | Some span => parsed_or_none span
  | None =>
      match outer_span "[" "]" content with
      | Some span => parsed_or_none span
      | None => PNone
      end
  end.




Lemma len_append (s t : string) : len (s ++ t) = len s + len t.
Proof.
  unfold len. induction s as [|a s IH]; simpl String.length.
  - reflexivity.
  - rewrite !Nat2Z.inj_succ. simpl in IH. lia.
Qed.

Lemma len_nonneg (s : string) : 0 <= len s.
Proof. unfold len; lia. Qed.

Lemma prefix_char (c a : ascii) (s : string) :
  String.prefix (String c EmptyString) (String a s) = Ascii.eqb a c.
Proof.
  simpl. destruct (ascii_dec c a) as [->|Hne].
  - rewrite Ascii.eqb_refl. destruct s; reflexivity.
  - symmetry. apply Ascii.eqb_neq. congruence.
Qed.

Lemma find_from_char (c : ascii) (s : string) :
  forall i,
    find_from (String c EmptyString) s i
    = match from_first c s with
      | Some t => i + len s - len t
      | None => -1
      end.
Proof.
  induction s as [|a s IH]; intros i.
  - reflexivity.
  - cbn [find_from from_first]. rewrite prefix_char.
    destruct (Ascii.eqb a c).
    + lia.
    + rewrite IH. destruct (from_first c s); [|reflexivity].
      unfold len; simpl String.length. lia.
Qed.

Lemma rfind_from_char (c : ascii) (s : string) :
  forall i,
    0 <= i ->
    rfind_from (String c EmptyString) s i
    = match upto_last c s with
      | Some p => i + len p - 1
      | None => -1
      end.
Proof.
  induction s as [|a s IH]; intros i Hi.
  - reflexivity.
  - cbn [rfind_from upto_last]. rewrite prefix_char.
    rewrite IH by lia.
    destruct (upto_last c s) as [p|].
    + assert (H : (0 <=? i + 1 + len p - 1) = true)
        by (apply Z.leb_le; pose proof (len_nonneg p); lia).
      rewrite H. unfold len; simpl String.length. lia.
    + change (0 <=? -1) with false. cbv iota.
      destruct (Ascii.eqb a c); [|reflexivity].
      unfold len; simpl. lia.
Qed.

Lemma from_first_decompose (c : ascii) (s t : string) :
  from_first c s = Some t -> exists pre, s = (pre ++ t)%string.
Proof.
  revert t. induction s as [|a s IH]; simpl; intros t H.
  - discriminate.
  - destruct (Ascii.eqb a c).
    + inversion H; subst. exists EmptyString; reflexivity.
    + destruct (IH t H) as [pre ->]. exists (String a pre); reflexivity.
Qed.

Lemma upto_last_append (c : ascii) (pre t : string) :
  upto_last c (pre ++ t)
  = match upto_last c t with
    | Some p => Some (pre ++ p)%string
    | None => upto_last c pre
    end.
Proof.
  induction pre as [|a pre IH]; simpl.
  - destruct (upto_last c t); reflexivity.
  - rewrite IH. destruct (upto_last c t); reflexivity.
Qed.

Lemma upto_last_is_prefix (c : ascii) (s p : string) :
  upto_last c s = Some p ->
  (1 <= len p <= len s) /\ p = String.substring 0 (String.length p) s.
Proof.
  revert p. induction s as [|a s IH]; simpl; intros p H.
  - discriminate.
  - destruct (upto_last c s) as [q|].
    + inversion H; subst. destruct (IH q eq_refl) as [Hlen Hsub].
      split.
      * unfold len in *; simpl String.length; lia.
      * simpl. f_equal. exact Hsub.
    + destruct (Ascii.eqb a c); [|discriminate].
      inversion H; subst. split.
      * unfold len; simpl String.length; lia.
      * simpl. destruct s; reflexivity.
Qed.

Lemma substring_skip (pre t : string) (m : nat) :
  String.substring (String.length pre) m (pre ++ t) = String.substring 0 m t.
Proof.
  induction pre as [|a pre IH]; simpl.
  - reflexivity.
  - exact IH.
Qed.

(** The index arithmetic of the source selects exactly the span from the
    first opening character to the last closing one. *)
Lemma slice_is_outer_span (o c : ascii) (s : string) :
  let a := find s (String o EmptyString) in
  let b := rfind s (String c EmptyString) + 1 in
  if (0 <=? a) && (a <? b)
  then outer_span o c s = Some (slice s (Some a) (Some b))
  else outer_span o c s = None.
Proof.
  unfold find, rfind, outer_span.
  rewrite find_from_char, rfind_from_char by lia.
  destruct (from_first o s) as [t|] eqn:Ef.
  - destruct (from_first_decompose _ _ _ Ef) as [pre ->].
    rewrite upto_last_append, len_append.
    pose proof (len_nonneg pre) as Hpre.
    destruct (upto_last c t) as [p|] eqn:Eu.
    + destruct (upto_last_is_prefix _ _ _ Eu) as [Hlen Hsub].
      rewrite len_append.
      replace (0 <=? 0 + (len pre + len t) - len t) with true
        by (symmetry; apply Z.leb_le; lia).
      replace (0 + (len pre + len t) - len t <? 0 + (len pre + len p) - 1 + 1) with true
        by (symmetry; apply Z.ltb_lt; lia).
      cbv [andb]. f_equal.
      unfold slice, slice_bound. rewrite len_append.
      replace (0 + (len pre + len t) - len t <? 0) with false
        by (symmetry; apply Z.ltb_ge; lia).
      replace (0 + (len pre + len p) - 1 + 1 <? 0) with false
        by (symmetry; apply Z.ltb_ge; lia).
      rewrite !Z.min_l by lia.
      replace (Z.to_nat (0 + (len pre + len t) - len t)) with (String.length pre)
        by (unfold len; lia).
      replace (Z.to_nat (0 + (len pre + len p) - 1 + 1 - (0 + (len pre + len t) - len t)))
        with (String.length p) by (unfold len; lia).
      rewrite substring_skip. exact Hsub.
    + replace (0 <=? 0 + (len pre + len t) - len t) with true
        by (symmetry; apply Z.leb_le; lia).
      destruct (upto_last c pre) as [q|] eqn:Eq.
      * destruct (upto_last_is_prefix _ _ _ Eq) as [Hlen _].
        replace (0 + (len pre + len t) - len t <? 0 + len q - 1 + 1) with false
          by (symmetry; apply Z.ltb_ge; lia).
        reflexivity.
      * replace (0 + (len pre + len t) - len t <? -1 + 1) with false
          by (symmetry; apply Z.ltb_ge; lia).
        reflexivity.
  - reflexivity.
Qed.

Lemma extract_body_spec (content : string) :
  extract_body content
  = match outer_span "{" "}" content with
    | Some span => Json.loads span
    | None =>
        match outer_span "[" "]" content with
        | Some span => Json.loads span
        | None => Ok PNone
        end
    end.
Proof.
  unfold extract_body.
  pose proof (slice_is_outer_span "{" "}" content) as Hb.
  pose proof (slice_is_outer_span "[" "]" content) as Hk.
  cbv zeta in Hb, Hk.
  destruct ((0 <=? find content "{") && (find content "{" <? rfind content "}" + 1)).
  - rewrite Hb. reflexivity.
  - rewrite Hb.
    destruct ((0 <=? find content "[") && (find content "[" <? rfind content "]" + 1));
      rewrite Hk; reflexivity.
Qed.



End ExtractFacts.

(* --------------------------------------------------------------------- *)
(** ** The agent registry                                                 *)
(* --------------------------------------------------------------------- *)

Module AgentSelectorFacts.
Import Py AgentSelector.

(** The entries [_save_config] writes for the agents [saved]. *)
Definition entries (saved : dict AgentConfig) : dict pyval :=
  map (fun '(agent_id, agent) =>
         (agent_id, PDict [("enabled", enabled agent); ("priority", priority agent)]))
    saved.

Lemma config_data_entries saved : config_data saved = PDict (entries saved).
Proof. reflexivity. Qed.

Lemma entries_keys saved : dict_keys (entries saved) = dict_keys saved.
Proof.
  unfold dict_keys, entries. rewrite map_map.
  apply map_ext. intros [k a]; reflexivity.
Qed.

(** Loading never adds or removes an agent. *)
Lemma load_items_keys items :
  forall agents, dict_keys (fst (load_items items agents)) = dict_keys agents.
Proof.
  induction items as [|[agent_id config] items IH]; intros agents; simpl.
  - reflexivity.
  - destruct (dict_get agents agent_id) as [a|] eqn:E; [|apply IH].
    destruct (config_get config "enabled" (PBool true)) as [e|x]; [|reflexivity].
    assert (K1 : dict_keys (dict_set agents agent_id (with_enabled a e)) = dict_keys agents)
      by (apply DictFacts.dict_keys_set_present; congruence).
    destruct (config_get config "priority" (PInt 0)) as [p|x]; [|exact K1].
    rewrite IH, DictFacts.dict_keys_set_present, K1; [reflexivity|].
    rewrite DictFacts.dict_get_set_same; discriminate.
Qed.

(** An id the file does not mention keeps the configuration it had. *)
Lemma load_items_untouched items :
  forall agents k,
    dict_get items k = None ->
    dict_get (fst (load_items items agents)) k = dict_get agents k.
Proof.
  induction items as [|[agent_id config] items IH]; intros agents k Hk; simpl in *.
  - reflexivity.
  - destruct (String.eqb agent_id k) eqn:Ek; [discriminate|].
    apply String.eqb_neq in Ek.
    destruct (dict_get agents agent_id) as [a|] eqn:E; [|apply IH; exact Hk].
    destruct (config_get config "enabled" (PBool true)) as [e|x]; [|reflexivity].
    destruct (config_get config "priority" (PInt 0)) as [p|x]; simpl.
    + rewrite IH by exact Hk.
      rewrite !DictFacts.dict_get_set_other by exact Ek. reflexivity.
    + rewrite DictFacts.dict_get_set_other by exact Ek. reflexivity.
Qed.



Lemma default_agents_nodup : NoDup (dict_keys default_agents).
Proof.
  unfold dict_keys; simpl.
  repeat (constructor; [simpl; intuition discriminate|]). constructor.
Qed.

Lemma init_keys d : dict_keys (init d) = dict_keys default_agents.
Proof.
  unfold init, _load_config.
  destruct (content d) as [| |v]; try reflexivity.
  destruct v; try reflexivity. apply load_items_keys.
Qed.

Lemma save_writable agents d : writable (_save_config agents d) = writable d.
Proof. unfold _save_config. destruct (writable d) eqn:E; [reflexivity | exact E]. Qed.

(** Every operation keeps the set of agents and the storage's mode. *)
Lemma step_keeps_keys agents d o :
  dict_keys (fst (step (agents, d) o)) = dict_keys agents
  /\ writable (snd (step (agents, d) o)) = writable d.
Proof.
  destruct o as [agent_id | agent_id p |]; simpl.
  - unfold toggle_agent.
    destruct (dict_get agents agent_id) as [a|] eqn:E; [|split; reflexivity].
    destruct (String.eqb agent_id "project_advisor"); [split; reflexivity|].
    simpl. split; [|apply save_writable].
    apply DictFacts.dict_keys_set_present; congruence.
  - unfold set_agent_priority.
    destruct (dict_get agents agent_id) as [a|] eqn:E; [|split; reflexivity].
    simpl. split; [|apply save_writable].
    apply DictFacts.dict_keys_set_present; congruence.
  - split; [reflexivity | apply save_writable].
Qed.

Lemma session_keeps_keys d ops :
  dict_keys (fst (session d ops)) = dict_keys default_agents
  /\ writable (snd (session d ops)) = writable d.
Proof.
  unfold session.
  assert (G : forall st,
             dict_keys (fst (fold_left step ops st)) = dict_keys (fst st)
             /\ writable (snd (fold_left step ops st)) = writable (snd st)).
  { induction ops as [|o ops IH]; intros [agents d0]; cbn [fold_left fst snd].
    - split; reflexivity.
    - destruct (step_keeps_keys agents d0 o) as [K W].
      destruct (IH (step (agents, d0) o)) as [K' W'].
      rewrite K', W', K, W. split; reflexivity. }
  destruct (G (init d, d)) as [K W]. cbn [fst snd] in K, W.
  rewrite K, W, init_keys. split; reflexivity.
Qed.

(** The guard of [toggle_agent]: the toggle of the project advisor is
    refused and changes nothing. *)
Lemma toggle_refuses_project_advisor agents d :
  toggle_agent agents d "project_advisor" = (false, agents, d).
Proof.
  unfold toggle_agent.
  destruct (dict_get agents "project_advisor"); reflexivity.
Qed.

(** No operation of a session changes the [enabled] flag of the project
    advisor. *)
Lemma step_keeps_advisor_flag agents d o :
  option_map enabled (dict_get (fst (step (agents, d) o)) "project_advisor")
  = option_map enabled (dict_get agents "project_advisor").
Proof.
  destruct o as [agent_id | agent_id p |]; simpl; [| |reflexivity].
  - unfold toggle_agent.
    destruct (dict_get agents agent_id) as [a|] eqn:E; [|reflexivity].
    destruct (String.eqb agent_id "project_advisor") eqn:Eq; [reflexivity|].
    apply String.eqb_neq in Eq. simpl.
    rewrite DictFacts.dict_get_set_other by exact Eq. reflexivity.
  - unfold set_agent_priority.
    destruct (dict_get agents agent_id) as [a|] eqn:E; [|reflexivity].
    simpl. rewrite DictFacts.dict_get_set.
    destruct (String.eqb agent_id "project_advisor") eqn:Eq; [|reflexivity].
    apply String.eqb_eq in Eq; subst agent_id. rewrite E. reflexivity.
Qed.

(** Without a stored file the project advisor is enabled after every
    session. *)
Lemma advisor_enabled_without_file ops w :
  option_map enabled
    (dict_get (fst (session {| content := NoFile; writable := w |} ops)) "project_advisor")
  = Some (PBool true).
Proof.
  unfold session.
  assert (G : forall st,
             option_map enabled (dict_get (fst (fold_left step ops st)) "project_advisor")
             = option_map enabled (dict_get (fst st) "project_advisor")).
  { induction ops as [|o ops IH]; intros [agents d0]; cbn [fold_left fst snd].
    - reflexivity.
    - rewrite IH. apply step_keeps_advisor_flag. }
  rewrite G. reflexivity.
Qed.

(** C4, at the failing input: a stored file that holds [enabled: false]
    for the project advisor disables it when the registry is
    constructed; [_load_config] assigns the stored flag without the
    guard that [toggle_agent] has.  The advisor is then missing from
    the enabled agents, and the toggle still answers false and leaves
    it disabled. *)
Theorem stored_file_disables_project_advisor :
  let d := {| content :=
                Document (PDict [("project_advisor",
                                  PDict [("enabled", PBool false); ("priority", PInt 9)])]);
              writable := true |} in
  option_map enabled (dict_get (init d) "project_advisor") = Some (PBool false)
  /\ dict_get (get_enabled_agents (init d)) "project_advisor" = None
  /\ toggle_agent (init d) d "project_advisor" = (false, init d, d).
Proof. repeat split. Qed.



End AgentSelectorFacts.

(* --------------------------------------------------------------------- *)
(** ** Aggregation                                                        *)
(* --------------------------------------------------------------------- *)

Module OrchestratorFacts.
Import Py Orchestrator.

(** The score buckets. *)
Definition buckets : list string := dict_keys initial_scores.

(** The entries a slot routes into the buckets: those of its block when
    the slot passes the block's [isinstance] test, none otherwise. *)
Definition routed {S : Type} (o : option S) (entries : S -> list (string * float))
  : list (string * float) :=
  match o with
  | Some s => entries s
  | None => []
  end.

(** Every routed entry of a run, in the order of the blocks. *)
Definition all_entries (agent_insights : dict insight) : list (string * float) :=
  let get := dict_get agent_insights in
  routed (as_SamAltman (get "Sam Altman")) altman_entries
  ++ routed (as_DemisHassabis (get "Demis Hassabis")) hassabis_entries
  ++ routed (as_ElonMusk (get "Elon Musk")) musk_entries
  ++ routed (as_AdamDAngelo (get "Adam D'Angelo")) dangelo_entries
  ++ routed (as_DanielGross (get "Daniel Gross")) gross_entries
  ++ routed (as_SebastianThrun (get "Sebastian Thrun")) thrun_entries
  ++ routed (as_EmadMostaque (get "Emad Mostaque")) mostaque_entries
  ++ routed (as_ClementDelangue (get "Clement Delangue")) delangue_entries.

(** The values among [entries] that go into [bucket]. *)
Definition into (bucket : string) (entries : list (string * float)) : list float :=
  map snd (filter (fun e => String.eqb (fst e) bucket) entries).

(** The contributions a bucket receives in a run. *)
Definition contributions (agent_insights : dict insight) (bucket : string) : list float :=
  into bucket (all_entries agent_insights).

(** The arithmetic mean: the sum over the count, and 0 for no value. *)
Definition mean (l : list float) : float :=
  match l with
  | [] => 0%float
  | _ :: _ => (py_sum l / float_of_int (Z.of_nat (List.length l)))%float
  end.

(** The running sums hold, for every bucket, the sum of the entries
    [E] routed so far; the counts hold their number. *)
Definition sums_of (scores : dict float) (E : list (string * float)) : Prop :=
  dict_keys scores = buckets
  /\ forall k, In k buckets -> dict_get scores k = Some (py_sum (into k E)).

Definition counts_of (score_counts : dict Z) (E : list (string * float)) : Prop :=
  dict_keys score_counts = buckets
  /\ forall k, In k buckets ->
               dict_get score_counts k = Some (Z.of_nat (List.length (into k E))).

Lemma into_app k E1 E2 : into k (E1 ++ E2) = into k E1 ++ into k E2.
Proof. unfold into. rewrite filter_app, map_app. reflexivity. Qed.

Lemma into_single k key x :
  into k [(key, x)] = if String.eqb key k then [x] else [].
Proof. unfold into. cbn. destruct (String.eqb key k); reflexivity. Qed.

Lemma py_sum_snoc l x : py_sum (l ++ [x]) = (py_sum l + x)%float.
Proof. unfold py_sum. rewrite fold_left_app. reflexivity. Qed.

Lemma in_keys_get {V : Type} (d : dict V) k :
  In k (dict_keys d) -> exists v, dict_get d k = Some v.
Proof.
  intros H. destruct (dict_get d k) as [v|] eqn:E; [eauto|].
  apply DictFacts.dict_get_none_iff in E. contradiction.
Qed.

Lemma score_add_spec scores E key x :
  sums_of scores E -> In key buckets ->
  exists scores', score_add scores key x = Ok scores' /\ sums_of scores' (E ++ [(key, x)]).
Proof.
  intros [K G] Hk. unfold score_add, dict_getitem.
  rewrite (G key Hk). cbn [bind].
  eexists; split; [reflexivity|]. split.
  - rewrite DictFacts.dict_keys_set_present; [exact K|]. rewrite (G key Hk); discriminate.
  - intros k Hin. rewrite DictFacts.dict_get_set, into_app, into_single.
    destruct (String.eqb key k) eqn:Ek.
    + apply String.eqb_eq in Ek; subst k. rewrite py_sum_snoc. reflexivity.
    + rewrite app_nil_r. apply G; exact Hin.
Qed.

Lemma count_incr_spec score_counts E key x :
  counts_of score_counts E -> In key buckets ->
  exists counts', count_incr score_counts key = Ok counts'
                  /\ counts_of counts' (E ++ [(key, x)]).
Proof.
  intros [K G] Hk. unfold count_incr, dict_getitem.
  rewrite (G key Hk). cbn [bind].
  eexists; split; [reflexivity|]. split.
  - rewrite DictFacts.dict_keys_set_present; [exact K|]. rewrite (G key Hk); discriminate.
  - intros k Hin. rewrite DictFacts.dict_get_set, into_app, length_app, into_single.
    destruct (String.eqb key k) eqn:Ek.
    + apply String.eqb_eq in Ek; subst k. cbn [List.length]. f_equal. lia.
    + cbn [List.length]. rewrite Nat.add_0_r. apply G; exact Hin.
Qed.

Lemma add_all_spec new :
  forall scores E,
    sums_of scores E -> Forall (fun e => In (fst e) buckets) new ->
    exists scores', add_all scores new = Ok scores' /\ sums_of scores' (E ++ new).
Proof.
  induction new as [|[key x] new IH]; intros scores E HS HF; cbn [add_all].
  - exists scores. rewrite app_nil_r. split; [reflexivity | exact HS].
  - inversion HF as [|? ? Hk HF']; subst.
    destruct (score_add_spec scores E key x HS Hk) as [s1 [H1 HS1]].
    rewrite H1. cbn [bind].
    destruct (IH s1 _ HS1 HF') as [s2 [H2 HS2]].
    exists s2. split; [exact H2|]. rewrite <- app_assoc in HS2. exact HS2.
Qed.

Lemma incr_all_spec new :
  forall score_counts E,
    counts_of score_counts E -> Forall (fun e => In (fst e) buckets) new ->
    exists counts', incr_all score_counts (map fst new) = Ok counts'
                    /\ counts_of counts' (E ++ new).
Proof.
  induction new as [|[key x] new IH]; intros score_counts E HC HF; cbn [incr_all map fst].
  - exists score_counts. rewrite app_nil_r. split; [reflexivity | exact HC].
  - inversion HF as [|? ? Hk HF']; subst.
    destruct (count_incr_spec score_counts E key x HC Hk) as [c1 [H1 HC1]].
    rewrite H1. cbn [bind].
    destruct (IH c1 _ HC1 HF') as [c2 [H2 HC2]].
    exists c2. split; [exact H2|]. rewrite <- app_assoc in HC2. exact HC2.
Qed.

(** One block keeps the invariant and appends its entries. *)
Lemma process_spec {S : Type} (o : option S) (entries : S -> list (string * float))
  (t : tally) (E : list (string * float)) :
  (forall s, Forall (fun e => In (fst e) buckets) (entries s)) ->
  sums_of (fst t) E -> counts_of (snd t) E ->
  exists t', process o entries t = Ok t'
             /\ sums_of (fst t') (E ++ routed o entries)
             /\ counts_of (snd t') (E ++ routed o entries).
Proof.
  intros HF HS HC. destruct t as [scores score_counts].
  destruct o as [s|]; cbn [process routed].
  - unfold accumulate.
    destruct (add_all_spec (entries s) scores E HS (HF s)) as [s1 [H1 HS1]].
    destruct (incr_all_spec (entries s) score_counts E HC (HF s)) as [c1 [H2 HC1]].
    rewrite H1. cbn [bind]. rewrite H2. cbn [bind].
    exists (s1, c1). auto.
  - exists (scores, score_counts). rewrite app_nil_r. auto.
Qed.

Ltac known_buckets :=
  intros; repeat (constructor; [cbn; tauto|]); constructor.

Lemma process_insights_spec agent_insights :
  exists t, process_insights agent_insights = Ok t
            /\ sums_of (fst t) (all_entries agent_insights)
            /\ counts_of (snd t) (all_entries agent_insights).
Proof.
  unfold process_insights, all_entries. cbv zeta.
  assert (S0 : sums_of (fst (initial_scores, initial_counts)) []).
  { split; [reflexivity|]. intros k Hk. cbn in Hk.
    repeat (destruct Hk as [<- | Hk]; [reflexivity|]). contradiction. }
  assert (C0 : counts_of (snd (initial_scores, initial_counts)) []).
  { split; [reflexivity|]. intros k Hk. cbn in Hk.
    repeat (destruct Hk as [<- | Hk]; [reflexivity|]). contradiction. }
  repeat match goal with
         | HS : sums_of (fst ?t) ?E, HC : counts_of (snd ?t) ?E
           |- context [process ?o ?entries ?t] =>
             let t' := fresh "t" in
             let H := fresh "H" in
             let HS' := fresh "HS" in
             let HC' := fresh "HC" in
             destruct (process_spec o entries t E ltac:(known_buckets) HS HC)
               as [t' [H [HS' HC']]];
             rewrite H; cbn [bind]; clear H HS HC
         end.
  eexists; split; [reflexivity|].
  cbn [app] in *. rewrite <- !app_assoc in *. auto.
Qed.

Lemma mean_of_count l :
  (if 0 <? Z.of_nat (List.length l)
   then (py_sum l / float_of_int (Z.of_nat (List.length l)))%float
   else py_sum l)
  = mean l.
Proof. destruct l; reflexivity. Qed.

(** The averaging loop turns the sum of every bucket it visits into
    the mean, and leaves the other buckets alone. *)
Lemma average_spec E score_counts keys :
  counts_of score_counts E ->
  NoDup keys -> incl keys buckets ->
  forall scores,
    dict_keys scores = buckets ->
    exists scores',
      average keys scores score_counts = Ok scores'
      /\ dict_keys scores' = buckets
      /\ forall k, dict_get scores' k
                   = if in_dec string_dec k keys
                     then option_map (fun v =>
                            if 0 <? Z.of_nat (List.length (into k E))
                            then (v / float_of_int (Z.of_nat (List.length (into k E))))%float
                            else v) (dict_get scores k)
                     else dict_get scores k.
Proof.
  intros [KC GC]. induction keys as [|key keys IH]; intros ND Hincl scores KS; cbn [average].
  - exists scores. repeat split; auto.
  - inversion ND as [|? ? Hnot ND']; subst.
    assert (Hk : In key buckets) by (apply Hincl; left; reflexivity).
    assert (Hincl' : incl keys buckets) by (intros k Hin; apply Hincl; right; exact Hin).
    unfold dict_getitem. rewrite (GC key Hk). cbn [bind].
    destruct (in_keys_get scores key ltac:(rewrite KS; exact Hk)) as [v Hv].
    destruct (0 <? Z.of_nat (List.length (into key E))) eqn:Epos.
    + rewrite Hv. cbn [bind].
      destruct (IH ND' Hincl' (dict_set scores key
                  (v / float_of_int (Z.of_nat (List.length (into key E))))%float))
        as [s' [H1 [K1 G1]]].
      { rewrite DictFacts.dict_keys_set_present; [exact KS | congruence]. }
      exists s'. split; [exact H1|]. split; [exact K1|].
      intros k. rewrite G1, DictFacts.dict_get_set.
      destruct (String.eqb key k) eqn:Ek.
      * apply String.eqb_eq in Ek. subst k.
        destruct (in_dec string_dec key keys) as [Hin|_]; [contradiction|].
        destruct (in_dec string_dec key (key :: keys)) as [_|Hn];
          [|exfalso; apply Hn; left; reflexivity].
        rewrite Hv. cbn [option_map]. rewrite Epos. reflexivity.
      * apply String.eqb_neq in Ek.
        destruct (in_dec string_dec k keys) as [Hin|Hnin];
          destruct (in_dec string_dec k (key :: keys)) as [Hin2|Hnin2];
          try reflexivity.
        -- exfalso; apply Hnin2; right; exact Hin.
        -- destruct Hin2 as [? | ?]; [congruence | contradiction].
    + destruct (IH ND' Hincl' scores KS) as [s' [H1 [K1 G1]]].
      exists s'. split; [exact H1|]. split; [exact K1|].
      intros k. rewrite G1.
      destruct (in_dec string_dec k keys) as [Hin|Hnin];
        destruct (in_dec string_dec k (key :: keys)) as [Hin2|Hnin2];
        try reflexivity.
      * exfalso; apply Hnin2; right; exact Hin.
      * destruct Hin2 as [<- | ?]; [|contradiction].
        rewrite Hv. cbn [option_map]. rewrite Epos. reflexivity.
Qed.

Lemma buckets_nodup : NoDup buckets.
Proof.
  unfold buckets, dict_keys; cbn.
  repeat (constructor; [cbn; intuition discriminate|]). constructor.
Qed.

Lemma lookup_all_spec (scores : dict float) (f : string -> float) keys :
  (forall k, In k keys -> dict_get scores k = Some (f k)) ->
  lookup_all scores keys = Ok (map f keys).
Proof.
  induction keys as [|k keys IH]; intros H; cbn [lookup_all map].
  - reflexivity.
  - unfold dict_getitem. rewrite (H k) by (left; reflexivity). cbn [bind].
    rewrite IH by (intros; apply H; right; assumption). reflexivity.
Qed.

(** The scores never raise: every bucket ends as the mean of its
    contributions, and the overall score is the sum of the six key
    metrics over six. *)
Lemma compute_scores_spec agent_insights :
  exists scores,
    compute_scores agent_insights
    = Ok (scores,
          (py_sum (map (fun k => mean (contributions agent_insights k)) key_metrics)
           / float_of_int 6)%float)
    /\ dict_keys scores = buckets
    /\ forall k, In k buckets ->
                 dict_get scores k = Some (mean (contributions agent_insights k)).
Proof.
  unfold compute_scores.
  destruct (process_insights_spec agent_insights) as [[sums score_counts] [H [HS HC]]].
  rewrite H. cbn [bind fst snd] in *.
  destruct HS as [KS GS].
  destruct (average_spec _ _ (dict_keys sums) HC) with (scores := sums)
    as [scores [HA [KA GA]]].
  { rewrite KS. exact buckets_nodup. }
  { rewrite KS. apply incl_refl. }
  { exact KS. }
  rewrite HA. cbn [bind].
  assert (G : forall k, In k buckets ->
                        dict_get scores k = Some (mean (contributions agent_insights k))).
  { intros k Hk. rewrite GA.
    destruct (in_dec string_dec k (dict_keys sums)) as [_|Hn];
      [|rewrite KS in Hn; contradiction].
    rewrite (GS k Hk). cbn [option_map]. rewrite mean_of_count. reflexivity. }
  rewrite (lookup_all_spec scores (fun k => mean (contributions agent_insights k))).
  - cbn [bind]. exists scores. auto.
  - intros k Hk. apply G. cbn in Hk. cbn.
    repeat (destruct Hk as [<- | Hk]; [tauto|]). contradiction.
Qed.

(** The value a slot gives to a bucket through one field. *)
Definition one {S : Type} (o : option S) (field : S -> float) : list float :=
  match o with
  | Some s => [field s]
  | None => []
  end.

(** The routing into the six key metrics, written out. *)
Lemma routing_of_key_metrics agent_insights :
  let get := dict_get agent_insights in
  contributions agent_insights "opportunity_score"
  = one (as_SamAltman (get "Sam Altman")) SamAltman.opportunity_score
    ++ one (as_ElonMusk (get "Elon Musk")) ElonMusk.opportunity_score
  /\ contributions agent_insights "market_potential"
     = one (as_SamAltman (get "Sam Altman")) SamAltman.market_potential
       ++ one (as_ElonMusk (get "Elon Musk")) ElonMusk.market_potential
       ++ one (as_DanielGross (get "Daniel Gross")) DanielGross.market_fit
       ++ one (as_ClementDelangue (get "Clement Delangue")) ClementDelangue.practical_application
  /\ contributions agent_insights "technical_feasibility"
     = one (as_SamAltman (get "Sam Altman")) SamAltman.technical_feasibility
       ++ one (as_ElonMusk (get "Elon Musk")) ElonMusk.technical_feasibility
       ++ one (as_EmadMostaque (get "Emad Mostaque")) EmadMostaque.open_source_potential
       ++ one (as_ClementDelangue (get "Clement Delangue")) ClementDelangue.technical_feasibility
  /\ contributions agent_insights "scientific_breakthrough_potential"
     = one (as_DemisHassabis (get "Demis Hassabis"))
         DemisHassabis.scientific_breakthrough_potential
  /\ contributions agent_insights "ai_infrastructure"
     = one (as_AdamDAngelo (get "Adam D'Angelo")) AdamDAngelo.ai_infrastructure
       ++ one (as_DanielGross (get "Daniel Gross")) DanielGross.ai_infrastructure
       ++ one (as_EmadMostaque (get "Emad Mostaque")) EmadMostaque.infrastructure_score
       ++ one (as_ClementDelangue (get "Clement Delangue")) ClementDelangue.ai_innovation_score
  /\ contributions agent_insights "innovation_potential"
     = one (as_SebastianThrun (get "Sebastian Thrun")) SebastianThrun.innovation_potential.
Proof.
  cbv zeta. unfold contributions, all_entries. cbv zeta.
  rewrite !into_app.
  destruct (as_SamAltman _), (as_DemisHassabis _), (as_ElonMusk _), (as_AdamDAngelo _),
    (as_DanielGross _), (as_SebastianThrun _), (as_EmadMostaque _), (as_ClementDelangue _);
    repeat split; reflexivity.
Qed.

(** What a returned evaluation holds. *)
Lemma combine_insights_fields call_llm idea insights ev :
  _combine_insights call_llm idea insights = Ok ev ->
  product_idea ev = idea
  /\ overall_score ev
     = (py_sum (map (fun k => mean (contributions insights k)) key_metrics)
        / float_of_int 6)%float
  /\ market_potential ev = mean (contributions insights "market_potential")
  /\ technical_feasibility ev = mean (contributions insights "technical_feasibility")
  /\ innovation_potential ev
     = mean (contributions insights "scientific_breakthrough_potential")
  /\ key_insights ev = collect_key_insights insights
  /\ potential_risks ev = collect_potential_risks insights
  /\ agent_insights ev = insights.
Proof.
  unfold _combine_insights.
  destruct (compute_scores_spec insights) as [scores [H [K G]]].
  rewrite H. cbn [bind].
  destruct (advisor_recommendations insights) as [[pr recs]|e]; [|discriminate].
  cbn [bind].
  match goal with
  | |- context [bind ?c _] => destruct c as [recs'|e]; [|discriminate]
  end.
  cbn [bind]. unfold dict_getitem.
  rewrite !G by (cbn; tauto). cbn [bind].
  intros Hev. inversion Hev; subst ev; clear Hev. cbn.
  repeat split; reflexivity.
Qed.

(** C3: the scores are always produced; every bucket ends as the
    arithmetic mean of the contributions routed into it, which is 0 for
    a bucket without contribution; the overall score is the unweighted
    mean of the six buckets of [key_metrics]; and a returned evaluation
    carries these values. *)
Theorem buckets_are_means_of_routed_scores :
  forall (call_llm : llm) (idea : string) (agent_insights : dict insight),
    (exists scores overall,
       compute_scores agent_insights = Ok (scores, overall)
       /\ dict_keys scores = dict_keys initial_scores
       /\ (forall bucket,
             In bucket (dict_keys initial_scores) ->
             dict_get scores bucket = Some (mean (contributions agent_insights bucket)))
       /\ overall
          = mean (map (fun bucket => mean (contributions agent_insights bucket))
                    ["opportunity_score"; "market_potential"; "technical_feasibility";
                     "scientific_breakthrough_potential"; "ai_infrastructure";
                     "innovation_potential"])
       /\ forall ev,
            _combine_insights call_llm idea agent_insights = Ok ev ->
            overall_score ev = overall
            /\ dict_get scores "market_potential" = Some (market_potential ev)
            /\ dict_get scores "technical_feasibility" = Some (technical_feasibility ev))
    /\ (forall bucket,
          contributions agent_insights bucket = [] ->
          mean (contributions agent_insights bucket) = 0%float)
    /\ (forall x l, mean (x :: l)
                    = (py_sum (x :: l) / float_of_int (Z.of_nat (List.length (x :: l))))%float).
Proof.
  intros call_llm idea agent_insights.
  split; [|split].
  - destruct (compute_scores_spec agent_insights) as [scores [H [K G]]].
    exists scores. eexists. split; [exact H|].
    split; [exact K|]. split; [exact G|]. split; [reflexivity|].
    intros ev Hev.
    destruct (combine_insights_fields _ _ _ _ Hev) as [_ [Ho [Hm [Ht _]]]].
    split; [exact Ho|].
    rewrite !G by (cbn; tauto). rewrite Hm, Ht. split; reflexivity.
  - intros bucket ->. reflexivity.
  - intros x l. reflexivity.
Qed.

(** The scores and lists of a returned evaluation and its
    recommendations; the exception of a run that raised. *)
Definition headline (r : result ProductEvaluation)
  : result (float * float * float * float * list string * list string * list string) :=
  match r with
  | Ok ev =>
      Ok (overall_score ev, market_potential ev, technical_feasibility ev,
          innovation_potential ev, key_insights ev, potential_risks ev,
          recommendations ev)
  | Raise e => Raise e
  end.

(** The names of [all_agents], in registration order. *)
Definition registration_order : list string :=
  ["Sam Altman"; "Demis Hassabis"; "Elon Musk"; "Adam D'Angelo"; "Daniel Gross";
   "Sebastian Thrun"; "Emad Mostaque"; "Clement Delangue"; "Project Advisor"].

(** The key insights and the risks the slot of one persona gives: those
    of the signal of that persona's own class, none for [None], for a
    record of another class, and for the project advisor. *)
Definition slot_key_insights (d : dict insight) (name : string) : list string :=
  match dict_get d name with
  | Some (ISamAltman s) =>
      if String.eqb name "Sam Altman" then SamAltman.key_insights s else []
  | Some (IDemisHassabis s) =>
      if String.eqb name "Demis Hassabis" then DemisHassabis.key_breakthroughs s else []
  | Some (IElonMusk s) =>
      if String.eqb name "Elon Musk" then ElonMusk.key_insights s else []
  | Some (IAdamDAngelo s) =>
      if String.eqb name "Adam D'Angelo" then AdamDAngelo.key_features s else []
  | Some (IDanielGross s) =>
      if String.eqb name "Daniel Gross" then DanielGross.key_advantages s else []
  | Some (ISebastianThrun s) =>
      if String.eqb name "Sebastian Thrun" then SebastianThrun.key_innovations s else []
  | Some (IEmadMostaque s) =>
      if String.eqb name "Emad Mostaque" then EmadMostaque.key_infrastructure s else []
  | Some (IClementDelangue s) =>
      if String.eqb name "Clement Delangue" then ClementDelangue.key_ai_features s else []
  | Some (IProjectRecommendation _) | Some INone | None => []
  end.

Definition slot_potential_risks (d : dict insight) (name : string) : list string :=
  match dict_get d name with
  | Some (ISamAltman s) =>
      if String.eqb name "Sam Altman" then SamAltman.potential_risks s else []
  | Some (IDemisHassabis s) =>
      if String.eqb name "Demis Hassabis" then DemisHassabis.research_challenges s else []
  | Some (IElonMusk s) =>
      if String.eqb name "Elon Musk" then ElonMusk.potential_risks s else []
  | Some (IAdamDAngelo s) =>
      if String.eqb name "Adam D'Angelo" then AdamDAngelo.platform_challenges s else []
  | Some (IDanielGross s) =>
      if String.eqb name "Daniel Gross" then DanielGross.startup_challenges s else []
  | Some (ISebastianThrun s) =>
      if String.eqb name "Sebastian Thrun" then SebastianThrun.technical_challenges s else []
  | Some (IEmadMostaque s) =>
      if String.eqb name "Emad Mostaque" then EmadMostaque.community_challenges s else []
  | Some (IClementDelangue s) =>
      if String.eqb name "Clement Delangue"
      then ClementDelangue.implementation_challenges s else []
  | Some (IProjectRecommendation _) | Some INone | None => []
  end.

Lemma all_agents_names fs : dict_keys (all_agents fs) = registration_order.
Proof. reflexivity. Qed.

Lemma extend_with_app {S : Type} (o : option S) (field : S -> list string) l :
  extend_with o field l = l ++ extend_with o field [].
Proof. destruct o; cbn; [reflexivity | rewrite app_nil_r; reflexivity]. Qed.

Ltac by_slot d name :=
  unfold slot_key_insights, slot_potential_risks;
  destruct (dict_get d name) as [[]|]; reflexivity.

(** The lists are the concatenation of the slots' lists in registration
    order. *)
Lemma collect_key_insights_in_order d :
  collect_key_insights d = flat_map (slot_key_insights d) registration_order.
Proof.
  unfold collect_key_insights. cbv zeta.
  repeat match goal with
         | |- context [extend_with ?o ?f (extend_with ?o' ?f' ?l)] =>
             rewrite (extend_with_app o f (extend_with o' f' l))
         end.
  unfold registration_order. cbn [flat_map].
  replace (slot_key_insights d "Sam Altman")
    with (extend_with (as_SamAltman (dict_get d "Sam Altman")) SamAltman.key_insights [])
    by by_slot d "Sam Altman".
  replace (slot_key_insights d "Demis Hassabis")
    with (extend_with (as_DemisHassabis (dict_get d "Demis Hassabis"))
            DemisHassabis.key_breakthroughs [])
    by by_slot d "Demis Hassabis".
  replace (slot_key_insights d "Elon Musk")
    with (extend_with (as_ElonMusk (dict_get d "Elon Musk")) ElonMusk.key_insights [])
    by by_slot d "Elon Musk".
  replace (slot_key_insights d "Adam D'Angelo")
    with (extend_with (as_AdamDAngelo (dict_get d "Adam D'Angelo")) AdamDAngelo.key_features [])
    by by_slot d "Adam D'Angelo".
  replace (slot_key_insights d "Daniel Gross")
    with (extend_with (as_DanielGross (dict_get d "Daniel Gross")) DanielGross.key_advantages [])
    by by_slot d "Daniel Gross".
  replace (slot_key_insights d "Sebastian Thrun")
    with (extend_with (as_SebastianThrun (dict_get d "Sebastian Thrun"))
            SebastianThrun.key_innovations [])
    by by_slot d "Sebastian Thrun".
  replace (slot_key_insights d "Emad Mostaque")
    with (extend_with (as_EmadMostaque (dict_get d "Emad Mostaque"))
            EmadMostaque.key_infrastructure [])
    by by_slot d "Emad Mostaque".
  replace (slot_key_insights d "Clement Delangue")
    with (extend_with (as_ClementDelangue (dict_get d "Clement Delangue"))
            ClementDelangue.key_ai_features [])
    by by_slot d "Clement Delangue".
  replace (slot_key_insights d "Project Advisor") with (@nil string)
    by by_slot d "Project Advisor".
  rewrite !app_nil_r, <- !app_assoc. reflexivity.
Qed.

Lemma collect_potential_risks_in_order d :
  collect_potential_risks d = flat_map (slot_potential_risks d) registration_order.
Proof.
  unfold collect_potential_risks. cbv zeta.
  repeat match goal with
         | |- context [extend_with ?o ?f (extend_with ?o' ?f' ?l)] =>
             rewrite (extend_with_app o f (extend_with o' f' l))
         end.
  unfold registration_order. cbn [flat_map].
  replace (slot_potential_risks d "Sam Altman")
    with (extend_with (as_SamAltman (dict_get d "Sam Altman")) SamAltman.potential_risks [])
    by by_slot d "Sam Altman".
  replace (slot_potential_risks d "Demis Hassabis")
    with (extend_with (as_DemisHassabis (dict_get d "Demis Hassabis"))
            DemisHassabis.research_challenges [])
    by by_slot d "Demis Hassabis".
  replace (slot_potential_risks d "Elon Musk")
    with (extend_with (as_ElonMusk (dict_get d "Elon Musk")) ElonMusk.potential_risks [])
    by by_slot d "Elon Musk".
  replace (slot_potential_risks d "Adam D'Angelo")
    with (extend_with (as_AdamDAngelo (dict_get d "Adam D'Angelo"))
            AdamDAngelo.platform_challenges [])
    by by_slot d "Adam D'Angelo".
  replace (slot_potential_risks d "Daniel Gross")
    with (extend_with (as_DanielGross (dict_get d "Daniel Gross"))
            DanielGross.startup_challenges [])
    by by_slot d "Daniel Gross".
  replace (slot_potential_risks d "Sebastian Thrun")
    with (extend_with (as_SebastianThrun (dict_get d "Sebastian Thrun"))
            SebastianThrun.technical_challenges [])
    by by_slot d "Sebastian Thrun".
  replace (slot_potential_risks d "Emad Mostaque")
    with (extend_with (as_EmadMostaque (dict_get d "Emad Mostaque"))
            EmadMostaque.community_challenges [])
    by by_slot d "Emad Mostaque".
  replace (slot_potential_risks d "Clement Delangue")
    with (extend_with (as_ClementDelangue (dict_get d "Clement Delangue"))
            ClementDelangue.implementation_challenges [])
    by by_slot d "Clement Delangue".
  replace (slot_potential_risks d "Project Advisor") with (@nil string)
    by by_slot d "Project Advisor".
  rewrite !app_nil_r, <- !app_assoc. reflexivity.
Qed.

(** Aggregation reads the slots by name only. *)
Lemma aggregation_reads_by_name call_llm idea (d d' : dict insight) :
  (forall k, dict_get d k = dict_get d' k) ->
  compute_scores d = compute_scores d'
  /\ collect_key_insights d = collect_key_insights d'
  /\ collect_potential_risks d = collect_potential_risks d'
  /\ headline (_combine_insights call_llm idea d)
     = headline (_combine_insights call_llm idea d').
Proof.
  intros H.
  assert (Hs : compute_scores d = compute_scores d').
  { unfold compute_scores, process_insights. cbv zeta. rewrite !H. reflexivity. }
  assert (Hk : collect_key_insights d = collect_key_insights d').
  { unfold collect_key_insights. cbv zeta. rewrite !H. reflexivity. }
  assert (Hr : collect_potential_risks d = collect_potential_risks d').
  { unfold collect_potential_risks. cbv zeta. rewrite !H. reflexivity. }
  repeat split; try assumption.
  unfold _combine_insights, advisor_recommendations.
  rewrite Hs, Hk, Hr, (H "Project Advisor").
  destruct (compute_scores d') as [[scores overall]|e]; [|reflexivity].
  cbn [bind].
  destruct (as_ProjectRecommendation (dict_get d' "Project Advisor")); [reflexivity|].
  cbn [bind].
  destruct (_generate_recommendations _ _ _ _ _) as [recs|e]; [|reflexivity].
  cbn [bind].
  repeat match goal with
         | |- context [dict_getitem ?s ?k] => destruct (dict_getitem s k); cbn [bind]
         end; reflexivity.
Qed.

(** C5: permuting the items of the insight dictionary changes neither
    the bucket scores, nor the overall and headline scores, nor the
    outcome of aggregation; the key-insight and risk lists are the
    concatenation of the slots' lists in registration order, whatever
    the order of the items. *)
Theorem aggregation_is_order_independent :
  forall (call_llm : llm) (idea : string) (d d' : dict insight),
    NoDup (dict_keys d) ->
    Permutation d d' ->
    compute_scores d = compute_scores d'
    /\ headline (_combine_insights call_llm idea d)
       = headline (_combine_insights call_llm idea d')
    /\ collect_key_insights d' = flat_map (slot_key_insights d) registration_order
    /\ collect_potential_risks d' = flat_map (slot_potential_risks d) registration_order
    /\ forall fs, dict_keys (all_agents fs) = registration_order.
Proof.
  intros call_llm idea d d' ND HP.
  assert (H : forall k, dict_get d k = dict_get d' k)
    by (intros k; apply DictFacts.dict_get_permutation; assumption).
  destruct (aggregation_reads_by_name call_llm idea d d' H) as [Hs [Hk [Hr Hh]]].
  repeat split; try assumption.
  - rewrite <- Hk. apply collect_key_insights_in_order.
  - rewrite <- Hr. apply collect_potential_risks_in_order.
Qed.

(** *** Sample data *)

Definition sample_altman : SamAltman.SamAltmanSignal := {|
  SamAltman.opportunity_score := 0.75%float;
  SamAltman.market_potential := 0.5%float;
  SamAltman.technical_feasibility := 0.25%float;
  SamAltman.reasoning := "Large market, hard to build.";
  SamAltman.key_insights := ["Clear demand"];
  SamAltman.potential_risks := ["Long development"]
|}.

Definition sample_hassabis : DemisHassabis.DemisHassabisSignal := {|
  DemisHassabis.scientific_breakthrough_potential := 0.875%float;
  DemisHassabis.technical_advancement := 0.5%float;
  DemisHassabis.research_feasibility := 0.5%float;
  DemisHassabis.reasoning := "Builds on recent results.";
  DemisHassabis.key_breakthroughs := ["New training method"];
  DemisHassabis.research_challenges := ["Needs more data"]
|}.

Definition sample_thrun : SebastianThrun.SebastianThrunSignal := {|
  SebastianThrun.autonomous_systems_score := 0.5%float;
  SebastianThrun.educational_impact := 0.5%float;
  SebastianThrun.innovation_potential := 0.25%float;
  SebastianThrun.reasoning := "Incremental.";
  SebastianThrun.key_innovations := ["Self-paced lessons"];
  SebastianThrun.technical_challenges := ["Sensor cost"]
|}.

(** A model call that answers with a fenced list. *)
Definition fenced_llm : llm := fun _ => Ok (PStr "```[]```").

(** Agent functions of which only Demis Hassabis and Sebastian Thrun
    return a signal; the others raise. *)
Definition sample_agents : agent_functions := {|
  sam_altman_agent := fun _ => Raise ValueError;
  demis_hassabis_agent := fun _ => Ok sample_hassabis;
  elon_musk_agent := fun _ => Raise OtherException;
  adam_dangelo_agent := fun _ => Raise OtherException;
  daniel_gross_agent := fun _ => Raise OtherException;
  sebastian_thrun_agent := fun _ => Ok sample_thrun;
  emad_mostaque_agent := fun _ => Raise OtherException;
  clement_delangue_agent := fun _ => Raise OtherException;
  project_advisor_agent := fun _ => Raise KeyError
|}.

(** The agent functions [fs] with another project advisor. *)
Definition with_project_advisor (fs : agent_functions)
  (advisor : AgentState -> result ProjectAdvisor.ProjectRecommendation) : agent_functions := {|
  sam_altman_agent := sam_altman_agent fs;
  demis_hassabis_agent := demis_hassabis_agent fs;
  elon_musk_agent := elon_musk_agent fs;
  adam_dangelo_agent := adam_dangelo_agent fs;
  daniel_gross_agent := daniel_gross_agent fs;
  sebastian_thrun_agent := sebastian_thrun_agent fs;
  emad_mostaque_agent := emad_mostaque_agent fs;
  clement_delangue_agent := clement_delangue_agent fs;
  project_advisor_agent := advisor
|}.

(** The four scores of an evaluation, and the scores aggregation gives
    for a dictionary of insights. *)
Definition scores_of (ev : ProductEvaluation) : float * float * float * float :=
  (overall_score ev, market_potential ev, technical_feasibility ev, innovation_potential ev).

Definition aggregate_scores (d : dict insight) : float * float * float * float :=
  (mean (map (fun k => mean (contributions d k)) key_metrics),
   mean (contributions d "market_potential"),
   mean (contributions d "technical_feasibility"),
   mean (contributions d "scientific_breakthrough_potential")).

(** The slot a call of an agent function fills. *)
Definition slot_of (r : result insight) : insight :=
  match r with
  | Ok v => v
  | Raise _ => INone
  end.

(** The insights without the absent slots. *)
Definition present_only (d : dict insight) : dict insight :=
  filter (fun '(_, i) => present i) d.

Definition strip (o : option insight) : option insight :=
  match o with
  | Some INone => None
  | _ => o
  end.

(** *** The collection loop *)

Lemma run_agent_sets state acc name f :
  run_agent state acc (name, f) = dict_set acc name (slot_of (f state)).
Proof. unfold run_agent, slot_of. destruct (f state); reflexivity. Qed.

Lemma collect_untouched state agents :
  forall acc name,
    ~ In name (dict_keys agents) ->
    dict_get (fold_left (run_agent state) agents acc) name = dict_get acc name.
Proof.
  induction agents as [|[n f] agents IH]; intros acc name Hn; cbn [fold_left].
  - reflexivity.
  - cbn in Hn. rewrite IH by tauto. rewrite run_agent_sets.
    apply DictFacts.dict_get_set_other. intros ->; tauto.
Qed.

Lemma collect_get state agents :
  forall acc name f,
    NoDup (dict_keys agents) -> In (name, f) agents ->
    dict_get (fold_left (run_agent state) agents acc) name = Some (slot_of (f state)).
Proof.
  induction agents as [|[n0 f0] agents IH]; intros acc name f ND HIn; cbn [fold_left].
  - contradiction.
  - cbn in ND. inversion ND as [|? ? Hnot ND']; subst.
    destruct HIn as [Heq | HIn].
    + inversion Heq; subst.
      rewrite collect_untouched by exact Hnot.
      rewrite run_agent_sets. apply DictFacts.dict_get_set_same.
    + apply IH; assumption.
Qed.

Lemma collect_keys state agents :
  forall acc,
    NoDup (dict_keys acc ++ dict_keys agents) ->
    dict_keys (fold_left (run_agent state) agents acc) = dict_keys acc ++ dict_keys agents.
Proof.
  induction agents as [|[n0 f0] agents IH]; intros acc ND; cbn [fold_left].
  - cbn. rewrite app_nil_r. reflexivity.
  - cbn in ND.
    assert (Hnew : dict_get acc n0 = None).
    { apply DictFacts.dict_get_none_iff. intros Hin.
      apply NoDup_remove_2 in ND. apply ND. apply in_or_app. left; exact Hin. }
    rewrite run_agent_sets.
    rewrite IH; rewrite (DictFacts.dict_keys_set_absent acc n0 _ Hnew).
    + rewrite <- app_assoc. reflexivity.
    + rewrite <- app_assoc. exact ND.
Qed.

Lemma keys_filter_nodup {V : Type} (p : string * V -> bool) (l : dict V) :
  NoDup (dict_keys l) -> NoDup (dict_keys (filter p l)).
Proof.
  unfold dict_keys. induction l as [|[k v] l IH]; cbn; intros ND.
  - constructor.
  - inversion ND as [|? ? Hnot ND']; subst.
    destruct (p (k, v)); cbn; [|apply IH; exact ND'].
    constructor; [|apply IH; exact ND'].
    intros Hin. apply Hnot.
    apply in_map_iff in Hin as [[k' v'] [Hk Hin]]. cbn in Hk; subst k'.
    apply filter_In in Hin as [Hin _].
    apply in_map_iff. exists (k, v'). split; [reflexivity | exact Hin].
Qed.

Lemma registration_order_nodup : NoDup registration_order.
Proof.
  unfold registration_order.
  repeat (constructor; [cbn; intuition discriminate|]). constructor.
Qed.

Lemma enabled_agents_nodup fs selected_agents :
  NoDup (dict_keys (enabled_agents fs selected_agents)).
Proof.
  unfold enabled_agents. destruct selected_agents as [names|].
  - apply keys_filter_nodup. rewrite all_agents_names. exact registration_order_nodup.
  - rewrite all_agents_names. exact registration_order_nodup.
Qed.

(** *** Absent slots contribute nothing *)

Lemma dict_get_present_only d k :
  NoDup (dict_keys d) -> dict_get (present_only d) k = strip (dict_get d k).
Proof.
  unfold present_only, dict_keys.
  induction d as [|[k0 i0] d IH]; cbn; intros ND.
  - reflexivity.
  - inversion ND as [|? ? Hnot ND']; subst.
    destruct (String.eqb k0 k) eqn:Ek.
    + apply String.eqb_eq in Ek; subst k0.
      destruct i0; cbn; rewrite ?String.eqb_refl; try reflexivity.
      rewrite IH by exact ND'.
      replace (dict_get d k) with (@None insight); [reflexivity|].
      symmetry. apply DictFacts.dict_get_none_iff. exact Hnot.
    + destruct i0; cbn; rewrite ?Ek; apply IH; exact ND'.
Qed.

Lemma as_tests_strip o :
  as_SamAltman (strip o) = as_SamAltman o
  /\ as_DemisHassabis (strip o) = as_DemisHassabis o
  /\ as_ElonMusk (strip o) = as_ElonMusk o
  /\ as_AdamDAngelo (strip o) = as_AdamDAngelo o
  /\ as_DanielGross (strip o) = as_DanielGross o
  /\ as_SebastianThrun (strip o) = as_SebastianThrun o
  /\ as_EmadMostaque (strip o) = as_EmadMostaque o
  /\ as_ClementDelangue (strip o) = as_ClementDelangue o
  /\ as_ProjectRecommendation (strip o) = as_ProjectRecommendation o.
Proof. destruct o as [[]|]; repeat split; reflexivity. Qed.

Ltac drop_strip d :=
  destruct (as_tests_strip (dict_get d "Sam Altman")) as (-> & _);
  destruct (as_tests_strip (dict_get d "Demis Hassabis")) as (_ & -> & _);
  destruct (as_tests_strip (dict_get d "Elon Musk")) as (_ & _ & -> & _);
  destruct (as_tests_strip (dict_get d "Adam D'Angelo")) as (_ & _ & _ & -> & _);
  destruct (as_tests_strip (dict_get d "Daniel Gross")) as (_ & _ & _ & _ & -> & _);
  destruct (as_tests_strip (dict_get d "Sebastian Thrun")) as (_ & _ & _ & _ & _ & -> & _);
  destruct (as_tests_strip (dict_get d "Emad Mostaque")) as (_ & _ & _ & _ & _ & _ & -> & _);
  destruct (as_tests_strip (dict_get d "Clement Delangue"))
    as (_ & _ & _ & _ & _ & _ & _ & -> & _).

Lemma all_entries_present_only d :
  NoDup (dict_keys d) -> all_entries (present_only d) = all_entries d.
Proof.
  intros ND. unfold all_entries. cbv zeta.
  rewrite !dict_get_present_only by exact ND.
  drop_strip d.
  reflexivity.
Qed.

Lemma compute_scores_present_only d :
  NoDup (dict_keys d) -> compute_scores (present_only d) = compute_scores d.
Proof.
  intros ND. unfold compute_scores, process_insights. cbv zeta.
  rewrite !dict_get_present_only by exact ND.
  drop_strip d.
  reflexivity.
Qed.

Lemma combine_insights_scores call_llm idea d ev :
  _combine_insights call_llm idea d = Ok ev -> scores_of ev = aggregate_scores d.
Proof.
  intros H. destruct (combine_insights_fields _ _ _ _ H) as (_ & Ho & Hm & Ht & Hi & _).
  unfold scores_of, aggregate_scores. rewrite Ho, Hm, Ht, Hi. reflexivity.
Qed.

(** What [evaluate_product] returns is what [_combine_insights] made of
    the collected insights, up to the project recommendation. *)
Lemma evaluate_product_returns fs call_llm idea selected_agents mc tc ub ev :
  evaluate_product fs call_llm idea selected_agents mc tc ub = Ok ev ->
  let state := {| state_product_idea := idea;
                  state_market_context := or_empty mc;
                  state_technical_context := or_empty tc;
                  state_user_background := or_empty ub |} in
  let insights := collect_insights state (enabled_agents fs selected_agents) in
  exists ev0,
    _combine_insights call_llm idea insights = Ok ev0
    /\ scores_of ev = scores_of ev0
    /\ key_insights ev = key_insights ev0
    /\ potential_risks ev = potential_risks ev0
    /\ agent_insights ev = agent_insights ev0.
Proof.
  unfold evaluate_product. cbv zeta.
  destruct (_combine_insights _ _ _) as [ev0|e]; [|discriminate].
  cbn [bind].
  destruct (dict_get _ "Project Advisor") as [r|].
  - destruct (present r); intros H; inversion H; subst ev; clear H;
      exists ev0; repeat split; reflexivity.
  - intros H; inversion H; subst ev; clear H.
    exists ev0; repeat split; reflexivity.
Qed.

(** *** The claims about a run *)

(** The statement of C3 at the sample insights of Sam Altman and Demis
    Hassabis. *)
Lemma buckets_are_means_witness :
  let d := [("Sam Altman", ISamAltman sample_altman);
            ("Demis Hassabis", IDemisHassabis sample_hassabis)] in
  exists scores overall,
    compute_scores d = Ok (scores, overall)
    /\ dict_get scores "market_potential" = Some (mean (contributions d "market_potential"))
    /\ contributions d "market_potential" = [0.5%float]
    /\ contributions d "innovation_potential" = []
    /\ forall ev,
         _combine_insights fenced_llm "idea" d = Ok ev ->
         overall_score ev = overall
         /\ dict_get scores "market_potential" = Some (market_potential ev)
         /\ dict_get scores "technical_feasibility" = Some (technical_feasibility ev).
Proof.
  cbv zeta.
  destruct (proj1 (buckets_are_means_of_routed_scores fenced_llm "idea"
                     [("Sam Altman", ISamAltman sample_altman);
                      ("Demis Hassabis", IDemisHassabis sample_hassabis)]))
    as (scores & overall & H & _ & G & _ & Hev).
  exists scores, overall. split; [exact H|].
  split; [apply G; cbn; tauto|].
  split; [reflexivity|]. split; [reflexivity|]. exact Hev.
Defined.

(** The statement of C5 at two insights and their swap. *)
Lemma aggregation_is_order_independent_witness :
  let d := [("Sebastian Thrun", ISebastianThrun sample_thrun);
            ("Sam Altman", ISamAltman sample_altman)] in
  let d' := [("Sam Altman", ISamAltman sample_altman);
             ("Sebastian Thrun", ISebastianThrun sample_thrun)] in
  compute_scores d = compute_scores d'
  /\ headline (_combine_insights fenced_llm "idea" d)
     = headline (_combine_insights fenced_llm "idea" d')
  /\ collect_key_insights d = ["Clear demand"; "Self-paced lessons"]
  /\ collect_key_insights d' = ["Clear demand"; "Self-paced lessons"].
Proof.
  cbv zeta.
  destruct (aggregation_is_order_independent fenced_llm "idea"
              [("Sebastian Thrun", ISebastianThrun sample_thrun);
               ("Sam Altman", ISamAltman sample_altman)]
              [("Sam Altman", ISamAltman sample_altman);
               ("Sebastian Thrun", ISebastianThrun sample_thrun)])
    as (Hs & Hh & Hk & _).
  - repeat (constructor; [cbn; intuition discriminate|]). constructor.
  - apply perm_swap.
  - split; [exact Hs|]. split; [exact Hh|]. split; [reflexivity|].
    rewrite Hk. reflexivity.
Defined.

(** C7: every selected persona gets a slot; the slot of a persona whose
    agent function raises holds [None], the slot of one that returns
    holds its record, whatever the others did; the scores are those of
    the present slots alone; and a returned evaluation carries these
    slots and these scores. *)
Theorem failed_persona_is_recorded_absent :
  forall (fs : agent_functions) (call_llm : llm) (idea : string)
         (selected_agents : option (list string))
         (mc tc ub : option (dict pyval)),
    let state := {| state_product_idea := idea;
                    state_market_context := or_empty mc;
                    state_technical_context := or_empty tc;
                    state_user_background := or_empty ub |} in
    let insights := collect_insights state (enabled_agents fs selected_agents) in
    (forall name agent_func e,
       In (name, agent_func) (enabled_agents fs selected_agents) ->
       agent_func state = Raise e ->
       dict_get insights name = Some INone)
    /\ (forall name agent_func v,
          In (name, agent_func) (enabled_agents fs selected_agents) ->
          agent_func state = Ok v ->
          dict_get insights name = Some v)
    /\ dict_keys insights = dict_keys (enabled_agents fs selected_agents)
    /\ compute_scores insights = compute_scores (present_only insights)
    /\ (forall bucket, contributions insights bucket = contributions (present_only insights) bucket)
    /\ (forall ev,
          evaluate_product fs call_llm idea selected_agents mc tc ub = Ok ev ->
          agent_insights ev = insights
          /\ scores_of ev = aggregate_scores (present_only insights)).
Proof.
  intros fs call_llm idea selected_agents mc tc ub state insights.
  pose proof (enabled_agents_nodup fs selected_agents) as ND.
  assert (NDi : NoDup (dict_keys insights)).
  { unfold insights, collect_insights. rewrite collect_keys; cbn [dict_keys map app]; exact ND. }
  split; [|split; [|split; [|split; [|split]]]].
  - intros name f e HIn Hf. unfold insights, collect_insights.
    rewrite (collect_get state _ [] name f ND HIn), Hf. reflexivity.
  - intros name f v HIn Hf. unfold insights, collect_insights.
    rewrite (collect_get state _ [] name f ND HIn), Hf. reflexivity.
  - unfold insights, collect_insights. rewrite collect_keys; [reflexivity|exact ND].
  - symmetry. apply compute_scores_present_only. exact NDi.
  - intros bucket. unfold contributions. rewrite all_entries_present_only by exact NDi.
    reflexivity.
  - intros ev Hev.
    destruct (evaluate_product_returns _ _ _ _ _ _ _ _ Hev) as (ev0 & H0 & Hs & _ & _ & Ha).
    fold state in H0. fold insights in H0.
    destruct (combine_insights_fields _ _ _ _ H0) as (_ & _ & _ & _ & _ & _ & _ & Hi).
    split; [congruence|].
    rewrite Hs, (combine_insights_scores _ _ _ _ H0).
    unfold aggregate_scores, contributions.
    rewrite all_entries_present_only by exact NDi. reflexivity.
Qed.

(** The statement of C7 at a run of three selected personas, of which
    Sam Altman's agent function raises: the evaluation is returned, his
    slot holds [None] and the scores are those of the two others. *)
Lemma failed_persona_witness :
  exists ev,
    evaluate_product sample_agents fenced_llm "idea"
      (Some ["Sebastian Thrun"; "Sam Altman"; "Demis Hassabis"]) None None None = Ok ev
    /\ agent_insights ev
       = [("Sam Altman", INone);
          ("Demis Hassabis", IDemisHassabis sample_hassabis);
          ("Sebastian Thrun", ISebastianThrun sample_thrun)]
    /\ scores_of ev
       = aggregate_scores [("Demis Hassabis", IDemisHassabis sample_hassabis);
                           ("Sebastian Thrun", ISebastianThrun sample_thrun)].
Proof.
  eexists. split; [reflexivity|].
  exact (proj2 (proj2 (proj2 (proj2 (proj2
           (failed_persona_is_recorded_absent sample_agents fenced_llm "idea"
              (Some ["Sebastian Thrun"; "Sam Altman"; "Demis Hassabis"]) None None None)))))
           _ eq_refl).
Defined.

Lemma float_neq_by_eqb (a b : float) : PrimFloat.eqb a a = true -> PrimFloat.eqb a b = false -> a <> b.
Proof. intros Ha Hab Heq. rewrite <- Heq in Hab. congruence. Qed.

(** C9: in a returned evaluation the field [innovation_potential] is the
    mean of the bucket [scientific_breakthrough_potential], which only
    the signal of Demis Hassabis feeds; the bucket
    [innovation_potential], which only the signal of Sebastian Thrun
    feeds, is the sixth term of the overall score and shows in none of
    the three headline fields: replacing his slot changes none of
    them.  The same holds of the evaluation [evaluate_product]
    returns. *)
Theorem innovation_headline_is_breakthrough_bucket :
  forall (call_llm : llm) (idea : string) (d : dict insight) (ev : ProductEvaluation),
    _combine_insights call_llm idea d = Ok ev ->
    innovation_potential ev = mean (contributions d "scientific_breakthrough_potential")
    /\ contributions d "scientific_breakthrough_potential"
       = one (as_DemisHassabis (dict_get d "Demis Hassabis"))
           DemisHassabis.scientific_breakthrough_potential
    /\ contributions d "innovation_potential"
       = one (as_SebastianThrun (dict_get d "Sebastian Thrun"))
           SebastianThrun.innovation_potential
    /\ overall_score ev
       = mean [mean (contributions d "opportunity_score");
               mean (contributions d "market_potential");
               mean (contributions d "technical_feasibility");
               mean (contributions d "scientific_breakthrough_potential");
               mean (contributions d "ai_infrastructure");
               mean (contributions d "innovation_potential")]
    /\ (forall call_llm' slot ev',
          _combine_insights call_llm' idea (dict_set d "Sebastian Thrun" slot) = Ok ev' ->
          market_potential ev' = market_potential ev
          /\ technical_feasibility ev' = technical_feasibility ev
          /\ innovation_potential ev' = innovation_potential ev)
    /\ (forall fs selected_agents mc tc ub run,
          evaluate_product fs call_llm idea selected_agents mc tc ub = Ok run ->
          innovation_potential run
          = mean (contributions (agent_insights run) "scientific_breakthrough_potential")).
Proof.
  intros call_llm idea d ev Hev.
  destruct (combine_insights_fields _ _ _ _ Hev) as (_ & Ho & Hm & Ht & Hi & _).
  destruct (routing_of_key_metrics d) as (_ & Rm & Rt & Rs & _ & Ri).
  split; [exact Hi|]. split; [exact Rs|]. split; [exact Ri|]. split; [exact Ho|].
  split.
  2:{ intros fs selected_agents mc tc ub run Hrun.
      destruct (evaluate_product_returns _ _ _ _ _ _ _ _ Hrun) as (ev0 & H0 & Hs & _ & _ & Ha).
      destruct (combine_insights_fields _ _ _ _ H0) as (_ & _ & _ & _ & Hi0 & _ & _ & Ha0).
      assert (Hinn : innovation_potential run = innovation_potential ev0)
        by exact (f_equal snd Hs).
      rewrite Hinn, Hi0, Ha, Ha0. reflexivity. }
  intros call_llm' slot ev' Hev'.
  destruct (combine_insights_fields _ _ _ _ Hev') as (_ & _ & Hm' & Ht' & Hi' & _).
  destruct (routing_of_key_metrics (dict_set d "Sebastian Thrun" slot))
    as (_ & Rm' & Rt' & Rs' & _).
  cbv zeta in *.
  repeat rewrite DictFacts.dict_get_set_other in Rm' by discriminate.
  repeat rewrite DictFacts.dict_get_set_other in Rt' by discriminate.
  repeat rewrite DictFacts.dict_get_set_other in Rs' by discriminate.
  rewrite Hm, Ht, Hi, Hm', Ht', Hi', Rm, Rt, Rs, Rm', Rt', Rs'.
  repeat split; reflexivity.
Qed.

(** The statement of C9 at a run with the signals of Demis Hassabis and
    Sebastian Thrun: the headline field takes 0.875 from the former and
    differs from the mean of the innovation bucket, 0.25. *)
Lemma innovation_headline_witness :
  let d := [("Demis Hassabis", IDemisHassabis sample_hassabis);
            ("Sebastian Thrun", ISebastianThrun sample_thrun)] in
  exists ev,
    _combine_insights fenced_llm "idea" d = Ok ev
    /\ innovation_potential ev = mean (contributions d "scientific_breakthrough_potential")
    /\ innovation_potential ev = 0.875%float
    /\ mean (contributions d "innovation_potential") = 0.25%float
    /\ innovation_potential ev <> mean (contributions d "innovation_potential").
Proof.
  cbv zeta. eexists. split; [reflexivity|].
  split.
  - exact (proj1 (innovation_headline_is_breakthrough_bucket fenced_llm "idea"
                    [("Demis Hassabis", IDemisHassabis sample_hassabis);
                     ("Sebastian Thrun", ISebastianThrun sample_thrun)] _ eq_refl)).
  - split; [reflexivity|]. split; [reflexivity|].
    apply float_neq_by_eqb; reflexivity.
Defined.

(** C1, at the failing inputs.  With no persona selected the scores are
    computed (all 0, empty lists), but the evaluation is returned only
    when the answer of the recommendation call holds a code fence: an
    answer without one raises [IndexError] at the subscript of the
    split text, which the handler for [JSONDecodeError], [TypeError]
    and [ValueError] does not catch; when the call itself raises one of
    these, the handler prints the unbound [response] and raises
    [UnboundLocalError].  With every persona selected and a project
    advisor that returns its recommendation, [_combine_insights] reads
    the attribute [recommendations], which the class does not have, and
    raises [AttributeError]. *)
Theorem evaluate_product_can_raise :
  (forall fs idea,
     evaluate_product fs (fun _ => Ok (PStr "Start with a pilot customer.")) idea
       (Some []) None None None
     = Raise IndexError)
  /\ (forall fs idea,
        evaluate_product fs (fun _ => Raise ValueError) idea (Some []) None None None
        = Raise UnboundLocalError)
  /\ (forall fs call_llm idea r,
        evaluate_product (with_project_advisor fs (fun _ => Ok r)) call_llm idea
          None None None None
        = Raise AttributeError)
  /\ (forall fs idea,
        exists ev,
          evaluate_product fs fenced_llm idea (Some []) None None None = Ok ev
          /\ overall_score ev = 0%float
          /\ key_insights ev = [] /\ potential_risks ev = []
          /\ recommendations ev = fallback_recommendations).
Proof.
  split; [|split; [|split]].
  - intros fs idea. reflexivity.
  - intros fs idea. reflexivity.
  - intros fs call_llm idea r.
    unfold evaluate_product. cbv zeta.
    set (state := {| state_product_idea := idea;
                     state_market_context := or_empty None;
                     state_technical_context := or_empty None;
                     state_user_background := or_empty None |}).
    set (insights := collect_insights state _).
    assert (Hpa : dict_get insights "Project Advisor" = Some (IProjectRecommendation r)).
    { unfold insights, collect_insights.
      rewrite (collect_get state _ [] "Project Advisor"
                 (lift IProjectRecommendation (fun _ => Ok r))).
      - reflexivity.
      - apply enabled_agents_nodup with (selected_agents := None).
      - cbn. tauto. }
    unfold _combine_insights.
    destruct (compute_scores_spec insights) as [scores [H _]].
    rewrite H. cbn [bind]. unfold advisor_recommendations. rewrite Hpa. reflexivity.
  - intros fs idea. eexists. split; [reflexivity|]. repeat split; reflexivity.
Qed.

End OrchestratorFacts.

(* --------------------------------------------------------------------- *)
(** ** The embedding on concrete inputs                                   *)
(* --------------------------------------------------------------------- *)

Module Examples.
Import Py.

Example loads_array :
  Json.loads " [1, 2.5, true, null, -1e2] "
  = Ok (PList [PInt 1; PFloat 2.5%float; PBool true; PNone; PFloat (-100)%float]).
Proof. vm_compute. reflexivity. Qed.

Example loads_trailing_comma : Json.loads "[1, 2,]" = Raise JSONDecodeError.
Proof. vm_compute. reflexivity. Qed.

Example loads_extra_data : Json.loads "{} {}" = Raise JSONDecodeError.
Proof. vm_compute. reflexivity. Qed.

Example dumps_escapes_newline :
  Json.dumps_str (String "a" (String (Json.chr 10) "b"))
  = String Json.quote (String "a" (String Json.backslash (String "n" (String "b"
      (String Json.quote EmptyString))))).
Proof. vm_compute. reflexivity. Qed.

Example find_and_rfind :
  (find "a{b}c{d}e" "{", rfind "a{b}c{d}e" "}", find "abc" "{", rfind "abc" "}")
  = (1, 7, -1, -1).
Proof. vm_compute. reflexivity. Qed.

Example slice_between : slice "a{b}c{d}e" (Some 1) (Some 8) = "{b}c{d}".
Proof. vm_compute. reflexivity. Qed.

Example split_on_fence : split "text```json```more" "```" = Ok ["text"; "json"; "more"].
Proof. vm_compute. reflexivity. Qed.

Example no_fence_no_second_piece :
  (parts <- py_split (PStr "no fence") "```" ;; list_getitem parts 1) = Raise IndexError.
Proof. vm_compute. reflexivity. Qed.

Example extract_single_object :
  OllamaUtils.extract_json_from_response "Here it is: {} Thanks." = Ok (PDict []).
Proof. vm_compute. reflexivity. Qed.

Example extract_without_json :
  OllamaUtils.extract_json_from_response "No JSON here." = Ok PNone.
Proof. vm_compute. reflexivity. Qed.

Example registry_defaults_without_file :
  AgentSelector.init {| AgentSelector.content := AgentSelector.NoFile;
                        AgentSelector.writable := true |}
  = AgentSelector.default_agents.
Proof. reflexivity. Qed.

Example toggle_unknown_agent :
  AgentSelector.toggle_agent AgentSelector.default_agents
    {| AgentSelector.content := AgentSelector.NoFile; AgentSelector.writable := true |}
    "nobody"
  = (false, AgentSelector.default_agents,
     {| AgentSelector.content := AgentSelector.NoFile; AgentSelector.writable := true |}).
Proof. reflexivity. Qed.

Example scores_of_one_signal :
  Orchestrator.compute_scores
    [("Sam Altman", Orchestrator.ISamAltman OrchestratorFacts.sample_altman)]
  = Ok ([("opportunity_score", 0.75%float);
         ("market_potential", 0.5%float);
         ("technical_feasibility", 0.25%float);
         ("scientific_breakthrough_potential", 0%float);
         ("technical_advancement", 0%float);
         ("research_feasibility", 0%float);
         ("startup_potential", 0%float);
         ("ai_infrastructure", 0%float);
         ("platform_potential", 0%float);
         ("social_impact", 0%float);
         ("autonomous_systems_score", 0%float);
         ("educational_impact", 0%float);
         ("innovation_potential", 0%float)],
        0.25%float).
Proof. vm_compute. reflexivity. Qed.

End Examples.

(* ===================================================================== *)
(** * Part III: further code and its properties                           *)
(* ===================================================================== *)

(* --------------------------------------------------------------------- *)
(** ** agent_selector.py: the remaining operations                        *)
(* --------------------------------------------------------------------- *)

Module AgentSelectorMore.
Import Py AgentSelector.

(** [get_agent_functions(agent_functions)]: the functions of the enabled
    agents, for the ids that [agent_functions] has. *)
Definition get_agent_functions {F : Type} (agents : dict AgentConfig)
  (agent_functions : dict F) : dict F :=
  flat_map (fun '(agent_id, _) =>
              match dict_get agent_functions agent_id with
              | Some f => [(agent_id, f)]
              | None => []
              end)
    (get_enabled_agents agents).

(** An agent keeps the name and the description of its default. *)
Definition keeps_identity (agents : dict AgentConfig) : Prop :=
  forall k a,
    dict_get agents k = Some a ->
    exists a0, dict_get default_agents k = Some a0
               /\ name a = name a0 /\ description a = description a0.

Definition is_dict (v : pyval) : bool :=
  match v with
  | PDict _ => true
  | _ => false
  end.

End AgentSelectorMore.

Module AgentSelectorMoreFacts.
Import Py AgentSelector AgentSelectorMore.

Lemma dict_set_set {V : Type} (d : dict V) k (v1 v2 : V) :
  dict_set (dict_set d k v1) k v2 = dict_set d k v2.
Proof.
  induction d as [|[k0 v0] d IH]; simpl.
  - rewrite String.eqb_refl. reflexivity.
  - destruct (String.eqb k0 k) eqn:E; simpl; rewrite E; [reflexivity|].
    rewrite IH. reflexivity.
Qed.

Lemma dict_set_unchanged {V : Type} (d : dict V) k (v : V) :
  dict_get d k = Some v -> dict_set d k v = d.
Proof.
  induction d as [|[k0 v0] d IH]; simpl; intros H.
  - discriminate.
  - destruct (String.eqb k0 k) eqn:E.
    + inversion H; subst. reflexivity.
    + rewrite IH by exact H. reflexivity.
Qed.

(** Two dictionaries with the same keys in the same order and the same
    value under every key are equal. *)
Lemma dict_extensionality {V : Type} (d1 : dict V) :
  forall d2,
    dict_keys d1 = dict_keys d2 ->
    NoDup (dict_keys d1) ->
    (forall k, dict_get d1 k = dict_get d2 k) ->
    d1 = d2.
Proof.
  unfold dict_keys.
  induction d1 as [|[k1 v1] d1 IH]; intros [|[k2 v2] d2] K ND G; simpl in *;
    try discriminate; [reflexivity|].
  inversion K; subst k2. inversion ND as [|? ? Hnot ND']; subst.
  pose proof (G k1) as G1. rewrite String.eqb_refl in G1. inversion G1; subst v2.
  f_equal. apply IH; [assumption | assumption|].
  intros k. specialize (G k).
  destruct (String.eqb k1 k) eqn:E; [|exact G].
  apply String.eqb_eq in E; subst k.
  assert (N1 : dict_get d1 k1 = None) by (apply DictFacts.dict_get_none_iff; exact Hnot).
  assert (N2 : dict_get d2 k1 = None).
  { apply DictFacts.dict_get_none_iff. unfold dict_keys.
    match goal with H : map fst d1 = map fst d2 |- _ => rewrite <- H end. exact Hnot. }
  rewrite N1, N2. reflexivity.
Qed.

(** X1: toggling a known agent other than the project advisor twice
    succeeds both times and leaves a boolean flag as it was (a flag of
    another type is replaced by its truth value). *)
Theorem toggle_twice_restores_flag :
  forall (agents : dict AgentConfig) (d : disk) (agent_id : string) (a : AgentConfig),
    dict_get agents agent_id = Some a ->
    agent_id <> "project_advisor" ->
    let '(r1, agents1, d1) := toggle_agent agents d agent_id in
    let '(r2, agents2, d2) := toggle_agent agents1 d1 agent_id in
    r1 = true /\ r2 = true
    /\ agents2 = dict_set agents agent_id (with_enabled a (PBool (truthy (enabled a))))
    /\ (forall b, enabled a = PBool b -> agents2 = agents)
    /\ d2 = _save_config agents2 d.
Proof.
  intros agents d agent_id a Ha Hne.
  apply String.eqb_neq in Hne.
  unfold toggle_agent at 1. rewrite Ha, Hne.
  unfold toggle_agent. rewrite DictFacts.dict_get_set_same, Hne.
  rewrite dict_set_set. cbn [with_enabled enabled name description priority truthy].
  rewrite negb_involutive.
  split; [reflexivity|]. split; [reflexivity|]. split; [reflexivity|]. split.
  - intros b Hb. apply dict_set_unchanged. rewrite Ha. f_equal.
    destruct a as [n de e p]. cbn in *. subst e. reflexivity.
  - unfold _save_config. destruct (writable d) eqn:W; cbn [writable];
      try rewrite W; reflexivity.
Qed.

Lemma toggle_twice_witness :
  let d := {| content := NoFile; writable := true |} in
  let '(r1, agents1, d1) := toggle_agent default_agents d "elon_musk" in
  let '(r2, agents2, d2) := toggle_agent agents1 d1 "elon_musk" in
  r1 = true /\ r2 = true /\ agents2 = default_agents
  /\ content d2 = Document (config_data default_agents).
Proof.
  pose proof (toggle_twice_restores_flag default_agents
                {| content := NoFile; writable := true |} "elon_musk" _ eq_refl
                ltac:(discriminate)) as H.
  cbv zeta. vm_compute in H. vm_compute. destruct H as (H1 & H2 & _).
  repeat split; assumption.
Defined.

(** X2: the flag a mutation returns tells whether it was applied.
    [toggle_agent] returns true exactly for a known id other than the
    project advisor, [set_agent_priority] exactly for a known id; when
    the flag is false neither the agents nor the storage change. *)
Theorem mutation_flag_tells_the_change :
  forall (agents : dict AgentConfig) (d : disk) (agent_id : string) (p : Z),
    (fst (fst (toggle_agent agents d agent_id))
     = dict_mem agents agent_id && negb (String.eqb agent_id "project_advisor"))
    /\ (fst (fst (toggle_agent agents d agent_id)) = false ->
        toggle_agent agents d agent_id = (false, agents, d))
    /\ fst (fst (set_agent_priority agents d agent_id p)) = dict_mem agents agent_id
    /\ (fst (fst (set_agent_priority agents d agent_id p)) = false ->
        set_agent_priority agents d agent_id p = (false, agents, d)).
Proof.
  intros agents d agent_id p.
  unfold toggle_agent, set_agent_priority, dict_mem.
  destruct (dict_get agents agent_id) as [a|]; cbn.
  - destruct (String.eqb agent_id "project_advisor"); cbn;
      repeat split; try reflexivity; discriminate.
  - repeat split; reflexivity.
Qed.

Lemma load_items_app items1 :
  forall items2 agents,
    snd (load_items items1 agents) = Ok tt ->
    load_items (items1 ++ items2) agents
    = load_items items2 (fst (load_items items1 agents)).
Proof.
  induction items1 as [|[agent_id config] items1 IH]; intros items2 agents H; simpl in *.
  - reflexivity.
  - destruct (dict_get agents agent_id) as [a|]; [|apply IH; exact H].
    destruct (config_get config "enabled" (PBool true)) as [e|x]; [|discriminate].
    destruct (config_get config "priority" (PInt 0)) as [p|x]; [|discriminate].
    apply IH; exact H.
Qed.

Lemma keeps_identity_set agents agent_id a a' :
  keeps_identity agents ->
  dict_get agents agent_id = Some a ->
  name a' = name a -> description a' = description a ->
  keeps_identity (dict_set agents agent_id a').
Proof.
  intros I Ha Hn Hd k b Hb. rewrite DictFacts.dict_get_set in Hb.
  destruct (String.eqb agent_id k) eqn:E.
  - apply String.eqb_eq in E; subst k. inversion Hb; subst b.
    destruct (I _ _ Ha) as [a0 [H0 [H1 H2]]].
    exists a0. rewrite Hn, Hd. auto.
  - apply I; exact Hb.
Qed.

Lemma keeps_identity_default : keeps_identity default_agents.
Proof. intros k a H. exists a. auto. Qed.

Lemma load_items_identity items :
  forall agents, keeps_identity agents -> keeps_identity (fst (load_items items agents)).
Proof.
  induction items as [|[agent_id config] items IH]; intros agents I; simpl.
  - exact I.
  - destruct (dict_get agents agent_id) as [a|] eqn:E; [|apply IH; exact I].
    destruct (config_get config "enabled" (PBool true)) as [e|x]; [|exact I].
    assert (I1 : keeps_identity (dict_set agents agent_id (with_enabled a e)))
      by (apply keeps_identity_set with (a := a); auto).
    destruct (config_get config "priority" (PInt 0)) as [p|x]; [|exact I1].
    apply IH. apply keeps_identity_set with (a := with_enabled a e); auto.
    apply DictFacts.dict_get_set_same.
Qed.

Lemma init_identity d : keeps_identity (init d).
Proof.
  unfold init, _load_config.
  destruct (content d) as [| |v]; try exact keeps_identity_default.
  destruct v; try exact keeps_identity_default.
  apply load_items_identity, keeps_identity_default.
Qed.

Lemma step_identity agents d o :
  keeps_identity agents -> keeps_identity (fst (step (agents, d) o)).
Proof.
  intros I. destruct o as [agent_id | agent_id p |]; simpl; [| |exact I].
  - unfold toggle_agent.
    destruct (dict_get agents agent_id) as [a|] eqn:E; [|exact I].
    destruct (String.eqb agent_id "project_advisor"); [exact I|].
    simpl. apply keeps_identity_set with (a := a); auto.
  - unfold set_agent_priority.
    destruct (dict_get agents agent_id) as [a|] eqn:E; [|exact I].
    simpl. apply keeps_identity_set with (a := a); auto.
Qed.

Lemma session_identity d ops : keeps_identity (fst (session d ops)).
Proof.
  unfold session.
  assert (G : forall st, keeps_identity (fst st) ->
                         keeps_identity (fst (fold_left step ops st))).
  { induction ops as [|o ops IH]; intros [agents d0] I; cbn [fold_left fst snd] in *.
    - exact I.
    - apply IH. apply step_identity. exact I. }
  apply G. apply init_identity.
Qed.

(** Loading what was saved gives an agent present on both sides its
    own name and description with the saved flag and priority. *)
Lemma load_entries_exact saved :
  NoDup (dict_keys saved) ->
  forall agents k a' a0,
    dict_get saved k = Some a' ->
    dict_get agents k = Some a0 ->
    dict_get (fst (load_items (AgentSelectorFacts.entries saved) agents)) k
    = Some (with_priority (with_enabled a0 (enabled a')) (priority a')).
Proof.
  induction saved as [|[k0 b0] saved IH]; intros ND agents k a' a0 Hs Ha; simpl in *.
  - discriminate.
  - inversion ND as [|? ? Hnot ND']; subst.
    destruct (String.eqb k0 k) eqn:Ek.
    + apply String.eqb_eq in Ek; subst k0. inversion Hs; subst b0.
      rewrite Ha. rewrite AgentSelectorFacts.load_items_untouched.
      * rewrite DictFacts.dict_get_set_same. reflexivity.
      * apply DictFacts.dict_get_none_iff.
        rewrite AgentSelectorFacts.entries_keys. exact Hnot.
    + apply String.eqb_neq in Ek.
      destruct (dict_get agents k0) as [a|] eqn:E.
      * apply IH; [exact ND' | exact Hs|].
        rewrite !DictFacts.dict_get_set_other by exact Ek. exact Ha.
      * apply IH; assumption.
Qed.

Lemma same_keys_get {V W : Type} (d1 : dict V) (d2 : dict W) k v :
  dict_keys d1 = dict_keys d2 ->
  dict_get d1 k = Some v ->
  exists w, dict_get d2 k = Some w.
Proof.
  intros K H. destruct (dict_get d2 k) as [w|] eqn:E; [eauto|].
  apply DictFacts.dict_get_none_iff in E. rewrite <- K in E.
  apply DictFacts.dict_get_none_iff in E. congruence.
Qed.

(** What a fresh selector reads from the file written for [agents]. *)
Lemma init_of_saved agents w :
  dict_keys agents = dict_keys default_agents ->
  keeps_identity agents ->
  init {| content := Document (config_data agents); writable := w |} = agents.
Proof.
  intros K I. unfold init, _load_config. cbn [content].
  rewrite AgentSelectorFacts.config_data_entries.
  assert (ND : NoDup (dict_keys agents))
    by (rewrite K; exact AgentSelectorFacts.default_agents_nodup).
  apply dict_extensionality.
  - rewrite AgentSelectorFacts.load_items_keys. symmetry. exact K.
  - rewrite AgentSelectorFacts.load_items_keys.
    exact AgentSelectorFacts.default_agents_nodup.
  - intros k. destruct (dict_get agents k) as [a|] eqn:E.
    + destruct (I _ _ E) as [a0 [H0 [Hn Hd]]].
      rewrite (load_entries_exact agents ND default_agents k a a0 E H0). f_equal.
      destruct a as [n de e p], a0 as [n0 de0 e0 p0]. cbn in *. subst. reflexivity.
    + apply DictFacts.dict_get_none_iff. rewrite AgentSelectorFacts.load_items_keys.
      rewrite <- K. apply DictFacts.dict_get_none_iff. exact E.
Qed.

(** X3: the stored file is a faithful copy of the registry.  On a
    writable storage, after any session, saving and constructing a fresh
    selector over the storage gives exactly the agents of the session:
    the same ids in the same order, each with its name, description,
    flag and priority. *)
Theorem saved_registry_round_trip :
  forall (d : disk) (ops : list operation),
    writable d = true ->
    let '(agents, d1) := session d ops in
    init (_save_config agents d1) = agents.
Proof.
  intros d ops Hw.
  destruct (AgentSelectorFacts.session_keeps_keys d ops) as [K W].
  pose proof (session_identity d ops) as I.
  destruct (session d ops) as [agents d1]. cbn [fst snd] in *.
  unfold _save_config. rewrite W, Hw.
  apply init_of_saved; assumption.
Qed.

Lemma saved_registry_round_trip_witness :
  let d := {| content := Document (PDict [("elon_musk", PDict [("priority", PInt 4)])]);
              writable := true |} in
  writable d = true
  /\ let '(agents, d1) := session d [Toggle "sam_altman"; SetPriority "daniel_gross" 2] in
     init (_save_config agents d1) = agents.
Proof.
  split; [reflexivity|].
  exact (saved_registry_round_trip
           {| content := Document (PDict [("elon_musk", PDict [("priority", PInt 4)])]);
              writable := true |}
           [Toggle "sam_altman"; SetPriority "daniel_gross" 2] eq_refl).
Defined.

(** The storage after an operation is the storage before it or the one
    [_save_config] gives for the agents after it. *)
Lemma step_storage agents d o :
  snd (step (agents, d) o) = d
  \/ snd (step (agents, d) o) = _save_config (fst (step (agents, d) o)) d.
Proof.
  destruct o as [agent_id | agent_id p |]; simpl; [| |right; reflexivity].
  - unfold toggle_agent.
    destruct (dict_get agents agent_id) as [a|]; [|left; reflexivity].
    destruct (String.eqb agent_id "project_advisor"); [left; reflexivity|].
    right; reflexivity.
  - unfold set_agent_priority.
    destruct (dict_get agents agent_id) as [a|]; [|left; reflexivity].
    right; reflexivity.
Qed.

Definition advisor_flag (agents : dict AgentConfig) : option pyval :=
  option_map enabled (dict_get agents "project_advisor").

(** A registry with the default ids and identities and an enabled
    advisor. *)
Definition sound (agents : dict AgentConfig) : Prop :=
  dict_keys agents = dict_keys default_agents
  /\ keeps_identity agents
  /\ advisor_flag agents = Some (PBool true).

(** The storage holds no file or the file written for a sound registry. *)
Definition own_file (d : disk) : Prop :=
  content d = NoFile
  \/ exists ag, content d = Document (config_data ag) /\ sound ag.

Lemma step_sound agents d o :
  sound agents -> own_file d ->
  sound (fst (step (agents, d) o)) /\ own_file (snd (step (agents, d) o)).
Proof.
  intros (K & I & A) O.
  assert (S1 : sound (fst (step (agents, d) o))).
  { split; [|split].
    - rewrite (proj1 (AgentSelectorFacts.step_keeps_keys agents d o)). exact K.
    - apply step_identity; exact I.
    - unfold advisor_flag. rewrite AgentSelectorFacts.step_keeps_advisor_flag. exact A. }
  split; [exact S1|].
  destruct (step_storage agents d o) as [E|E]; rewrite E; [exact O|].
  unfold _save_config. destruct (writable d); [|exact O].
  right. eexists; split; [reflexivity | exact S1].
Qed.

Lemma get_enabled_get agents k :
  NoDup (dict_keys agents) ->
  dict_get (get_enabled_agents agents) k
  = match dict_get agents k with
    | Some a => if truthy (enabled a) then Some a else None
    | None => None
    end.
Proof.
  unfold get_enabled_agents, dict_keys.
  induction agents as [|[k0 a0] agents IH]; intros ND; simpl.
  - reflexivity.
  - inversion ND as [|? ? Hnot ND']; subst.
    destruct (String.eqb k0 k) eqn:E.
    + apply String.eqb_eq in E; subst k0.
      destruct (truthy (enabled a0)); simpl.
      * rewrite String.eqb_refl. reflexivity.
      * rewrite IH by exact ND'.
        assert (N : dict_get agents k = None)
          by (apply DictFacts.dict_get_none_iff; exact Hnot).
        rewrite N. reflexivity.
    + destruct (truthy (enabled a0)); simpl; [rewrite E|]; apply IH; exact ND'.
Qed.

(** X4: the files the program writes never disable the project advisor.
    Starting without a stored file, after any session (on a writable
    storage or not) the advisor is enabled, and a fresh selector
    constructed over the storage the session leaves has it enabled and
    lists it among the enabled agents. *)
Theorem own_file_keeps_advisor_enabled :
  forall (w : bool) (ops : list operation),
    let '(agents, d1) := session {| content := NoFile; writable := w |} ops in
    advisor_flag agents = Some (PBool true)
    /\ advisor_flag (init d1) = Some (PBool true)
    /\ dict_mem (get_enabled_agents (init d1)) "project_advisor" = true.
Proof.
  intros w ops. unfold session.
  assert (G : forall st, sound (fst st) -> own_file (snd st) ->
                         sound (fst (fold_left step ops st))
                         /\ own_file (snd (fold_left step ops st))).
  { induction ops as [|o ops IH]; intros [agents d0] S O; cbn [fold_left fst snd] in *.
    - split; assumption.
    - destruct (step_sound agents d0 o S O) as [S1 O1]. apply IH; assumption. }
  destruct (G (init {| content := NoFile; writable := w |},
              {| content := NoFile; writable := w |})) as [S O].
  { cbn [fst]. split; [reflexivity|]. split; [exact keeps_identity_default | reflexivity]. }
  { left. reflexivity. }
  destruct (fold_left step ops _) as [agents d1]. cbn [fst snd] in *.
  assert (A1 : advisor_flag (init d1) = Some (PBool true)).
  { destruct O as [E | [ag [E (K & I & A)]]].
    - unfold init, _load_config. rewrite E. reflexivity.
    - destruct d1 as [c w1]. cbn [content] in E. subst c.
      rewrite init_of_saved by assumption. exact A. }
  split; [exact (proj2 (proj2 S))|]. split; [exact A1|].
  unfold dict_mem. rewrite get_enabled_get.
  - unfold advisor_flag in A1.
    destruct (dict_get (init d1) "project_advisor") as [a|]; [|discriminate].
    cbn in A1. inversion A1 as [A2]. rewrite A2. reflexivity.
  - rewrite AgentSelectorFacts.init_keys. exact AgentSelectorFacts.default_agents_nodup.
Qed.

(** X5: an entry of the stored file that is no object, under a known
    id, stops the load: the entries before it are applied, the entries
    after it are ignored, and the constructor still returns. *)
Theorem malformed_entry_stops_the_load :
  forall (items1 items2 : dict pyval) (agent_id : string) (v : pyval) (w : bool),
    snd (load_items items1 default_agents) = Ok tt ->
    dict_mem default_agents agent_id = true ->
    is_dict v = false ->
    init {| content := Document (PDict (items1 ++ (agent_id, v) :: items2)); writable := w |}
    = init {| content := Document (PDict items1); writable := w |}.
Proof.
  intros items1 items2 agent_id v w H1 Hk Hv.
  unfold init, _load_config. cbn [content].
  rewrite load_items_app by exact H1.
  cbn [load_items].
  destruct (same_keys_get default_agents (fst (load_items items1 default_agents)) agent_id)
    with (v := match dict_get default_agents agent_id with
               | Some a => a
               | None => {| name := ""; description := ""; enabled := PNone; priority := PNone |}
               end) as [a Ha].
  - symmetry. apply AgentSelectorFacts.load_items_keys.
  - unfold dict_mem in Hk. destruct (dict_get default_agents agent_id); [reflexivity | discriminate].
  - rewrite Ha. destruct v; try reflexivity. discriminate.
Qed.

Lemma malformed_entry_witness :
  let items1 := [("sam_altman", PDict [("enabled", PBool false)])] in
  let items2 := [("demis_hassabis", PDict [("enabled", PBool false)])] in
  snd (load_items items1 default_agents) = Ok tt
  /\ init {| content := Document (PDict (items1 ++ ("elon_musk", PInt 3) :: items2));
             writable := true |}
     = init {| content := Document (PDict items1); writable := true |}.
Proof.
  split; [reflexivity|].
  exact (malformed_entry_stops_the_load
           [("sam_altman", PDict [("enabled", PBool false)])]
           [("demis_hassabis", PDict [("enabled", PBool false)])]
           "elon_musk" (PInt 3) true eq_refl eq_refl eq_refl).
Defined.

(** X6: a stored entry overrides both settings of its agent.  For an
    entry that is an object under a known id, with no later entry for
    the same id and the entries before it loaded, the agent gets the
    entry's [enabled] and [priority], and a field the entry omits
    becomes True resp. 0, not the built-in default of the agent. *)
Theorem entry_without_fields_resets_them :
  forall (items1 items2 c : dict pyval) (agent_id : string) (a : AgentConfig) (w : bool),
    snd (load_items items1 default_agents) = Ok tt ->
    dict_get default_agents agent_id = Some a ->
    dict_get items2 agent_id = None ->
    dict_get
      (init {| content := Document (PDict (items1 ++ (agent_id, PDict c) :: items2));
               writable := w |}) agent_id
    = Some {| name := name a; description := description a;
              enabled := match dict_get c "enabled" with
                         | Some v => v
                         | None => PBool true
                         end;
              priority := match dict_get c "priority" with
                          | Some v => v
                          | None => PInt 0
                          end |}.
Proof.
  intros items1 items2 c agent_id a w H1 Ha H2.
  unfold init, _load_config. cbn [content].
  rewrite load_items_app by exact H1.
  pose proof (load_items_identity items1 default_agents keeps_identity_default) as I.
  destruct (same_keys_get default_agents (fst (load_items items1 default_agents)) agent_id a)
    as [a1 Ha1]; [symmetry; apply AgentSelectorFacts.load_items_keys | exact Ha |].
  destruct (I _ _ Ha1) as [a0 [H0 [Hn Hd]]].
  rewrite Ha in H0. inversion H0; subst a0.
  cbn [load_items config_get]. rewrite Ha1.
  rewrite AgentSelectorFacts.load_items_untouched by exact H2.
  rewrite DictFacts.dict_get_set_same.
  unfold with_priority, with_enabled. cbn. rewrite Hn, Hd. reflexivity.
Qed.

Lemma entry_without_fields_witness :
  dict_get
    (init {| content := Document (PDict [("elon_musk", PDict [("enabled", PBool false)])]);
             writable := true |}) "elon_musk"
  = Some {| name := "Elon Musk";
            description := "Assesses innovation potential, market disruption, and technical feasibility";
            enabled := PBool false; priority := PInt 0 |}.
Proof.
  exact (entry_without_fields_resets_them [] [] [("enabled", PBool false)] "elon_musk"
           _ true eq_refl eq_refl eq_refl).
Defined.

Lemma get_agent_functions_get {F : Type} (fns : dict F) agents k :
  NoDup (dict_keys agents) ->
  dict_get (get_agent_functions agents fns) k
  = match dict_get agents k with
    | Some a => if truthy (enabled a) then dict_get fns k else None
    | None => None
    end.
Proof.
  unfold get_agent_functions, get_enabled_agents, dict_keys.
  induction agents as [|[k0 a0] agents IH]; intros ND; simpl.
  - reflexivity.
  - inversion ND as [|? ? Hnot ND']; subst.
    assert (T : dict_get agents k0 = None)
      by (apply DictFacts.dict_get_none_iff; exact Hnot).
    destruct (truthy (enabled a0)) eqn:En; simpl.
    + destruct (dict_get fns k0) as [f|] eqn:Ef; simpl.
      * destruct (String.eqb k0 k) eqn:E.
        -- apply String.eqb_eq in E; subst k0. rewrite En, Ef. reflexivity.
        -- apply IH; exact ND'.
      * rewrite IH by exact ND'.
        destruct (String.eqb k0 k) eqn:E; [|reflexivity].
        apply String.eqb_eq in E; subst k0. rewrite T, En, Ef. reflexivity.
    + rewrite IH by exact ND'.
      destruct (String.eqb k0 k) eqn:E; [|reflexivity].
      apply String.eqb_eq in E; subst k0. rewrite T, En. reflexivity.
Qed.

Lemma get_agent_functions_none {F : Type} (fns : dict F) agents :
  (forall k, In k (dict_keys agents) -> dict_get fns k = None) ->
  get_agent_functions agents fns = [].
Proof.
  unfold get_agent_functions, get_enabled_agents, dict_keys.
  induction agents as [|[k0 a0] agents IH]; intros H; simpl.
  - reflexivity.
  - assert (IH' : flat_map
                    (fun '(agent_id, _) =>
                       match dict_get fns agent_id with
                       | Some f => [(agent_id, f)]
                       | None => []
                       end)
                    (filter (fun '(_, agent) => truthy (enabled agent)) agents) = [])
      by (apply IH; intros k Hk; apply H; right; exact Hk).
    destruct (truthy (enabled a0)); simpl; [|exact IH'].
    rewrite (H k0) by (left; reflexivity). exact IH'.
Qed.

(** X7: [get_agent_functions] after any session gives, under an id, the
    function supplied under that id when the id is an enabled agent,
    and nothing otherwise.  The orchestrator registers its agent
    functions under display names ("Sam Altman"), the selector knows
    the agents by id ("sam_altman"), so on the orchestrator's functions
    the result is empty whatever the session did. *)
Theorem get_agent_functions_selects_enabled :
  forall (d : disk) (ops : list operation),
    (forall (F : Type) (fns : dict F) (k : string),
       dict_get (get_agent_functions (fst (session d ops)) fns) k
       = match dict_get (fst (session d ops)) k with
         | Some a => if truthy (enabled a) then dict_get fns k else None
         | None => None
         end)
    /\ (forall fs : Orchestrator.agent_functions,
          get_agent_functions (fst (session d ops)) (Orchestrator.all_agents fs) = []).
Proof.
  intros d ops.
  destruct (AgentSelectorFacts.session_keeps_keys d ops) as [K _].
  split.
  - intros F fns k. apply get_agent_functions_get.
    rewrite K. exact AgentSelectorFacts.default_agents_nodup.
  - intros fs. apply get_agent_functions_none. rewrite K.
    intros k Hk. cbn in Hk.
    repeat (destruct Hk as [Hk|Hk]; [subst k; reflexivity|]). contradiction.
Qed.

End AgentSelectorMoreFacts.

(* --------------------------------------------------------------------- *)
(** ** orchestrator.py: outcomes of a run                                 *)
(* --------------------------------------------------------------------- *)

Module OrchestratorMoreFacts.
Import Py Orchestrator OrchestratorFacts.

(** The prompt [_generate_recommendations] formats. *)
Definition recommendation_prompt (product_idea : string) (scores : dict float)
  (key_insights potential_risks : list string) : recommendations_prompt :=
  {| prompt_product_idea := product_idea;
     prompt_overall_score := scores_get scores "opportunity_score";
     prompt_market_potential := scores_get scores "market_potential";
     prompt_technical_feasibility := scores_get scores "technical_feasibility";
     prompt_scientific_breakthrough_potential :=
       scores_get scores "scientific_breakthrough_potential";
     prompt_key_insights := key_insights;
     prompt_potential_risks := potential_risks |}.

Lemma split_go_length sep s : forall skip cur, (1 <= List.length (split_go sep s skip cur))%nat.
Proof.
  induction s as [|c s IH]; intros skip cur; cbn [split_go].
  - cbn. lia.
  - destruct skip as [|k]; [|apply IH].
    destruct (String.prefix sep (String c s)); [cbn; lia | apply IH].
Qed.

(** A text splits into two pieces or more exactly when it holds the
    separator. *)
Lemma split_go_second_piece sep s :
  sep <> "" ->
  forall cur i,
    0 <= i ->
    (2 <=? Z.of_nat (List.length (split_go sep s 0 cur))) = (0 <=? find_from sep s i).
Proof.
  intros Hsep. induction s as [|c s IH]; intros cur i Hi.
  - cbn [split_go find_from List.length].
    destruct sep as [|c0 sep]; [contradiction|]. cbn. reflexivity.
  - cbn [split_go find_from].
    destruct (String.prefix sep (String c s)) eqn:P.
    + cbn [List.length].
      pose proof (split_go_length sep s (String.length sep - 1) "") as L.
      transitivity true; [apply Z.leb_le; lia | symmetry; apply Z.leb_le; lia].
    + apply IH. lia.
Qed.

Lemma getitem_1_of_split sep s :
  sep <> "" ->
  (exists piece, list_getitem (split_go sep s 0 "") 1 = Ok piece /\ str_contains s sep = true)
  \/ (list_getitem (split_go sep s 0 "") 1 = Raise IndexError /\ str_contains s sep = false).
Proof.
  intros Hsep. unfold str_contains, find.
  rewrite <- (split_go_second_piece sep s Hsep "" 0) by lia.
  unfold list_getitem. cbn [Z.ltb Z.compare Z.leb andb].
  destruct (split_go sep s 0 "") as [|p0 [|p1 l]] eqn:E.
  - right. split; reflexivity.
  - right. split; reflexivity.
  - left. exists p1. split.
    + replace (1 <? Z.of_nat (List.length (p0 :: p1 :: l))) with true
        by (symmetry; apply Z.ltb_lt; cbn [List.length]; lia).
      reflexivity.
    + apply Z.leb_le. cbn [List.length]. lia.
Qed.

(** X8: the outcome of [_generate_recommendations] is decided by the
    answer of the model call alone, and its text is never used: an
    answer that is a text holding a code fence gives the five fixed
    fallback recommendations; a text without a fence raises
    [IndexError]; an answer that is no text raises [AttributeError];
    when the call raises an exception the handler catches
    ([ValueError], [TypeError] and their subclasses) the handler itself
    raises [UnboundLocalError], and any other exception propagates. *)
Theorem generated_recommendations_outcome :
  forall (call_llm : llm) (idea : string) (scores : dict float)
         (insights risks : list string),
    _generate_recommendations call_llm idea scores insights risks
    = match call_llm (recommendation_prompt idea scores insights risks) with
      | Raise e => if caught_by_parse_handler e then Raise UnboundLocalError else Raise e
      | Ok (PStr s) =>
          if str_contains s "```" then Ok fallback_recommendations else Raise IndexError
      | Ok _ => Raise AttributeError
      end.
Proof.
  intros call_llm idea scores insights risks.
  unfold _generate_recommendations. fold (recommendation_prompt idea scores insights risks).
  destruct (call_llm _) as [response|e]; [|reflexivity].
  destruct response; try reflexivity.
  unfold parse_recommendations, py_split, split. cbn [String.eqb Ascii.eqb bind].
  change (String.eqb "```" "") with false. cbv iota. cbn [bind].
  destruct (getitem_1_of_split "```" s ltac:(discriminate)) as [[piece [H C]] | [H C]];
    rewrite H, C; reflexivity.
Qed.

Lemma generated_is_fallback call_llm idea scores insights risks l :
  _generate_recommendations call_llm idea scores insights risks = Ok l ->
  l = fallback_recommendations
  /\ exists s, call_llm (recommendation_prompt idea scores insights risks) = Ok (PStr s)
               /\ str_contains s "```" = true.
Proof.
  unfold _generate_recommendations. fold (recommendation_prompt idea scores insights risks).
  destruct (call_llm _) as [response|e].
  - destruct response;
      try (cbn; intros H; discriminate H).
    unfold parse_recommendations, py_split, split.
    change (String.eqb "```" "") with false. cbv iota. cbn [bind].
    destruct (getitem_1_of_split "```" s ltac:(discriminate)) as [[piece [H C]] | [H C]];
      rewrite H; cbn.
    + intros E. inversion E. split; [reflexivity|]. exists s. split; [reflexivity | exact C].
    + discriminate.
  - destruct (caught_by_parse_handler e); discriminate.
Qed.

(** What [_combine_insights] returns, when it returns, beside the
    scores and lists. *)
Lemma combine_insights_advice call_llm idea insights ev :
  _combine_insights call_llm idea insights = Ok ev ->
  recommendations ev = fallback_recommendations
  /\ project_recommendation ev = INone
  /\ as_ProjectRecommendation (dict_get insights "Project Advisor") = None
  /\ exists prompt s, call_llm prompt = Ok (PStr s) /\ str_contains s "```" = true.
Proof.
  unfold _combine_insights.
  destruct (compute_scores_spec insights) as [scores [H [K G]]].
  rewrite H. cbn [bind]. unfold advisor_recommendations.
  destruct (as_ProjectRecommendation _) as [r|]; [discriminate|].
  cbn [bind].
  destruct (_generate_recommendations _ _ _ _ _) as [recs|e] eqn:R; [|discriminate].
  apply generated_is_fallback in R. destruct R as [R (s & Hs & Hc)].
  cbn [bind]. unfold dict_getitem.
  rewrite !G by (cbn; tauto). cbn [bind].
  intros Hev. inversion Hev; subst ev; clear Hev. cbn.
  split; [exact R|]. split; [reflexivity|]. split; [reflexivity|].
  eexists. exists s. split; [exact Hs | exact Hc].
Qed.

(** The slot of a name after the collection loop: none, or what the
    registered function of that name gave. *)
Lemma collect_slot state agents k :
  NoDup (dict_keys agents) ->
  dict_get (collect_insights state agents) k = None
  \/ exists f, In (k, f) agents
               /\ dict_get (collect_insights state agents) k = Some (slot_of (f state)).
Proof.
  intros ND. unfold collect_insights.
  destruct (in_dec string_dec k (dict_keys agents)) as [Hin|Hout].
  - right. unfold dict_keys in Hin. apply in_map_iff in Hin as [[k' f] [Hk Hin]].
    cbn in Hk; subst k'. exists f. split; [exact Hin|].
    apply collect_get; assumption.
  - left. rewrite collect_untouched by exact Hout. reflexivity.
Qed.

Lemma enabled_agents_incl fs selected_agents e :
  In e (enabled_agents fs selected_agents) -> In e (all_agents fs).
Proof.
  unfold enabled_agents. destruct selected_agents as [names|]; [|tauto].
  intros H. apply filter_In in H. tauto.
Qed.

(** X9: an evaluation [evaluate_product] returns never carries advice
    of the model or of the project advisor: its recommendations are the
    five fixed fallback recommendations, its project recommendation is
    [None], and the slot of the project advisor, when there is one,
    holds [None].  It is returned only when the recommendation call
    answered a text that holds a code fence. *)
Theorem returned_evaluation_carries_no_advice :
  forall (fs : agent_functions) (call_llm : llm) (idea : string)
         (selected_agents : option (list string))
         (mc tc ub : option (dict pyval)) (ev : ProductEvaluation),
    evaluate_product fs call_llm idea selected_agents mc tc ub = Ok ev ->
    recommendations ev = fallback_recommendations
    /\ project_recommendation ev = INone
    /\ (dict_get (agent_insights ev) "Project Advisor" = None
        \/ dict_get (agent_insights ev) "Project Advisor" = Some INone)
    /\ exists prompt s, call_llm prompt = Ok (PStr s) /\ str_contains s "```" = true.
Proof.
  intros fs call_llm idea selected_agents mc tc ub ev.
  unfold evaluate_product. cbv zeta.
  set (state := {| state_product_idea := idea;
                   state_market_context := or_empty mc;
                   state_technical_context := or_empty tc;
                   state_user_background := or_empty ub |}).
  set (insights := collect_insights state (enabled_agents fs selected_agents)).
  destruct (_combine_insights call_llm idea insights) as [ev0|e] eqn:C; [|discriminate].
  cbn [bind].
  destruct (combine_insights_advice _ _ _ _ C) as (R & P & A & F).
  destruct (combine_insights_fields _ _ _ _ C) as (_ & _ & _ & _ & _ & _ & _ & I).
  assert (S : dict_get insights "Project Advisor" = None
              \/ dict_get insights "Project Advisor" = Some INone).
  { destruct (collect_slot state (enabled_agents fs selected_agents) "Project Advisor"
                (enabled_agents_nodup fs selected_agents)) as [N | [f [Hin Hf]]].
    - left. exact N.
    - right. fold insights in Hf. rewrite Hf in A |- *.
      apply enabled_agents_incl in Hin. cbn in Hin.
      repeat (destruct Hin as [Hin|Hin]; [try discriminate|]); [|contradiction].
      inversion Hin; subst f. unfold lift in *.
      destruct (project_advisor_agent fs state); [discriminate | reflexivity]. }
  destruct S as [S|S]; rewrite S; cbn [present];
    intros Hev; inversion Hev; subst ev; clear Hev;
    rewrite I, S; repeat split; auto.
Qed.

Lemma returned_evaluation_witness :
  exists ev,
    evaluate_product sample_agents fenced_llm "idea" None None None None = Ok ev
    /\ recommendations ev = fallback_recommendations
    /\ project_recommendation ev = INone
    /\ (dict_get (agent_insights ev) "Project Advisor" = None
        \/ dict_get (agent_insights ev) "Project Advisor" = Some INone)
    /\ exists prompt s, fenced_llm prompt = Ok (PStr s) /\ str_contains s "```" = true.
Proof.
  eexists. split; [reflexivity|].
  exact (returned_evaluation_carries_no_advice sample_agents fenced_llm "idea"
           None None None None _ eq_refl).
Defined.

Lemma selected_filter_ext {V : Type} names1 names2 (l : dict V) :
  (forall n, In n (dict_keys l) -> selected names1 n = selected names2 n) ->
  filter (fun '(name, _) => selected names1 name) l
  = filter (fun '(name, _) => selected names2 name) l.
Proof.
  intros H. apply filter_ext_in. intros [n v] Hin.
  apply H. unfold dict_keys. apply in_map_iff. exists (n, v). split; [reflexivity | exact Hin].
Qed.

Lemma filter_all {A : Type} (p : A -> bool) (l : list A) :
  (forall x, In x l -> p x = true) -> filter p l = l.
Proof.
  induction l as [|x l IH]; intros H; cbn.
  - reflexivity.
  - rewrite (H x) by (left; reflexivity). f_equal. apply IH.
    intros y Hy. apply H. right; exact Hy.
Qed.

Lemma keys_of_filter {V : Type} (p : string -> bool) (l : dict V) :
  dict_keys (filter (fun '(name, _) => p name) l) = filter p (dict_keys l).
Proof.
  unfold dict_keys. induction l as [|[n v] l IH]; cbn.
  - reflexivity.
  - destruct (p n); cbn; rewrite IH; reflexivity.
Qed.

(** X10: a selection counts only as a set of registered names.  Two
    selections that agree on the nine registered names give the same
    outcome of [evaluate_product], whatever their order, repetitions
    and unknown names; the slots are those of the selected registered
    names, in registration order; and selecting every registered name
    is the same as giving no selection. *)
Theorem selection_is_a_set_of_registered_names :
  forall (fs : agent_functions) (call_llm : llm) (idea : string)
         (mc tc ub : option (dict pyval)) (names1 names2 : list string),
    (forall n, In n registration_order -> selected names1 n = selected names2 n) ->
    evaluate_product fs call_llm idea (Some names1) mc tc ub
    = evaluate_product fs call_llm idea (Some names2) mc tc ub
    /\ dict_keys (enabled_agents fs (Some names1))
       = filter (selected names1) registration_order
    /\ (forall names,
          (forall n, In n registration_order -> selected names n = true) ->
          evaluate_product fs call_llm idea (Some names) mc tc ub
          = evaluate_product fs call_llm idea None mc tc ub).
Proof.
  intros fs call_llm idea mc tc ub names1 names2 H.
  split; [|split].
  - unfold evaluate_product, enabled_agents.
    rewrite (selected_filter_ext names1 names2 (all_agents fs)); [reflexivity|].
    rewrite all_agents_names. exact H.
  - unfold enabled_agents. rewrite keys_of_filter, all_agents_names. reflexivity.
  - intros names Hall. unfold evaluate_product, enabled_agents.
    rewrite filter_all; [reflexivity|].
    intros [n f] Hin. apply Hall. rewrite <- (all_agents_names fs).
    unfold dict_keys. apply in_map_iff. exists (n, f). split; [reflexivity | exact Hin].
Qed.

Lemma selection_witness :
  let names1 := ["Sebastian Thrun"; "Nobody"; "Demis Hassabis"; "Sebastian Thrun"] in
  let names2 := ["Demis Hassabis"; "Sebastian Thrun"] in
  (forall n, In n registration_order -> selected names1 n = selected names2 n)
  /\ evaluate_product sample_agents fenced_llm "idea" (Some names1) None None None
     = evaluate_product sample_agents fenced_llm "idea" (Some names2) None None None.
Proof.
  cbv zeta.
  assert (H : forall n, In n registration_order ->
                        selected ["Sebastian Thrun"; "Nobody"; "Demis Hassabis"; "Sebastian Thrun"] n
                        = selected ["Demis Hassabis"; "Sebastian Thrun"] n).
  { intros n Hin. cbn in Hin.
    repeat (destruct Hin as [Hin|Hin]; [subst n; reflexivity|]). contradiction. }
  split; [exact H|].
  exact (proj1 (selection_is_a_set_of_registered_names sample_agents fenced_llm "idea"
                  None None None _ _ H)).
Defined.

End OrchestratorMoreFacts.

(* --------------------------------------------------------------------- *)
(** ** utils/progress.py: the progress tracker                            *)
(* --------------------------------------------------------------------- *)

Module Progress.
Import Py.

(** The keys of the inner dictionaries: the callers pass a text or
    [None] as [item]. *)
Definition item_eqb (a b : option string) : bool :=
  match a, b with
  | Some x, Some y => String.eqb x y
  | None, None => true
  | _, _ => false
  end.

Definition items (V : Type) : Type := list (option string * V).

Fixpoint item_get {V : Type} (d : items V) (k : option string) : option V :=
  match d with
  | [] => None
  | (k', v) :: rest => if item_eqb k' k then Some v else item_get rest k
  end.

Fixpoint item_set {V : Type} (d : items V) (k : option string) (v : V) : items V :=
  match d with
  | [] => [(k, v)]
  | (k', v') :: rest =>
      if item_eqb k' k then (k', v) :: rest else (k', v') :: item_set rest k v
  end.

(** [ProgressTracker]: [self.status] and [self.start_times]. *)
Record ProgressTracker : Type := {
  status : dict (items string);
  start_times : dict (items float)
}.

(** [ProgressTracker()]. *)
Definition new : ProgressTracker := {| status := []; start_times := [] |}.

(** [update_status(agent, item, status)]; [now] is what [time.time()]
    gives when it is called. *)
Definition update_status (p : ProgressTracker) (agent : string) (item : option string)
  (text : string) (now : float) : result ProgressTracker :=
  let p :=
    if dict_mem (status p) agent then p
    else {| status := dict_set (status p) agent [];
            start_times := dict_set (start_times p) agent [] |} in
  of_agent <- dict_getitem (status p) agent ;;
  let status' := dict_set (status p) agent (item_set of_agent item text) in
  started <- dict_getitem (start_times p) agent ;;
  match item_get started item with
  | Some _ => Ok {| status := status'; start_times := start_times p |}
  | None =>
      Ok {| status := status';
            start_times := dict_set (start_times p) agent (item_set started item now) |}
  end.

(** [get_status(agent, item)]. *)
Definition get_status (p : ProgressTracker) (agent : string) (item : option string) : string :=
  let of_agent := match dict_get (status p) agent with
                  | Some d => d
                  | None => []
                  end in
  match item_get of_agent item with
  | Some s => s
  | None => "Unknown"
  end.

(** [get_elapsed_time(agent, item)] when [time.time()] gives [now]. *)
Definition get_elapsed_time (p : ProgressTracker) (agent : string) (item : option string)
  (now : float) : result float :=
  if dict_mem (start_times p) agent then
    started <- dict_getitem (start_times p) agent ;;
    match item_get started item with
    | Some t0 => Ok (now - t0)%float
    | None => Ok 0%float
    end
  else Ok 0%float.

(** [reset()]. *)
Definition reset (p : ProgressTracker) : ProgressTracker := new.

(** The calls a program makes on the tracker, with the clock readings. *)
Inductive call : Type :=
| Update (agent : string) (item : option string) (text : string) (now : float)
| Reset.

Definition run_call (p : result ProgressTracker) (c : call) : result ProgressTracker :=
  p <- p ;;
  match c with
  | Update agent item text now => update_status p agent item text now
  | Reset => Ok (reset p)
  end.

(** A tracker after the calls [cs], from a new one. *)
Definition after (cs : list call) : result ProgressTracker :=
  fold_left run_call cs (Ok new).

End Progress.

Module ProgressFacts.
Import Py Progress.

Lemma item_eqb_refl k : item_eqb k k = true.
Proof. destruct k; cbn; [apply String.eqb_refl | reflexivity]. Qed.

Lemma item_eqb_eq a b : item_eqb a b = true <-> a = b.
Proof.
  destruct a, b; cbn; split; intros H; try discriminate; try reflexivity.
  - apply String.eqb_eq in H. congruence.
  - inversion H. apply String.eqb_refl.
Qed.

Lemma item_get_set {V : Type} (d : items V) k v k' :
  item_get (item_set d k v) k' = if item_eqb k k' then Some v else item_get d k'.
Proof.
  induction d as [|[k0 v0] d IH]; cbn.
  - reflexivity.
  - destruct (item_eqb k0 k) eqn:E; cbn.
    + apply item_eqb_eq in E; subst k0. destruct (item_eqb k k'); reflexivity.
    + rewrite IH. destruct (item_eqb k0 k') eqn:E'; [|reflexivity].
      apply item_eqb_eq in E'; subst k0.
      destruct (item_eqb k k') eqn:E2; [|reflexivity].
      apply item_eqb_eq in E2; subst k'. rewrite item_eqb_refl in E. discriminate.
Qed.

(** The two dictionaries of a tracker have the same agents. *)
Definition aligned (p : ProgressTracker) : Prop :=
  forall agent, dict_mem (status p) agent = dict_mem (start_times p) agent.

Lemma dict_mem_set {V : Type} (d : dict V) k v k' :
  dict_mem (dict_set d k v) k' = String.eqb k k' || dict_mem d k'.
Proof.
  unfold dict_mem. rewrite DictFacts.dict_get_set.
  destruct (String.eqb k k'); reflexivity.
Qed.

(** The status and the start time recorded for an agent and an item. *)
Definition status_of (p : ProgressTracker) (agent : string) (item : option string)
  : option string :=
  match dict_get (status p) agent with
  | Some d => item_get d item
  | None => None
  end.

Definition start_of (p : ProgressTracker) (agent : string) (item : option string)
  : option float :=
  match dict_get (start_times p) agent with
  | Some d => item_get d item
  | None => None
  end.

Definition same_pair (agent : string) (item : option string)
  (agent' : string) (item' : option string) : bool :=
  String.eqb agent agent' && item_eqb item item'.

Lemma get_status_of p agent item :
  get_status p agent item = match status_of p agent item with
                            | Some s => s
                            | None => "Unknown"
                            end.
Proof.
  unfold get_status, status_of. destruct (dict_get (status p) agent); reflexivity.
Qed.

Lemma get_elapsed_time_of p agent item now :
  get_elapsed_time p agent item now
  = Ok (match start_of p agent item with
        | Some t0 => (now - t0)%float
        | None => 0%float
        end).
Proof.
  unfold get_elapsed_time, start_of, dict_mem, dict_getitem.
  destruct (dict_get (start_times p) agent) as [d|]; [|reflexivity].
  cbn [bind]. destruct (item_get d item); reflexivity.
Qed.

(** On an aligned tracker an update returns; it sets the status of its
    pair and leaves the others, and it records the clock reading for a
    pair that has no start time yet. *)
Lemma update_status_spec p agent item text now :
  aligned p ->
  exists p',
    update_status p agent item text now = Ok p'
    /\ aligned p'
    /\ (forall a i, status_of p' a i
                    = if same_pair agent item a i then Some text else status_of p a i)
    /\ (forall a i, start_of p' a i
                    = match start_of p a i with
                      | Some t => Some t
                      | None => if same_pair agent item a i then Some now else None
                      end).
Proof.
  intros A. unfold update_status.
  set (q := if dict_mem (status p) agent then p
            else {| status := dict_set (status p) agent [];
                    start_times := dict_set (start_times p) agent [] |}).
  assert (Q : aligned q
              /\ (exists d, dict_get (status q) agent = Some d
                            /\ forall i, item_get d i = status_of p agent i)
              /\ (exists d, dict_get (start_times q) agent = Some d
                            /\ forall i, item_get d i = start_of p agent i)
              /\ (forall a, a <> agent -> dict_get (status q) a = dict_get (status p) a)
              /\ (forall a, a <> agent ->
                            dict_get (start_times q) a = dict_get (start_times p) a)).
  { unfold q. pose proof (A agent) as Aa. unfold status_of, start_of.
    destruct (dict_mem (status p) agent) eqn:M.
    - split; [exact A|]. unfold dict_mem in M, Aa.
      destruct (dict_get (status p) agent) as [d|]; [|discriminate].
      destruct (dict_get (start_times p) agent) as [d'|]; [|discriminate].
      split; [exists d; split; [reflexivity | reflexivity]|].
      split; [exists d'; split; [reflexivity | reflexivity]|].
      split; reflexivity.
    - cbn [status start_times]. split.
      + intros a. cbn [status start_times]. rewrite !dict_mem_set, A. reflexivity.
      + unfold dict_mem in M, Aa.
        destruct (dict_get (status p) agent) as [d|]; [discriminate|].
        destruct (dict_get (start_times p) agent) as [d'|]; [discriminate|].
        rewrite !DictFacts.dict_get_set_same.
        split; [exists []; split; reflexivity|].
        split; [exists []; split; reflexivity|].
        split; intros a Ha; apply DictFacts.dict_get_set_other; congruence. }
  destruct Q as (Aq & (d & Hd & Hdi) & (t & Ht & Hti) & Os & Ot).
  unfold dict_getitem. rewrite Hd, Ht. cbn [bind].
  assert (S1 : forall st a i,
             status_of {| status := dict_set (status q) agent (item_set d item text);
                          start_times := st |} a i
             = if same_pair agent item a i then Some text else status_of p a i).
  { intros st a i. unfold status_of, same_pair. cbn [status].
    rewrite DictFacts.dict_get_set.
    destruct (String.eqb agent a) eqn:E; cbn [andb].
    - apply String.eqb_eq in E; subst a. rewrite item_get_set, Hdi. reflexivity.
    - apply String.eqb_neq in E. rewrite Os by congruence. reflexivity. }
  assert (Am : forall (st : dict (items float)),
             (forall a, dict_mem st a = dict_mem (start_times q) a) ->
             aligned {| status := dict_set (status q) agent (item_set d item text);
                        start_times := st |}).
  { intros st H a. cbn [status start_times]. rewrite dict_mem_set, H, <- (Aq a).
    destruct (String.eqb agent a) eqn:E; [|reflexivity].
    apply String.eqb_eq in E; subst a. unfold dict_mem. rewrite Hd. reflexivity. }
  destruct (item_get t item) as [t0|] eqn:G.
  - eexists. split; [reflexivity|]. split; [apply Am; reflexivity|].
    split; [apply S1|].
    intros a i. unfold start_of, same_pair. cbn [start_times].
    destruct (String.eqb agent a) eqn:E; cbn [andb].
    + apply String.eqb_eq in E; subst a. rewrite Ht.
      fold (start_of p agent i). rewrite <- Hti.
      destruct (item_get t i) eqn:Gi; [reflexivity|].
      destruct (item_eqb item i) eqn:Ei; [|reflexivity].
      apply item_eqb_eq in Ei; subst i. congruence.
    + apply String.eqb_neq in E. rewrite Ot by congruence.
      destruct (dict_get (start_times p) a) as [d0|]; [|reflexivity].
      destruct (item_get d0 i); reflexivity.
  - eexists. split; [reflexivity|]. split.
    + apply Am. intros a. rewrite dict_mem_set.
      destruct (String.eqb agent a) eqn:E; [|reflexivity].
      apply String.eqb_eq in E; subst a. unfold dict_mem. rewrite Ht. reflexivity.
    + split; [apply S1|].
      intros a i. unfold start_of, same_pair. cbn [start_times].
      rewrite DictFacts.dict_get_set.
      destruct (String.eqb agent a) eqn:E; cbn [andb].
      * apply String.eqb_eq in E; subst a. rewrite item_get_set.
        fold (start_of p agent i). rewrite <- Hti.
        destruct (item_eqb item i) eqn:Ei.
        -- apply item_eqb_eq in Ei; subst i. rewrite G. reflexivity.
        -- destruct (item_get t i); reflexivity.
      * apply String.eqb_neq in E. rewrite Ot by congruence.
        destruct (dict_get (start_times p) a) as [d0|]; [|reflexivity].
        destruct (item_get d0 i); reflexivity.
Qed.

(** Whatever calls were made, the tracker is there and aligned. *)
Lemma after_aligned cs : exists p, after cs = Ok p /\ aligned p.
Proof.
  unfold after.
  assert (G : forall p0, aligned p0 ->
                         exists p, fold_left run_call cs (Ok p0) = Ok p /\ aligned p).
  { induction cs as [|c cs IH]; intros p0 A0; cbn [fold_left].
    - exists p0. split; [reflexivity | exact A0].
    - destruct c as [agent item text now|]; cbn [run_call bind].
      + destruct (update_status_spec p0 agent item text now A0) as (p1 & H1 & A1 & _).
        rewrite H1. apply IH. exact A1.
      + apply IH. intros a. reflexivity. }
  apply G. intros a. reflexivity.
Qed.

(** X11: the status of the tracker is an insert and lookup store.
    After any calls, [update_status] returns (it never raises); then
    [get_status] gives the new text for the updated agent and item and
    what it gave before for every other pair; a pair never updated, and
    every pair after [reset], reads "Unknown". *)
Theorem status_round_trip :
  forall (cs : list call) (agent : string) (item : option string) (text : string)
         (now : float),
    exists p p',
      after cs = Ok p
      /\ update_status p agent item text now = Ok p'
      /\ get_status p' agent item = text
      /\ (forall a i, same_pair agent item a i = false ->
                      get_status p' a i = get_status p a i)
      /\ (status_of p agent item = None -> get_status p agent item = "Unknown")
      /\ (forall a i, get_status (reset p') a i = "Unknown").
Proof.
  intros cs agent item text now.
  destruct (after_aligned cs) as (p & Hp & A).
  destruct (update_status_spec p agent item text now A) as (p' & H' & _ & S & _).
  exists p, p'. split; [exact Hp|]. split; [exact H'|].
  split; [|split; [|split]].
  - rewrite get_status_of, S. unfold same_pair.
    rewrite String.eqb_refl, item_eqb_refl. reflexivity.
  - intros a i N. rewrite !get_status_of, S, N. reflexivity.
  - intros N. rewrite get_status_of, N. reflexivity.
  - intros a i. reflexivity.
Qed.

(** X12: the elapsed time of an agent and item is counted from the
    first update of the pair.  A second update changes the status but
    not the start time, so the elapsed time stays the clock reading
    minus the time of the first update; for a pair never updated it is
    0.0; the function never raises. *)
Theorem elapsed_time_counts_from_first_update :
  forall (cs : list call) (agent : string) (item : option string)
         (text1 text2 : string) (t1 t2 now : float),
    exists p p1 p2,
      after cs = Ok p
      /\ update_status p agent item text1 t1 = Ok p1
      /\ update_status p1 agent item text2 t2 = Ok p2
      /\ get_status p2 agent item = text2
      /\ get_elapsed_time p2 agent item now = get_elapsed_time p1 agent item now
      /\ (start_of p agent item = None ->
          get_elapsed_time p agent item now = Ok 0%float
          /\ get_elapsed_time p2 agent item now = Ok (now - t1)%float).
Proof.
  intros cs agent item text1 text2 t1 t2 now.
  destruct (after_aligned cs) as (p & Hp & A).
  destruct (update_status_spec p agent item text1 t1 A) as (p1 & H1 & A1 & _ & T1).
  destruct (update_status_spec p1 agent item text2 t2 A1) as (p2 & H2 & _ & S2 & T2).
  exists p, p1, p2.
  split; [exact Hp|]. split; [exact H1|]. split; [exact H2|].
  assert (P : same_pair agent item agent item = true)
    by (unfold same_pair; rewrite String.eqb_refl, item_eqb_refl; reflexivity).
  assert (E : start_of p2 agent item = start_of p1 agent item).
  { rewrite T2, T1, P. destruct (start_of p agent item); reflexivity. }
  split; [rewrite get_status_of, S2, P; reflexivity|].
  split; [rewrite !get_elapsed_time_of, E; reflexivity|].
  intros N. rewrite !get_elapsed_time_of, E, T1, N, P. split; reflexivity.
Qed.

End ProgressFacts.

(* --------------------------------------------------------------------- *)
(** ** utils/ollama_utils.py and utils/llm.py: the calls of the backend   *)
(* --------------------------------------------------------------------- *)

Module LlmCalls.
Import Py.

(** What [requests.post] or [requests.get] does: it raises, or it gives
    a response with a status code and a body, of which [json()] gives
    the decoded document or raises. *)
Inductive http_outcome : Type :=
| RequestRaises (e : exn)
| Response (status_code : Z) (json : result pyval).

(** [obj.get(key, default)]: only a [dict] has the method. *)
Definition py_get (obj : pyval) (key : string) (default : pyval) : result pyval :=
  match obj with
  | PDict d =>
      Ok (match dict_get d key with
          | Some v => v
          | None => default
          end)
  | _ => Raise AttributeError
  end.

(** [extract_json_from_response(content)] of ollama_utils on any value:
    a value that is no [str] has no [find], and the [AttributeError] is
    caught inside the function. *)
Definition extract_json (content : pyval) : result pyval :=
  match content with
  | PStr s => OllamaUtils.extract_json_from_response s
  | _ => Ok PNone
  end.

(** [if output_format:] for an optional text. *)
Definition given (output_format : option string) : bool :=
  match output_format with
  | Some s => negb (String.eqb s "")
  | None => false
  end.

(** [call_ollama(prompt, model_name, output_format)], from the outcome
    of the POST request on. *)
Definition call_ollama (post : http_outcome) (output_format : option string)
  : result pyval :=
  try_except
    (match post with
     | RequestRaises e => Raise e
     | Response status_code json =>
         if status_code =? 200 then
           result <- json ;;
           content <- py_get result "response" (PStr "") ;;
           if given output_format then
             returned <-
               try_except
                 (json_content <- extract_json content ;;
                  Ok (if truthy json_content then Some json_content else None))
                 any_Exception (fun _ => Ok None) ;;
             match returned with
             | Some json_content => Ok json_content
             | None => Ok content
             end
           else Ok content
         else Ok PNone
     end)
    any_Exception (fun _ => Ok PNone).

(** Iteration over a value, as a [for] or a comprehension does it; a
    [str] gives its characters, a [dict] its keys. *)
Definition py_iter (v : pyval) : result (list pyval) :=
  match v with
  | PList l => Ok l
  | PDict d => Ok (map (fun '(k, _) => PStr k) d)
  | PStr s => Ok (map (fun cp => PStr (Json.utf8 cp)) (Json.code_points s))
  | PNone | PBool _ | PInt _ | PFloat _ => Raise TypeError
  end.

(** [[model["name"] for model in models]]. *)
Fixpoint names_of (models : list pyval) : result (list pyval) :=
  match models with
  | [] => Ok []
  | model :: rest =>
      name <- py_getitem model "name" ;;
      names <- names_of rest ;;
      Ok (name :: names)
  end.

(** [get_available_models()], from the outcome of the GET request on. *)
Definition get_available_models (get : http_outcome) : result (list pyval) :=
  try_except
    (match get with
     | RequestRaises e => Raise e
     | Response status_code json =>
         if status_code =? 200 then
           document <- json ;;
           models <- py_get document "models" (PList []) ;;
           models <- py_iter models ;;
           names_of models
         else Ok []
     end)
    any_Exception (fun _ => Ok []).

(** [call_llm_with_model], the branch taken with Ollama.  The progress
    updates of the loop, which change nothing but the tracker, are left
    out. *)
Section CallWithModel.

Context {T : Type}.

(** The validating constructor [pydantic_model] on keyword arguments;
    what [create_default_response(pydantic_model)] gives; what
    [default_factory()] gives, when a factory is passed; and what the
    statements of the [try] up to the call of [call_ollama] give at
    each attempt. *)
Variable pydantic_model : dict pyval -> result T.
Variable create_default : result T.
Variable default_factory : option (result T).
Variable max_retries : Z.
Variable call : Z -> result pyval.

Definition is_dict (v : pyval) : bool :=
  match v with
  | PDict _ => true
  | _ => false
  end.

Definition has_factory : bool :=
  match default_factory with
  | Some _ => true
  | None => false
  end.

(** What one turn of the loop does: it returns from the function, or
    the loop goes on. *)
Inductive turn : Type :=
| Return (r : result T)
| Next.

Definition attempt_turn (attempt : Z) : turn :=
  let last := attempt =? max_retries - 1 in
  let body : result (option T) :=
    result <- call attempt ;;
    if truthy result && is_dict result then
      kwargs <- py_kwargs result ;;
      instance <- pydantic_model kwargs ;;
      Ok (Some instance)
    else if last && has_factory then
      match default_factory with
      | Some made => instance <- made ;; Ok (Some instance)
      | None => Ok None
      end
    else Ok None in
  match body with
  | Ok (Some instance) => Return (Ok instance)
  | Ok None => Next
  | Raise _ =>
      if last then
        Return (match default_factory with
                | Some made => made
                | None => create_default
                end)
      else Next
  end.

(** [for attempt in range(max_retries)] from [attempt] on, with [n]
    turns left, and the fallback after the loop. *)
Fixpoint retry (n : nat) (attempt : Z) : result T :=
  match n with
  | O => create_default
  | S n' =>
      match attempt_turn attempt with
      | Return r => r
      | Next => retry n' (attempt + 1)
      end
  end.

Definition call_llm_with_model : result T := retry (Z.to_nat max_retries) 0.

End CallWithModel.

End LlmCalls.

Module LlmCallsFacts.
Import Py LlmCalls.

Lemma extract_json_value (s : string) :
  OllamaUtils.extract_json_from_response s = Ok (ExtractFacts.extraction s).
Proof.
  unfold OllamaUtils.extract_json_from_response, ExtractFacts.extraction,
    ExtractFacts.parsed_or_none.
  rewrite ExtractFacts.extract_body_spec.
  destruct (ExtractFacts.outer_span "{" "}" s) as [span|].
  - destruct (Json.loads span); reflexivity.
  - destruct (ExtractFacts.outer_span "[" "]" s) as [span|]; [|reflexivity].
    destruct (Json.loads span); reflexivity.
Qed.

Lemma extract_json_returns (content : pyval) : exists v, extract_json content = Ok v.
Proof.
  destruct content; cbn; eauto. rewrite extract_json_value. eauto.
Qed.

(** X13: [call_ollama] never raises.  A request that raises and a
    status other than 200 give [None].  For a status 200 whose document
    holds a text under "response", the result is the JSON value
    extracted from the text when an output format is given and that
    value is true (a non-empty object or array), and the text itself
    otherwise: an answer holding the empty object comes back as
    text. *)
Theorem call_ollama_prefers_extracted_json :
  (forall post output_format, exists v, call_ollama post output_format = Ok v)
  /\ (forall e output_format, call_ollama (RequestRaises e) output_format = Ok PNone)
  /\ (forall status_code json output_format,
        status_code <> 200 ->
        call_ollama (Response status_code json) output_format = Ok PNone)
  /\ (forall d s output_format,
        dict_get d "response" = Some (PStr s) ->
        call_ollama (Response 200 (Ok (PDict d))) output_format
        = Ok (if given output_format && truthy (ExtractFacts.extraction s)
              then ExtractFacts.extraction s
              else PStr s)).
Proof.
  split; [|split; [|split]].
  - intros post output_format. unfold call_ollama, try_except.
    match goal with
    | |- exists v, match ?b with _ => _ end = _ => destruct b as [v|e]
    end; cbn; eauto.
  - reflexivity.
  - intros status_code json output_format H. unfold call_ollama.
    apply Z.eqb_neq in H. rewrite H. reflexivity.
  - intros d s output_format H. unfold call_ollama.
    change (200 =? 200) with true. cbv iota. cbn [bind py_get]. rewrite H.
    destruct (given output_format); cbn [andb]; [|reflexivity].
    cbn [extract_json]. rewrite extract_json_value. cbn [bind try_except].
    destruct (truthy (ExtractFacts.extraction s)); reflexivity.
Qed.

Lemma names_of_spec models :
  forall names,
    names_of models = Ok names ->
    Forall2 (fun model name =>
               exists fields, model = PDict fields /\ dict_get fields "name" = Some name)
      models names.
Proof.
  induction models as [|model models IH]; intros names; cbn [names_of].
  - intros H. inversion H. constructor.
  - destruct model; try (cbn; discriminate).
    cbn [py_getitem]. unfold dict_getitem.
    destruct (dict_get d "name") as [name|] eqn:E; [|cbn; discriminate].
    cbn [bind]. destruct (names_of models) as [rest|e]; [|cbn; discriminate].
    cbn [bind]. intros H. inversion H; subst names.
    constructor; [exists d; split; [reflexivity | exact E] | apply IH; reflexivity].
Qed.

(** X14: [get_available_models] never raises, and it lists all models
    or none.  The result is empty unless the status is 200 and the
    document holds under "models" a list of objects that all have a
    "name"; then it holds the name of every model, in order. *)
Theorem get_available_models_all_or_nothing :
  forall get : http_outcome,
    exists names,
      get_available_models get = Ok names
      /\ (names = []
          \/ exists document models,
               get = Response 200 (Ok (PDict document))
               /\ dict_get document "models" = Some (PList models)
               /\ Forall2 (fun model name =>
                             exists fields, model = PDict fields
                                            /\ dict_get fields "name" = Some name)
                    models names).
Proof.
  intros get. unfold get_available_models.
  destruct get as [e | status_code json]; [exists []; split; [reflexivity | left; reflexivity]|].
  destruct (status_code =? 200) eqn:S; [|exists []; split; [reflexivity | left; reflexivity]].
  apply Z.eqb_eq in S; subst status_code.
  destruct json as [document|e]; [|exists []; split; [reflexivity | left; reflexivity]].
  destruct document; try (exists []; split; [reflexivity | left; reflexivity]).
  cbn [bind py_get].
  destruct (dict_get d "models") as [models|] eqn:M;
    [|exists []; split; [reflexivity | left; reflexivity]].
  assert (Fail : forall l, (forall x, In x l -> is_dict x = false) ->
                           exists names,
                             try_except (names_of l) any_Exception (fun _ => Ok []) = Ok names
                             /\ names = []).
  { intros [|x l] H; [exists []; split; reflexivity|].
    cbn [names_of]. specialize (H x (or_introl eq_refl)).
    destruct x; try discriminate; exists []; split; reflexivity. }
  destruct models as [| | | | s | l | fields];
    try (exists []; split; [reflexivity | left; reflexivity]).
  - cbn [py_iter bind].
    destruct (Fail (map (fun cp => PStr (Json.utf8 cp)) (Json.code_points s)))
      as (names & H & E).
    + intros x Hx. apply in_map_iff in Hx as [cp [<- _]]. reflexivity.
    + exists names. split; [exact H | left; exact E].
  - cbn [py_iter bind].
    destruct (names_of l) as [names|e] eqn:N.
    + exists names. split; [reflexivity|]. right. exists d, l.
      split; [reflexivity|]. split; [exact M|]. apply names_of_spec. exact N.
    + exists []. split; [reflexivity | left; reflexivity].
  - cbn [py_iter bind].
    destruct (Fail (map (fun '(k, _) => PStr k) fields)) as (names & H & E).
    + intros x Hx. apply in_map_iff in Hx as [[k v] [<- _]]. reflexivity.
    + exists names. split; [exact H | left; exact E].
Qed.

Section Retry.

Context {T : Type}.
Variable pydantic_model : dict pyval -> result T.
Variable create_default : result T.
Variable default_factory : option (result T).
Variable max_retries : Z.
Variable call : Z -> result pyval.

(** An attempt succeeds when the backend gives a non-empty object that
    the record class accepts. *)
Definition success (attempt : Z) : option T :=
  match call attempt with
  | Ok (PDict (field :: fields)) =>
      match pydantic_model (field :: fields) with
      | Ok instance => Some instance
      | Raise _ => None
      end
  | _ => None
  end.

(** The first success among the [n] attempts from [attempt] on. *)
Fixpoint first_success (n : nat) (attempt : Z) : option T :=
  match n with
  | O => None
  | S n' =>
      match success attempt with
      | Some instance => Some instance
      | None => first_success n' (attempt + 1)
      end
  end.

(** What the function gives when the attempts are used up. *)
Definition exhausted : result T :=
  match default_factory with
  | Some made => made
  | None => create_default
  end.

Lemma attempt_turn_success attempt instance :
  success attempt = Some instance ->
  attempt_turn pydantic_model create_default default_factory max_retries call attempt
  = Return (Ok instance).
Proof.
  unfold success, attempt_turn.
  destruct (call attempt) as [[| | | | |l|[|field fields]]|e]; try discriminate.
  cbn [bind truthy is_dict andb py_kwargs].
  destruct (pydantic_model (field :: fields)) as [x|e]; [|discriminate].
  intros H; inversion H. reflexivity.
Qed.

Lemma attempt_turn_failure attempt :
  success attempt = None ->
  (attempt =? max_retries - 1) = false ->
  attempt_turn pydantic_model create_default default_factory max_retries call attempt
  = Next.
Proof.
  unfold success, attempt_turn. intros S L. rewrite L.
  destruct (call attempt) as [v|e]; cbn [bind]; [|reflexivity].
  destruct v as [| | | | | |[|field fields]]; cbn [truthy is_dict];
    rewrite ?andb_false_r; cbn [andb]; try reflexivity.
  cbn [py_kwargs bind].
  destruct (pydantic_model (field :: fields)); [discriminate | reflexivity].
Qed.

Lemma attempt_turn_last attempt :
  success attempt = None ->
  (attempt =? max_retries - 1) = true ->
  match attempt_turn pydantic_model create_default default_factory max_retries call attempt with
  | Return r => r
  | Next => create_default
  end = exhausted.
Proof.
  unfold success, attempt_turn, exhausted, has_factory. intros S L. rewrite L.
  assert (F : match
                match
                  (if true && match default_factory with Some _ => true | None => false end
                   then match default_factory with
                        | Some made => instance <- made ;; Ok (Some instance)
                        | None => Ok None
                        end
                   else Ok None)
                with
                | Ok (Some instance) => Return (Ok instance)
                | Ok None => Next
                | Raise _ =>
                    Return match default_factory with
                           | Some made => made
                           | None => create_default
                           end
                end
              with
              | Return r => r
              | Next => create_default
              end
              = match default_factory with
                | Some made => made
                | None => create_default
                end).
  { destruct default_factory as [[x|e]|]; reflexivity. }
  destruct (call attempt) as [v|e]; cbn [bind]; [|reflexivity].
  destruct v as [| | | | | |[|field fields]]; cbn [truthy is_dict];
    rewrite ?andb_false_r; cbn [andb]; try exact F.
  cbn [py_kwargs bind].
  destruct (pydantic_model (field :: fields)); [discriminate | reflexivity].
Qed.

Lemma retry_spec n :
  forall attempt,
    attempt + Z.of_nat n = max_retries ->
    retry pydantic_model create_default default_factory max_retries call n attempt
    = match first_success n attempt with
      | Some instance => Ok instance
      | None =>
          match n with
          | O => create_default
          | S _ => exhausted
          end
      end.
Proof.
  induction n as [|n IH]; intros attempt H; cbn [retry first_success].
  - reflexivity.
  - destruct (success attempt) as [instance|] eqn:S.
    + rewrite (attempt_turn_success _ _ S). reflexivity.
    + destruct (attempt =? max_retries - 1) eqn:L.
      * apply Z.eqb_eq in L. assert (n = O) by lia. subst n.
        cbn [first_success retry].
        apply attempt_turn_last; [exact S | apply Z.eqb_eq; exact L].
      * rewrite (attempt_turn_failure _ S L).
        apply Z.eqb_neq in L. rewrite IH by lia.
        destruct (first_success n (attempt + 1)); [reflexivity|].
        destruct n; [lia | reflexivity].
Qed.

(** X15: the retry loop of [call_llm_with_model] with Ollama.  It
    returns the record of the first attempt at which the backend gives
    a non-empty object that the record class accepts; an empty object,
    a value that is no object, a rejected object and a raised exception
    all count as a failed attempt.  When all [max_retries] attempts
    fail it gives what the default factory gives, or without a factory
    what [create_default_response] gives.  With no attempt allowed
    ([max_retries] of 0 or less) it gives what
    [create_default_response] gives, factory or not. *)
Theorem retry_returns_first_accepted_object :
  call_llm_with_model pydantic_model create_default default_factory max_retries call
  = match first_success (Z.to_nat max_retries) 0 with
    | Some instance => Ok instance
    | None => if 0 <? max_retries then exhausted else create_default
    end.
Proof.
  unfold call_llm_with_model.
  destruct (0 <? max_retries) eqn:P.
  - apply Z.ltb_lt in P. rewrite retry_spec by lia.
    destruct (first_success _ _); [reflexivity|].
    destruct (Z.to_nat max_retries) eqn:E; [lia | reflexivity].
  - apply Z.ltb_ge in P. replace (Z.to_nat max_retries) with O by lia. reflexivity.
Qed.

End Retry.

Lemma construct_raises_validation fields values :
  forall e, Llm.construct fields values = Raise e -> e = ValidationError.
Proof.
  induction fields as [|[name a] fields IH]; intros e; cbn [Llm.construct].
  - discriminate.
  - destruct (dict_get values name) as [[v|c]|]; try (intros H; congruence).
    destruct (Llm.accepts a (Llm.DValue v)); [|intros H; congruence].
    destruct (Llm.construct fields values) as [inst|x] eqn:C; [discriminate|].
    intros H. inversion H; subst x. apply IH. reflexivity.
Qed.

Lemma construct_rejects_class fields values :
  forall name a c,
    In (name, a) fields ->
    dict_get values name = Some (Llm.DClass c) ->
    Llm.construct fields values = Raise ValidationError.
Proof.
  induction fields as [|[n0 a0] fields IH]; intros name a c HIn Hget; cbn [Llm.construct].
  - contradiction.
  - destruct HIn as [Heq | HIn].
    + inversion Heq; subst. rewrite Hget. reflexivity.
    + destruct (dict_get values n0) as [[v|c0]|]; try reflexivity.
      destruct (Llm.accepts a0 (Llm.DValue v)); [|reflexivity].
      rewrite (IH name a c HIn Hget). reflexivity.
Qed.

(** X16: [create_default_response] raises nothing but
    [ValidationError], and it raises it for every record class that
    declares a list field or an optional field: the default it builds
    for such a field is the class object of the element type, which
    validation rejects.  All signal classes of the agents declare list
    fields, so none of them has a default response. *)
Theorem default_response_fails_on_list_fields :
  forall (cls : Llm.model_class) (name : string) (a : Llm.annotation),
    NoDup (map fst cls) ->
    In (name, Llm.TList a) cls \/ In (name, Llm.TOptional a) cls ->
    Llm.create_default_response cls = Raise ValidationError
    /\ forall other e, Llm.create_default_response other = Raise e -> e = ValidationError.
Proof.
  intros cls name a ND HIn. split.
  - unfold Llm.create_default_response.
    destruct HIn as [HIn|HIn].
    + apply construct_rejects_class with (name := name) (a := Llm.TList a) (c := a);
        [exact HIn|].
      rewrite (DefaultFacts.default_values_in cls [] name (Llm.TList a) ND HIn). reflexivity.
    + apply construct_rejects_class with (name := name) (a := Llm.TOptional a) (c := a);
        [exact HIn|].
      rewrite (DefaultFacts.default_values_in cls [] name (Llm.TOptional a) ND HIn).
      reflexivity.
  - intros other e. unfold Llm.create_default_response. apply construct_raises_validation.
Qed.

Lemma default_response_witness :
  NoDup (map fst SamAltman.model_fields)
  /\ In ("key_insights", Llm.TList Llm.TStr) SamAltman.model_fields
  /\ Llm.create_default_response SamAltman.model_fields = Raise ValidationError.
Proof.
  assert (ND : NoDup (map fst SamAltman.model_fields))
    by (repeat constructor; cbn; intuition discriminate).
  assert (HIn : In ("key_insights", Llm.TList Llm.TStr) SamAltman.model_fields)
    by (cbn; tauto).
  split; [exact ND|]. split; [exact HIn|].
  exact (proj1 (default_response_fails_on_list_fields SamAltman.model_fields
                  "key_insights" Llm.TStr ND (or_introl HIn))).
Defined.

End LlmCallsFacts.

(* --------------------------------------------------------------------- *)
(** ** graph/state.py and the agent functions                             *)
(* --------------------------------------------------------------------- *)

Module State.
Import Py.

(** [AgentState]: the dictionary it was constructed with and the list
    of reasonings. *)
Record AgentState : Type := {
  data : dict pyval;
  reasoning : list (string * string)
}.

(** [AgentState(data)]. *)
Definition init (data : dict pyval) : AgentState := {| data := data; reasoning := [] |}.

(** [state[key]], which is [self.data.get(key)]. *)
Definition getitem (state : AgentState) (key : string) : pyval :=
  match dict_get (data state) key with
  | Some v => v
  | None => PNone
  end.

(** [state[key] = value]. *)
Definition setitem (state : AgentState) (key : string) (value : pyval) : AgentState :=
  {| data := dict_set (data state) key value; reasoning := reasoning state |}.

(** [state.data.get(key, default)]. *)
Definition data_get (state : AgentState) (key : string) (default : pyval) : pyval :=
  match dict_get (data state) key with
  | Some v => v
  | None => default
  end.

(** [add_reasoning(agent, reasoning)] and [get_reasoning()]. *)
Definition add_reasoning (state : AgentState) (agent text : string) : AgentState :=
  {| data := data state; reasoning := reasoning state ++ [(agent, text)] |}.

Definition get_reasoning (state : AgentState) : list (string * string) := reasoning state.

(** The state [evaluate_product] constructs: the four values lie in a
    dictionary under the one key "data". *)
Definition of_evaluation (s : Orchestrator.AgentState) : AgentState :=
  init [("data",
         PDict [("product_idea", PStr (Orchestrator.state_product_idea s));
                ("market_context", PDict (Orchestrator.state_market_context s));
                ("technical_context", PDict (Orchestrator.state_technical_context s));
                ("user_background", PDict (Orchestrator.state_user_background s))])].

End State.

Module SamAltmanAgent.
Import Py SamAltman.

(** The prompts of the agent, by the values formatted into them. *)
Inductive prompt : Type :=
| MarketOpportunity (product_idea market_context : pyval)
| TechnicalFeasibility (product_idea technical_context : pyval)
| ScalingPotential (product_idea : pyval)
| CompetitiveLandscape (product_idea market_context : pyval)
| AltmanOutput (product_idea : pyval) (analysis_data : dict pyval).

(** [sam_altman_agent(state)].  The four analysis functions return what
    [call_llm] returns on their prompt. *)
Definition sam_altman_agent (init : dict pyval -> result SamAltmanSignal)
  (call_llm : prompt -> result pyval) (state : State.AgentState)
  : result SamAltmanSignal :=
  let data := State.getitem state "data" in
  product_idea <- py_getitem data "product_idea" ;;
  market_context <- LlmCalls.py_get data "market_context" (PDict []) ;;
  technical_context <- LlmCalls.py_get data "technical_context" (PDict []) ;;
  market_analysis <- call_llm (MarketOpportunity product_idea market_context) ;;
  technical_analysis <- call_llm (TechnicalFeasibility product_idea technical_context) ;;
  scaling_potential <- call_llm (ScalingPotential product_idea) ;;
  competitive_analysis <- call_llm (CompetitiveLandscape product_idea market_context) ;;
  let analysis_data := [("market_analysis", market_analysis);
                        ("technical_analysis", technical_analysis);
                        ("scaling_potential", scaling_potential);
                        ("competitive_analysis", competitive_analysis)] in
  generate_altman_output init (call_llm (AltmanOutput product_idea analysis_data)).

End SamAltmanAgent.

Module ElonMuskOutput.
Import Py ElonMusk.

(** The record [generate_musk_output] builds when no JSON is found in
    the response or the JSON does not parse. *)
Definition default_parsed : pyval :=
  PDict [("first_principles_score", PFloat 0.5%float);
         ("innovation_potential", PFloat 0.5%float);
         ("execution_feasibility", PFloat 0.5%float);
         ("reasoning", PStr "Unable to generate detailed reasoning.");
         ("key_innovations", PList [PStr "Default innovation"]);
         ("technical_challenges", PList [PStr "Default challenge"])].

Definition parse_response (response : pyval) : result pyval :=
  match response with
  | PStr s =>
      try_except
        (let json_start := find s "{" in
         let json_end := rfind s "}" + 1 in
         if (0 <=? json_start) && (json_start <? json_end)
         then Json.loads (slice s (Some json_start) (Some json_end))
         else Ok default_parsed)
        SamAltman.is_JSONDecodeError
        (fun _ => Ok default_parsed)
  | _ => Ok response
  end.

(** The block that ensures all required fields are present. *)
Definition ensure_required_fields (parsed_response : pyval) : result pyval :=
  p <- SamAltman.ensure_field "first_principles_score" (PFloat 0.5%float) parsed_response ;;
  p <- SamAltman.ensure_field "innovation_potential" (PFloat 0.5%float) p ;;
  p <- SamAltman.ensure_field "execution_feasibility" (PFloat 0.5%float) p ;;
  p <- SamAltman.ensure_field "reasoning" (PStr "Unable to generate detailed reasoning.") p ;;
  p <- SamAltman.ensure_field "key_innovations" (PList [PStr "Default innovation"]) p ;;
  SamAltman.ensure_field "technical_challenges" (PList [PStr "Default challenge"]) p.

(** The keyword arguments of the constructor call in the [except]
    branch. *)
Definition error_kwargs : dict pyval :=
  [("first_principles_score", PFloat 0.5%float);
   ("innovation_potential", PFloat 0.5%float);
   ("execution_feasibility", PFloat 0.5%float);
   ("reasoning", PStr "Error occurred during evaluation.");
   ("key_innovations", PList [PStr "Default innovation"]);
   ("technical_challenges", PList [PStr "Default challenge"])].

(** [generate_musk_output], from the outcome of its model call on.
    [init] is the validating constructor of [ElonMuskSignal] applied to
    keyword arguments. *)
Definition generate_musk_output
  (init : dict pyval -> result ElonMuskSignal) (llm_outcome : result pyval)
  : result ElonMuskSignal :=
  try_except
    (response <- llm_outcome ;;
     parsed_response <- parse_response response ;;
     parsed_response <- ensure_required_fields parsed_response ;;
     kwargs <- py_kwargs parsed_response ;;
     init kwargs)
    any_Exception
    (fun _ => init error_kwargs).

(** A constructor as pydantic makes it for [ElonMuskSignal], on
    arguments of the declared types: every declared field is required,
    other arguments are ignored. *)
Definition as_float (v : option pyval) : option float :=
  match v with
  | Some (PFloat f) => Some f
  | _ => None
  end.

Definition as_str (v : option pyval) : option string :=
  match v with
  | Some (PStr s) => Some s
  | _ => None
  end.

Fixpoint strs (l : list pyval) : option (list string) :=
  match l with
  | [] => Some []
  | PStr s :: rest => option_map (cons s) (strs rest)
  | _ :: _ => None
  end.

Definition as_strs (v : option pyval) : option (list string) :=
  match v with
  | Some (PList l) => strs l
  | _ => None
  end.

Definition typed_init (kwargs : dict pyval) : result ElonMuskSignal :=
  match as_float (dict_get kwargs "opportunity_score"),
        as_float (dict_get kwargs "market_potential"),
        as_float (dict_get kwargs "technical_feasibility"),
        as_str (dict_get kwargs "reasoning"),
        as_strs (dict_get kwargs "key_insights"),
        as_strs (dict_get kwargs "potential_risks") with
  | Some o, Some m, Some t, Some r, Some k, Some p =>
      Ok {| opportunity_score := o; market_potential := m; technical_feasibility := t;
            reasoning := r; key_insights := k; potential_risks := p |}
  | _, _, _, _, _, _ => Raise ValidationError
  end.

End ElonMuskOutput.

Module AgentFacts.
Import Py.

Lemma altman_output_returns init llm_outcome :
  exists signal, SamAltman.generate_altman_output init llm_outcome = Ok signal.
Proof.
  unfold SamAltman.generate_altman_output, try_except.
  match goal with
  | |- exists s, match ?b with _ => _ end = _ => destruct b as [signal|e]
  end; cbn; eauto.
Qed.

(** X17: [sam_altman_agent] on the state [evaluate_product] constructs.
    The four analysis calls get the product idea and the contexts of
    the evaluation.  The agent raises exactly when one of them raises,
    with the exception of the first that does; when all four return it
    returns a signal, whatever the final call of the model does, even
    when that call raises. *)
Theorem altman_agent_raises_only_from_analysis :
  forall (init : dict pyval -> result SamAltman.SamAltmanSignal)
         (call_llm : SamAltmanAgent.prompt -> result pyval)
         (s : Orchestrator.AgentState),
    let idea := PStr (Orchestrator.state_product_idea s) in
    let market := PDict (Orchestrator.state_market_context s) in
    let technical := PDict (Orchestrator.state_technical_context s) in
    let agent := SamAltmanAgent.sam_altman_agent init call_llm (State.of_evaluation s) in
    match call_llm (SamAltmanAgent.MarketOpportunity idea market),
          call_llm (SamAltmanAgent.TechnicalFeasibility idea technical),
          call_llm (SamAltmanAgent.ScalingPotential idea),
          call_llm (SamAltmanAgent.CompetitiveLandscape idea market) with
    | Ok m, Ok t, Ok g, Ok c =>
        agent = SamAltman.generate_altman_output init
                  (call_llm (SamAltmanAgent.AltmanOutput idea
                               [("market_analysis", m); ("technical_analysis", t);
                                ("scaling_potential", g); ("competitive_analysis", c)]))
        /\ exists signal, agent = Ok signal
    | Raise e, _, _, _ => agent = Raise e
    | Ok _, Raise e, _, _ => agent = Raise e
    | Ok _, Ok _, Raise e, _ => agent = Raise e
    | Ok _, Ok _, Ok _, Raise e => agent = Raise e
    end.
Proof.
  intros init call_llm s. cbv zeta.
  unfold SamAltmanAgent.sam_altman_agent, State.of_evaluation, State.getitem, State.init.
  cbn [State.data dict_get String.eqb Ascii.eqb Bool.eqb py_getitem dict_getitem bind
       LlmCalls.py_get].
  change (dict_get
            [("product_idea", PStr (Orchestrator.state_product_idea s));
             ("market_context", PDict (Orchestrator.state_market_context s));
             ("technical_context", PDict (Orchestrator.state_technical_context s));
             ("user_background", PDict (Orchestrator.state_user_background s))]
            "product_idea")
    with (Some (PStr (Orchestrator.state_product_idea s))).
  change (dict_get
            [("product_idea", PStr (Orchestrator.state_product_idea s));
             ("market_context", PDict (Orchestrator.state_market_context s));
             ("technical_context", PDict (Orchestrator.state_technical_context s));
             ("user_background", PDict (Orchestrator.state_user_background s))]
            "market_context")
    with (Some (PDict (Orchestrator.state_market_context s))).
  change (dict_get
            [("product_idea", PStr (Orchestrator.state_product_idea s));
             ("market_context", PDict (Orchestrator.state_market_context s));
             ("technical_context", PDict (Orchestrator.state_technical_context s));
             ("user_background", PDict (Orchestrator.state_user_background s))]
            "technical_context")
    with (Some (PDict (Orchestrator.state_technical_context s))).
  cbn [bind].
  destruct (call_llm (SamAltmanAgent.MarketOpportunity _ _)) as [m|e]; cbn [bind];
    [|reflexivity].
  destruct (call_llm (SamAltmanAgent.TechnicalFeasibility _ _)) as [t|e]; cbn [bind];
    [|reflexivity].
  destruct (call_llm (SamAltmanAgent.ScalingPotential _)) as [g|e]; cbn [bind];
    [|reflexivity].
  destruct (call_llm (SamAltmanAgent.CompetitiveLandscape _ _)) as [c|e]; cbn [bind];
    [|reflexivity].
  split; [reflexivity | apply altman_output_returns].
Qed.

(** What [parse_response] of Elon Musk's output step gives for a text:
    the parsed span between the outermost braces, and the default
    record when there is no span or the span is no JSON. *)
Lemma musk_parse_response_text (s : string) :
  ElonMuskOutput.parse_response (PStr s)
  = match ExtractFacts.outer_span "{" "}" s with
    | Some span =>
        match Json.loads span with
        | Ok v => Ok v
        | Raise e =>
            if SamAltman.is_JSONDecodeError e then Ok ElonMuskOutput.default_parsed
            else Raise e
        end
    | None => Ok ElonMuskOutput.default_parsed
    end.
Proof.
  unfold ElonMuskOutput.parse_response, try_except.
  pose proof (ExtractFacts.slice_is_outer_span "{" "}" s) as H. cbv zeta in H.
  destruct ((0 <=? find s "{") && (find s "{" <? rfind s "}" + 1)); rewrite H; reflexivity.
Qed.

Lemma musk_defaults_lack_the_fields :
  exists kwargs,
    (parsed <- ElonMuskOutput.ensure_required_fields ElonMuskOutput.default_parsed ;;
     py_kwargs parsed) = Ok kwargs
    /\ dict_mem kwargs "opportunity_score" = false.
Proof. eexists. split; reflexivity. Qed.

(** X18: [generate_musk_output] has no working fallback.  Its default
    record, the fields it fills in and the record of its [except]
    branch all use the names of the output format
    ([first_principles_score], ...), none of which is a field of
    [ElonMuskSignal].  With a constructor that rejects arguments
    lacking the required field [opportunity_score], the function
    either raises [ValidationError] or returns a signal built from
    arguments that hold [opportunity_score]; it raises whenever the
    model call raises and whenever the answer is a text without a JSON
    object in it. *)
Theorem musk_output_has_no_fallback :
  forall init : dict pyval -> result ElonMusk.ElonMuskSignal,
    (forall kwargs, dict_mem kwargs "opportunity_score" = false ->
                    init kwargs = Raise ValidationError) ->
    (forall llm_outcome,
       ElonMuskOutput.generate_musk_output init llm_outcome = Raise ValidationError
       \/ exists kwargs signal,
            ElonMuskOutput.generate_musk_output init llm_outcome = Ok signal
            /\ init kwargs = Ok signal
            /\ dict_mem kwargs "opportunity_score" = true)
    /\ (forall e, ElonMuskOutput.generate_musk_output init (Raise e) = Raise ValidationError)
    /\ (forall s,
          ExtractFacts.outer_span "{" "}" s = None ->
          ElonMuskOutput.generate_musk_output init (Ok (PStr s)) = Raise ValidationError).
Proof.
  intros init Hreq.
  assert (Herr : init ElonMuskOutput.error_kwargs = Raise ValidationError)
    by (apply Hreq; reflexivity).
  split; [|split].
  - intros llm_outcome. unfold ElonMuskOutput.generate_musk_output, try_except.
    destruct llm_outcome as [response|e]; cbn [bind any_Exception]; [|left; exact Herr].
    destruct (ElonMuskOutput.parse_response response) as [parsed|e];
      cbn [bind any_Exception]; [|left; exact Herr].
    destruct (ElonMuskOutput.ensure_required_fields parsed) as [filled|e];
      cbn [bind any_Exception]; [|left; exact Herr].
    destruct (py_kwargs filled) as [kwargs|e]; cbn [bind any_Exception]; [|left; exact Herr].
    destruct (init kwargs) as [signal|e] eqn:I; [|left; exact Herr].
    right. exists kwargs, signal. split; [reflexivity|]. split; [exact I|].
    destruct (dict_mem kwargs "opportunity_score") eqn:M; [reflexivity|].
    rewrite (Hreq kwargs M) in I. discriminate.
  - intros e. unfold ElonMuskOutput.generate_musk_output. cbn. exact Herr.
  - intros s Hs. unfold ElonMuskOutput.generate_musk_output.
    cbn [bind]. rewrite musk_parse_response_text, Hs. cbn [bind].
    destruct musk_defaults_lack_the_fields as (kwargs & K & M).
    destruct (ElonMuskOutput.ensure_required_fields ElonMuskOutput.default_parsed)
      as [filled|e]; [|discriminate].
    cbn [bind] in K |- *. rewrite K. cbn [bind].
    rewrite (Hreq kwargs M). cbn. exact Herr.
Qed.

Lemma musk_output_witness :
  (forall kwargs, dict_mem kwargs "opportunity_score" = false ->
                  ElonMuskOutput.typed_init kwargs = Raise ValidationError)
  /\ ElonMuskOutput.generate_musk_output ElonMuskOutput.typed_init
       (Ok (PStr "I would build it from first principles."))
     = Raise ValidationError.
Proof.
  assert (H : forall kwargs, dict_mem kwargs "opportunity_score" = false ->
                             ElonMuskOutput.typed_init kwargs = Raise ValidationError).
  { intros kwargs M. unfold ElonMuskOutput.typed_init, dict_mem in *.
    destruct (dict_get kwargs "opportunity_score"); [discriminate | reflexivity]. }
  split; [exact H|].
  exact (proj2 (proj2 (musk_output_has_no_fallback ElonMuskOutput.typed_init H))
           "I would build it from first principles." eq_refl).
Defined.

End AgentFacts.

(* --------------------------------------------------------------------- *)
(** ** agents/project_advisor.py: the agent and its collection step       *)
(* --------------------------------------------------------------------- *)

Module ProjectAdvisorAgent.
Import Py Orchestrator.

(** What a slot of [agent_insights] can hold: a value as JSON has them,
    or the record of an agent ([None] included). *)
Inductive obj : Type :=
| OValue (v : pyval)
| OSignal (i : insight).

(** [if not insights]: a record is true. *)
Definition obj_truthy (o : obj) : bool :=
  match o with
  | OValue v => truthy v
  | OSignal i => present i
  end.

(** The [float] attributes of a slot, by name. *)
Definition float_attrs (o : obj) : dict float :=
  match o with
  | OSignal (ISamAltman s) =>
      [("opportunity_score", SamAltman.opportunity_score s);
       ("market_potential", SamAltman.market_potential s);
       ("technical_feasibility", SamAltman.technical_feasibility s)]
  | OSignal (IDemisHassabis s) =>
      [("scientific_breakthrough_potential", DemisHassabis.scientific_breakthrough_potential s);
       ("technical_advancement", DemisHassabis.technical_advancement s);
       ("research_feasibility", DemisHassabis.research_feasibility s)]
  | OSignal (IElonMusk s) =>
      [("opportunity_score", ElonMusk.opportunity_score s);
       ("market_potential", ElonMusk.market_potential s);
       ("technical_feasibility", ElonMusk.technical_feasibility s)]
  | OSignal (IAdamDAngelo s) =>
      [("platform_potential", AdamDAngelo.platform_potential s);
       ("ai_infrastructure", AdamDAngelo.ai_infrastructure s);
       ("social_impact", AdamDAngelo.social_impact s)]
  | OSignal (IDanielGross s) =>
      [("startup_potential", DanielGross.startup_potential s);
       ("ai_infrastructure", DanielGross.ai_infrastructure s);
       ("market_fit", DanielGross.market_fit s)]
  | OSignal (ISebastianThrun s) =>
      [("autonomous_systems_score", SebastianThrun.autonomous_systems_score s);
       ("educational_impact", SebastianThrun.educational_impact s);
       ("innovation_potential", SebastianThrun.innovation_potential s)]
  | OSignal (IEmadMostaque s) =>
      [("infrastructure_score", EmadMostaque.infrastructure_score s);
       ("open_source_potential", EmadMostaque.open_source_potential s);
       ("community_impact", EmadMostaque.community_impact s)]
  | OSignal (IClementDelangue s) =>
      [("ai_innovation_score", ClementDelangue.ai_innovation_score s);
       ("practical_application", ClementDelangue.practical_application s);
       ("technical_feasibility", ClementDelangue.technical_feasibility s)]
  | OSignal (IProjectRecommendation r) =>
      [("confidence_score", ProjectAdvisor.confidence_score r)]
  | OSignal INone | OValue _ => []
  end.

(** The attributes of a slot that hold lists of texts, by name. *)
Definition list_attrs (o : obj) : dict (list string) :=
  match o with
  | OSignal (ISamAltman s) =>
      [("key_insights", SamAltman.key_insights s);
       ("potential_risks", SamAltman.potential_risks s)]
  | OSignal (IDemisHassabis s) =>
      [("key_breakthroughs", DemisHassabis.key_breakthroughs s);
       ("research_challenges", DemisHassabis.research_challenges s)]
  | OSignal (IElonMusk s) =>
      [("key_insights", ElonMusk.key_insights s);
       ("potential_risks", ElonMusk.potential_risks s)]
  | OSignal (IAdamDAngelo s) =>
      [("key_features", AdamDAngelo.key_features s);
       ("platform_challenges", AdamDAngelo.platform_challenges s)]
  | OSignal (IDanielGross s) =>
      [("key_advantages", DanielGross.key_advantages s);
       ("startup_challenges", DanielGross.startup_challenges s)]
  | OSignal (ISebastianThrun s) =>
      [("key_innovations", SebastianThrun.key_innovations s);
       ("technical_challenges", SebastianThrun.technical_challenges s)]
  | OSignal (IEmadMostaque s) =>
      [("key_infrastructure", EmadMostaque.key_infrastructure s);
       ("community_challenges", EmadMostaque.community_challenges s)]
  | OSignal (IClementDelangue s) =>
      [("key_ai_features", ClementDelangue.key_ai_features s);
       ("implementation_challenges", ClementDelangue.implementation_challenges s)]
  | OSignal (IProjectRecommendation r) =>
      [("key_factors", ProjectAdvisor.key_factors r);
       ("resource_requirements", ProjectAdvisor.resource_requirements r);
       ("next_steps", ProjectAdvisor.next_steps r);
       ("alternative_suggestions", ProjectAdvisor.alternative_suggestions r)]
  | OSignal INone | OValue _ => []
  end.

(** [insights_data]; the set of expertise areas is kept as a list
    without repetition, whose order stands for nothing. *)
Record insights_data : Type := {
  scores : dict float;
  insights : list string;
  risks : list string;
  expertise_areas : list string
}.

Definition empty_data : insights_data :=
  {| scores := []; insights := []; risks := []; expertise_areas := [] |}.

(** [if hasattr(insights, attr): insights_data["scores"][key] = ...]. *)
Definition set_score (o : obj) (attr key : string) (acc : insights_data) : insights_data :=
  match dict_get (float_attrs o) attr with
  | Some x =>
      {| scores := dict_set (scores acc) key x; insights := insights acc;
         risks := risks acc; expertise_areas := expertise_areas acc |}
  | None => acc
  end.

Definition extend_insights (o : obj) (attr : string) (acc : insights_data) : insights_data :=
  match dict_get (list_attrs o) attr with
  | Some l =>
      {| scores := scores acc; insights := insights acc ++ l;
         risks := risks acc; expertise_areas := expertise_areas acc |}
  | None => acc
  end.

Definition extend_risks (o : obj) (attr : string) (acc : insights_data) : insights_data :=
  match dict_get (list_attrs o) attr with
  | Some l =>
      {| scores := scores acc; insights := insights acc;
         risks := risks acc ++ l; expertise_areas := expertise_areas acc |}
  | None => acc
  end.

Definition set_add (s : list string) (x : string) : list string :=
  if existsb (String.eqb x) s then s else s ++ [x].

Definition add_expertise (o : obj) (attr area : string) (acc : insights_data)
  : insights_data :=
  if dict_mem (float_attrs o) attr then
    {| scores := scores acc; insights := insights acc;
       risks := risks acc; expertise_areas := set_add (expertise_areas acc) area |}
  else acc.

(** One turn of the loop over [agent_insights.items()]. *)
Definition collect_slot (acc : insights_data) (slot : string * obj) : insights_data :=
  let (_, o) := slot in
  if negb (obj_truthy o) then acc else
  let acc := set_score o "opportunity_score" "opportunity" acc in
  let acc := set_score o "market_potential" "market" acc in
  let acc := set_score o "technical_feasibility" "technical" acc in
  let acc := extend_insights o "key_insights" acc in
  let acc := extend_insights o "key_breakthroughs" acc in
  let acc := extend_insights o "key_features" acc in
  let acc := extend_risks o "potential_risks" acc in
  let acc := extend_risks o "research_challenges" acc in
  let acc := add_expertise o "technical_advancement" "technical" acc in
  let acc := add_expertise o "ai_infrastructure" "ai" acc in
  add_expertise o "platform_potential" "platform" acc.

(** [_collect_insights_data(agent_insights)]. *)
Definition _collect_insights_data (agent_insights : dict obj) : insights_data :=
  fold_left collect_slot agent_insights empty_data.

(** What [_generate_recommendation] formats into its prompt. *)
Record advisor_prompt : Type := {
  prompt_product_idea : pyval;
  prompt_user_background : pyval;
  prompt_data : insights_data
}.

(** [agent_insights.items()] on a value of the state. *)
Definition py_items (v : pyval) : result (dict pyval) :=
  match v with
  | PDict d => Ok d
  | _ => Raise AttributeError
  end.

(** [project_advisor_agent(state)]. *)
Definition project_advisor_agent
  (init : dict pyval -> result ProjectAdvisor.ProjectRecommendation)
  (call_llm : advisor_prompt -> result pyval) (state : State.AgentState)
  : result ProjectAdvisor.ProjectRecommendation :=
  let product_idea := State.data_get state "product_idea" (PStr "") in
  let user_background := State.data_get state "user_background" (PDict []) in
  let agent_insights := State.data_get state "agent_insights" (PDict []) in
  items <- py_items agent_insights ;;
  let insights_data := _collect_insights_data (map (fun '(k, v) => (k, OValue v)) items) in
  ProjectAdvisor._generate_recommendation init
    (call_llm {| prompt_product_idea := product_idea;
                 prompt_user_background := user_background;
                 prompt_data := insights_data |}).

End ProjectAdvisorAgent.

Module ProjectAdvisorAgentFacts.
Import Py Orchestrator ProjectAdvisorAgent.

(** The slots that add to the lists of insights and risks: the records
    of Sam Altman, Demis Hassabis, Elon Musk and Adam D'Angelo. *)
Definition contributes (o : obj) : bool :=
  match o with
  | OSignal (ISamAltman _) | OSignal (IDemisHassabis _)
  | OSignal (IElonMusk _) | OSignal (IAdamDAngelo _) => true
  | _ => false
  end.

(** [scores[key] = x] when the slot has the attribute. *)
Definition score_step (o : obj) (attr key : string) (sc : dict float) : dict float :=
  match dict_get (float_attrs o) attr with
  | Some x => dict_set sc key x
  | None => sc
  end.

Lemma scores_set_score o attr key acc :
  scores (set_score o attr key acc) = score_step o attr key (scores acc).
Proof. unfold set_score, score_step. destruct (dict_get _ attr); reflexivity. Qed.

Lemma scores_extend_insights o attr acc : scores (extend_insights o attr acc) = scores acc.
Proof. unfold extend_insights. destruct (dict_get _ attr); reflexivity. Qed.

Lemma scores_extend_risks o attr acc : scores (extend_risks o attr acc) = scores acc.
Proof. unfold extend_risks. destruct (dict_get _ attr); reflexivity. Qed.

Lemma scores_add_expertise o attr area acc :
  scores (add_expertise o attr area acc) = scores acc.
Proof. unfold add_expertise. destruct (dict_mem _ attr); reflexivity. Qed.

Lemma scores_collect_slot acc n o :
  scores (collect_slot acc (n, o))
  = if obj_truthy o
    then score_step o "technical_feasibility" "technical"
           (score_step o "market_potential" "market"
              (score_step o "opportunity_score" "opportunity" (scores acc)))
    else scores acc.
Proof.
  unfold collect_slot. destruct (obj_truthy o); cbn [negb]; [|reflexivity].
  rewrite !scores_add_expertise, !scores_extend_risks, !scores_extend_insights,
    !scores_set_score.
  reflexivity.
Qed.

(** The texts one slot adds. *)
Definition slot_insights (o : obj) : list string :=
  insights (collect_slot empty_data (""%string, o)).

Definition slot_risks (o : obj) : list string :=
  risks (collect_slot empty_data (""%string, o)).

Lemma lists_collect_slot acc n o :
  insights (collect_slot acc (n, o)) = insights acc ++ slot_insights o
  /\ risks (collect_slot acc (n, o)) = risks acc ++ slot_risks o.
Proof.
  unfold slot_insights, slot_risks.
  destruct o as [v | [| s | s | s | s | s | s | s | s | r]]; cbn [collect_slot obj_truthy present].
  - destruct (truthy v); cbn; rewrite ?app_nil_r; split; reflexivity.
  - cbn. rewrite ?app_nil_r. split; reflexivity.
  - cbn. rewrite ?app_nil_r. split; reflexivity.
  - cbn. rewrite ?app_nil_r. split; reflexivity.
  - cbn. rewrite ?app_nil_r. split; reflexivity.
  - cbn. rewrite ?app_nil_r. split; reflexivity.
  - cbn. rewrite ?app_nil_r. split; reflexivity.
  - cbn. rewrite ?app_nil_r. split; reflexivity.
  - cbn. rewrite ?app_nil_r. split; reflexivity.
  - cbn. rewrite ?app_nil_r. split; reflexivity.
  - cbn. rewrite ?app_nil_r. split; reflexivity.
Qed.

Lemma lists_fold d :
  forall acc,
    insights (fold_left collect_slot d acc)
    = insights acc ++ insights (fold_left collect_slot d empty_data)
    /\ risks (fold_left collect_slot d acc)
       = risks acc ++ risks (fold_left collect_slot d empty_data).
Proof.
  induction d as [|[n o] d IH]; intros acc; cbn [fold_left].
  - cbn. rewrite !app_nil_r. split; reflexivity.
  - destruct (IH (collect_slot acc (n, o))) as [I1 R1].
    destruct (IH (collect_slot empty_data (n, o))) as [I2 R2].
    destruct (lists_collect_slot acc n o) as [I3 R3].
    destruct (lists_collect_slot empty_data n o) as [I4 R4].
    rewrite I1, R1, I2, R2, I3, R3, I4, R4. cbn [insights risks empty_data app].
    rewrite !app_assoc. split; reflexivity.
Qed.

(** X19: the lists [_collect_insights_data] gathers are the
    concatenation, in the order of the dictionary, of what each slot
    adds: collecting two dictionaries one after the other gives the
    insights and risks of the first followed by those of the second.
    Only the records of Sam Altman, Demis Hassabis, Elon Musk and Adam
    D'Angelo add anything; a slot holding [None], a plain value or the
    record of another agent adds neither an insight nor a risk. *)
Theorem collected_lists_concatenate :
  (forall d1 d2 : dict obj,
     insights (_collect_insights_data (d1 ++ d2))
     = insights (_collect_insights_data d1) ++ insights (_collect_insights_data d2)
     /\ risks (_collect_insights_data (d1 ++ d2))
        = risks (_collect_insights_data d1) ++ risks (_collect_insights_data d2))
  /\ (forall (n : string) (o : obj),
        contributes o = false ->
        insights (_collect_insights_data [(n, o)]) = []
        /\ risks (_collect_insights_data [(n, o)]) = []).
Proof.
  split.
  - intros d1 d2. unfold _collect_insights_data. rewrite fold_left_app.
    apply lists_fold.
  - intros n o H. unfold _collect_insights_data. cbn [fold_left].
    destruct o as [v | [| s | s | s | s | s | s | s | s | r]]; try discriminate;
      cbn [collect_slot obj_truthy present]; try (split; reflexivity).
    destruct (truthy v); split; reflexivity.
Qed.

Lemma dict_get_score_step o attr key sc k :
  dict_get (score_step o attr key sc) k
  = match dict_get (float_attrs o) attr with
    | Some x => if String.eqb key k then Some x else dict_get sc k
    | None => dict_get sc k
    end.
Proof.
  unfold score_step. destruct (dict_get (float_attrs o) attr); [|reflexivity].
  apply DictFacts.dict_get_set.
Qed.

(** The attributes the loop copies into the scores, with their keys. *)
Definition score_keys : list (string * string) :=
  [("opportunity_score", "opportunity"); ("market_potential", "market");
   ("technical_feasibility", "technical")].

Definition sample_delangue : ClementDelangue.ClementDelangueSignal := {|
  ClementDelangue.ai_innovation_score := 0.5%float;
  ClementDelangue.practical_application := 0.5%float;
  ClementDelangue.technical_feasibility := 0.75%float;
  ClementDelangue.reasoning := "Feasible with open models.";
  ClementDelangue.key_ai_features := ["Fine-tuning"];
  ClementDelangue.implementation_challenges := ["Serving cost"]
|}.

Lemma score_after_slot acc n o attr key :
  In (attr, key) score_keys ->
  dict_get (scores (collect_slot acc (n, o))) key
  = if obj_truthy o
    then match dict_get (float_attrs o) attr with
         | Some x => Some x
         | None => dict_get (scores acc) key
         end
    else dict_get (scores acc) key.
Proof.
  intros H. rewrite scores_collect_slot.
  destruct (obj_truthy o); [|reflexivity].
  rewrite !dict_get_score_step.
  cbn in H. destruct H as [H|[H|[H|[]]]]; inversion H; subst attr key;
    cbn [String.eqb Ascii.eqb Bool.eqb];
    destruct (dict_get (float_attrs o) "opportunity_score"),
             (dict_get (float_attrs o) "market_potential"),
             (dict_get (float_attrs o) "technical_feasibility"); reflexivity.
Qed.

(** X20: the scores [_collect_insights_data] gathers are not averaged:
    each of the three scores is the value of the last slot, in the
    order of the dictionary, that is true and has the attribute.  A
    slot with the attribute overwrites what the slots before it gave,
    a slot without it (or holding [None]) leaves the score as it was;
    so the result depends on the order of the slots, as the two orders
    of the records of Sam Altman and Clement Delangue show. *)
Theorem collected_scores_are_last_writer :
  (forall (d : dict obj) (n : string) (o : obj) (attr key : string),
     In (attr, key) score_keys ->
     dict_get (scores (_collect_insights_data (d ++ [(n, o)]))) key
     = if obj_truthy o
       then match dict_get (float_attrs o) attr with
            | Some x => Some x
            | None => dict_get (scores (_collect_insights_data d)) key
            end
       else dict_get (scores (_collect_insights_data d)) key)
  /\ (let altman := ("Sam Altman"%string, OSignal (ISamAltman OrchestratorFacts.sample_altman)) in
      let delangue := ("Clement Delangue"%string, OSignal (IClementDelangue sample_delangue)) in
      dict_get (scores (_collect_insights_data [altman; delangue])) "technical"
      = Some 0.75%float
      /\ dict_get (scores (_collect_insights_data [delangue; altman])) "technical"
         = Some 0.25%float).
Proof.
  split.
  - intros d n o attr key H. unfold _collect_insights_data.
    rewrite fold_left_app. cbn [fold_left]. apply score_after_slot. exact H.
  - split; reflexivity.
Qed.

(** X21: the project advisor never sees the evaluation it advises on.
    [evaluate_product] puts the product idea and the user background
    into a dictionary under the key "data" of the state, where the
    other agents read them; [project_advisor_agent] looks for
    "product_idea", "user_background" and "agent_insights" at the top
    of the state and finds none of them.  So on every state
    [evaluate_product] constructs its prompt holds the empty idea, an
    empty background and no score, insight or risk, and its outcome is
    the same for all product ideas and contexts. *)
Theorem advisor_never_sees_the_evaluation :
  forall (init : dict pyval -> result ProjectAdvisor.ProjectRecommendation)
         (call_llm : advisor_prompt -> result pyval)
         (s s' : Orchestrator.AgentState),
    project_advisor_agent init call_llm (State.of_evaluation s)
    = ProjectAdvisor._generate_recommendation init
        (call_llm {| prompt_product_idea := PStr "";
                     prompt_user_background := PDict [];
                     prompt_data := empty_data |})
    /\ project_advisor_agent init call_llm (State.of_evaluation s)
       = project_advisor_agent init call_llm (State.of_evaluation s')
    /\ py_getitem (State.getitem (State.of_evaluation s) "data") "product_idea"
       = Ok (PStr (state_product_idea s))
    /\ py_getitem (State.getitem (State.of_evaluation s) "data") "user_background"
       = Ok (PDict (state_user_background s)).
Proof.
  intros init call_llm s s'. repeat split.
Qed.

(** Whatever the model call returns, the advisor's recommendation is
    the fallback. *)
Lemma generate_recommendation_fallback init response :
  ProjectAdvisor._generate_recommendation init (Ok response)
  = Ok ProjectAdvisor.fallback_recommendation.
Proof.
  unfold ProjectAdvisor._generate_recommendation. cbn [bind].
  destruct response; try reflexivity.
  destruct (ProjectAdvisorFacts.parse_recommendation_raises init s) as [H | [H | H]];
    rewrite H; reflexivity.
Qed.

(** The agent function of the project advisor, as [evaluate_product]
    calls it. *)
Definition advisor_function
  (init : dict pyval -> result ProjectAdvisor.ProjectRecommendation)
  (advisor_llm : advisor_prompt -> result pyval)
  : Orchestrator.AgentState -> result ProjectAdvisor.ProjectRecommendation :=
  fun s => project_advisor_agent init advisor_llm (State.of_evaluation s).

(** The prompt of the advisor in every evaluation. *)
Definition blind_prompt : advisor_prompt :=
  {| prompt_product_idea := PStr "";
     prompt_user_background := PDict [];
     prompt_data := empty_data |}.

(** [selected_agents] is [None] or holds "Project Advisor". *)
Definition advisor_selected (selected_agents : option (list string)) : bool :=
  match selected_agents with
  | None => true
  | Some names => selected names "Project Advisor"
  end.

(** X22: an evaluation that includes the project advisor never
    returns once the advisor's model call has returned.  The advisor
    then returns its fallback recommendation (whatever the model
    answered), [_combine_insights] finds a [ProjectRecommendation] in
    the advisor's slot and raises [AttributeError] on its missing
    attribute [recommendations], whatever the other agents and the
    recommendation call do.  When the advisor's model call raises, the
    advisor raises the same exception and its slot holds [None]. *)
Theorem advisor_makes_the_evaluation_raise :
  forall (fs : agent_functions)
         (init : dict pyval -> result ProjectAdvisor.ProjectRecommendation)
         (advisor_llm : advisor_prompt -> result pyval) (call_llm : llm)
         (idea : string) (selected_agents : option (list string))
         (mc tc ub : option (dict pyval)),
    advisor_selected selected_agents = true ->
    let run := OrchestratorFacts.with_project_advisor fs (advisor_function init advisor_llm) in
    match advisor_llm blind_prompt with
    | Ok _ =>
        (forall s, advisor_function init advisor_llm s
                   = Ok ProjectAdvisor.fallback_recommendation)
        /\ evaluate_product run call_llm idea selected_agents mc tc ub = Raise AttributeError
    | Raise e =>
        (forall s, advisor_function init advisor_llm s = Raise e)
        /\ forall ev,
             evaluate_product run call_llm idea selected_agents mc tc ub = Ok ev ->
             dict_get (agent_insights ev) "Project Advisor" = Some INone
    end.
Proof.
  intros fs init advisor_llm call_llm idea selected_agents mc tc ub Hsel run.
  assert (HIn : In ("Project Advisor"%string,
                    lift IProjectRecommendation (advisor_function init advisor_llm))
                  (enabled_agents run selected_agents)).
  { unfold enabled_agents. destruct selected_agents as [names|].
    - apply filter_In. split; [cbn; tauto | exact Hsel].
    - cbn. tauto. }
  set (state := {| state_product_idea := idea;
                   state_market_context := or_empty mc;
                   state_technical_context := or_empty tc;
                   state_user_background := or_empty ub |}).
  pose proof (OrchestratorFacts.collect_get state (enabled_agents run selected_agents) []
                "Project Advisor" _
                (OrchestratorFacts.enabled_agents_nodup run selected_agents) HIn) as Hslot.
  fold (collect_insights state (enabled_agents run selected_agents)) in Hslot.
  assert (Hfun : forall s, advisor_function init advisor_llm s
                           = ProjectAdvisor._generate_recommendation init
                               (advisor_llm blind_prompt)).
  { intros s. reflexivity. }
  destruct (advisor_llm blind_prompt) as [response|e] eqn:L.
  - split.
    + intros s. rewrite Hfun. apply generate_recommendation_fallback.
    + unfold evaluate_product. cbv zeta. fold state.
      set (insights := collect_insights state (enabled_agents run selected_agents)) in *.
      unfold lift in Hslot. rewrite Hfun, generate_recommendation_fallback in Hslot.
      cbn [OrchestratorFacts.slot_of] in Hslot.
      unfold _combine_insights.
      destruct (OrchestratorFacts.compute_scores_spec insights) as [scores [H _]].
      rewrite H. cbn [bind]. unfold advisor_recommendations. rewrite Hslot. reflexivity.
  - split.
    + intros s. rewrite Hfun. reflexivity.
    + intros ev Hev.
      destruct (OrchestratorFacts.evaluate_product_returns _ _ _ _ _ _ _ _ Hev)
        as (ev0 & H0 & _ & _ & _ & Ha).
      destruct (OrchestratorFacts.combine_insights_fields _ _ _ _ H0)
        as (_ & _ & _ & _ & _ & _ & _ & Hi).
      rewrite Ha, Hi. fold state. rewrite Hslot.
      unfold lift. rewrite Hfun. reflexivity.
Qed.

Lemma advisor_evaluation_witness :
  advisor_selected (Some ["Sam Altman"; "Project Advisor"]) = true
  /\ evaluate_product
       (OrchestratorFacts.with_project_advisor OrchestratorFacts.sample_agents
          (advisor_function (fun _ => Raise ValidationError)
             (fun _ => Ok (PStr "Pursue it."))))
       OrchestratorFacts.fenced_llm "idea" (Some ["Sam Altman"; "Project Advisor"])
       None None None
     = Raise AttributeError.
Proof.
  split; [reflexivity|].
  exact (proj2 (advisor_makes_the_evaluation_raise OrchestratorFacts.sample_agents
                  (fun _ => Raise ValidationError) (fun _ => Ok (PStr "Pursue it."))
                  OrchestratorFacts.fenced_llm "idea"
                  (Some ["Sam Altman"; "Project Advisor"]) None None None eq_refl)).
Defined.

End ProjectAdvisorAgentFacts.

(* --------------------------------------------------------------------- *)
(** ** orchestrator.py: scores that reach no result                       *)
(* --------------------------------------------------------------------- *)

Module UnusedScoreFacts.
Import Py Orchestrator OrchestratorFacts.

(** The insights [d] with the slot [name] holding [i]. *)
Definition with_slot (d : dict insight) (name : string) (i : insight) : dict insight :=
  dict_set d name i.

Ltac other_slots :=
  unfold contributions, all_entries, with_slot; cbv zeta;
  rewrite !DictFacts.dict_get_set;
  cbn [String.eqb Ascii.eqb Bool.eqb];
  cbn [as_SamAltman as_DemisHassabis as_ElonMusk as_AdamDAngelo as_DanielGross
       as_SebastianThrun as_EmadMostaque as_ClementDelangue routed];
  rewrite !into_app.

Ltac each_key_metric Hk :=
  cbn in Hk;
  repeat (destruct Hk as [Hk|Hk]; [subst; cbn; try congruence; try reflexivity|]);
  try contradiction.

Lemma thrun_unused d s s' k :
  In k key_metrics ->
  SebastianThrun.innovation_potential s = SebastianThrun.innovation_potential s' ->
  contributions (with_slot d "Sebastian Thrun" (ISebastianThrun s)) k
  = contributions (with_slot d "Sebastian Thrun" (ISebastianThrun s')) k.
Proof.
  intros Hk H. other_slots.
  assert (E : into k (thrun_entries s) = into k (thrun_entries s')).
  { unfold into, thrun_entries. each_key_metric Hk. }
  rewrite E. reflexivity.
Qed.

Lemma hassabis_unused d s s' k :
  In k key_metrics ->
  DemisHassabis.scientific_breakthrough_potential s
  = DemisHassabis.scientific_breakthrough_potential s' ->
  contributions (with_slot d "Demis Hassabis" (IDemisHassabis s)) k
  = contributions (with_slot d "Demis Hassabis" (IDemisHassabis s')) k.
Proof.
  intros Hk H. other_slots.
  assert (E : into k (hassabis_entries s) = into k (hassabis_entries s')).
  { unfold into, hassabis_entries. each_key_metric Hk. }
  rewrite E. reflexivity.
Qed.

Lemma dangelo_unused d s s' k :
  In k key_metrics ->
  AdamDAngelo.ai_infrastructure s = AdamDAngelo.ai_infrastructure s' ->
  contributions (with_slot d "Adam D'Angelo" (IAdamDAngelo s)) k
  = contributions (with_slot d "Adam D'Angelo" (IAdamDAngelo s')) k.
Proof.
  intros Hk H. other_slots.
  assert (E : into k (dangelo_entries s) = into k (dangelo_entries s')).
  { unfold into, dangelo_entries. each_key_metric Hk. }
  rewrite E. reflexivity.
Qed.

Lemma gross_unused d s s' k :
  In k key_metrics ->
  DanielGross.ai_infrastructure s = DanielGross.ai_infrastructure s' ->
  DanielGross.market_fit s = DanielGross.market_fit s' ->
  contributions (with_slot d "Daniel Gross" (IDanielGross s)) k
  = contributions (with_slot d "Daniel Gross" (IDanielGross s')) k.
Proof.
  intros Hk H1 H2. other_slots.
  assert (E : into k (gross_entries s) = into k (gross_entries s')).
  { unfold into, gross_entries. each_key_metric Hk. }
  rewrite E. reflexivity.
Qed.

Lemma mostaque_unused d s s' k :
  In k key_metrics ->
  EmadMostaque.infrastructure_score s = EmadMostaque.infrastructure_score s' ->
  EmadMostaque.open_source_potential s = EmadMostaque.open_source_potential s' ->
  contributions (with_slot d "Emad Mostaque" (IEmadMostaque s)) k
  = contributions (with_slot d "Emad Mostaque" (IEmadMostaque s')) k.
Proof.
  intros Hk H1 H2. other_slots.
  assert (E : into k (mostaque_entries s) = into k (mostaque_entries s')).
  { unfold into, mostaque_entries. each_key_metric Hk. }
  rewrite E. reflexivity.
Qed.

Lemma scores_from_key_metrics d d' :
  (forall k, In k key_metrics -> contributions d k = contributions d' k) ->
  aggregate_scores d = aggregate_scores d'.
Proof.
  intros H. unfold aggregate_scores.
  rewrite (map_ext_in _ (fun k => mean (contributions d' k)) key_metrics)
    by (intros k Hk; rewrite (H k Hk); reflexivity).
  rewrite !H by (cbn; tauto). reflexivity.
Qed.

(** Two dictionaries of insights give the same results: the same
    overall score, the same six scores the overall score is made of,
    and the same four scores in a returned evaluation. *)
Definition same_results (d d' : dict insight) : Prop :=
  (exists scores scores' overall,
     compute_scores d = Ok (scores, overall)
     /\ compute_scores d' = Ok (scores', overall)
     /\ forall k, In k key_metrics -> dict_get scores k = dict_get scores' k)
  /\ (forall call_llm idea ev ev',
        _combine_insights call_llm idea d = Ok ev ->
        _combine_insights call_llm idea d' = Ok ev' ->
        scores_of ev = scores_of ev').

Lemma same_results_of_key_metrics d d' :
  (forall k, In k key_metrics -> contributions d k = contributions d' k) ->
  same_results d d'.
Proof.
  intros H. split.
  - destruct (compute_scores_spec d) as (sc & C & _ & G).
    destruct (compute_scores_spec d') as (sc' & C' & _ & G').
    assert (M : map (fun k => mean (contributions d k)) key_metrics
                = map (fun k => mean (contributions d' k)) key_metrics)
      by (apply map_ext_in; intros k Hk; rewrite (H k Hk); reflexivity).
    rewrite M in C.
    exists sc, sc'. eexists. split; [exact C|]. split; [exact C'|].
    intros k Hk.
    assert (B : In k buckets)
      by (cbn in Hk; cbn; repeat (destruct Hk as [<- | Hk]; [tauto|]); contradiction).
    rewrite (G k B), (G' k B), (H k Hk). reflexivity.
  - intros call_llm idea ev ev' E E'.
    rewrite (combine_insights_scores _ _ _ _ E), (combine_insights_scores _ _ _ _ E').
    apply scores_from_key_metrics. exact H.
Qed.

(** X23: eight of the scores the agents give reach no result.  The
    overall score is made of six buckets, and a returned evaluation
    shows three of them beside it; so Demis Hassabis's
    [technical_advancement] and [research_feasibility], Adam D'Angelo's
    [platform_potential] and [social_impact], Daniel Gross's
    [startup_potential], Sebastian Thrun's [autonomous_systems_score]
    and [educational_impact] and Emad Mostaque's [community_impact] can
    take any value without changing the overall score, the six buckets
    or the scores of the evaluation. *)
Theorem unused_scores_change_nothing :
  forall d : dict insight,
    (forall s s',
       DemisHassabis.scientific_breakthrough_potential s
       = DemisHassabis.scientific_breakthrough_potential s' ->
       same_results (with_slot d "Demis Hassabis" (IDemisHassabis s))
         (with_slot d "Demis Hassabis" (IDemisHassabis s')))
    /\ (forall s s',
          AdamDAngelo.ai_infrastructure s = AdamDAngelo.ai_infrastructure s' ->
          same_results (with_slot d "Adam D'Angelo" (IAdamDAngelo s))
            (with_slot d "Adam D'Angelo" (IAdamDAngelo s')))
    /\ (forall s s',
          DanielGross.ai_infrastructure s = DanielGross.ai_infrastructure s' ->
          DanielGross.market_fit s = DanielGross.market_fit s' ->
          same_results (with_slot d "Daniel Gross" (IDanielGross s))
            (with_slot d "Daniel Gross" (IDanielGross s')))
    /\ (forall s s',
          SebastianThrun.innovation_potential s = SebastianThrun.innovation_potential s' ->
          same_results (with_slot d "Sebastian Thrun" (ISebastianThrun s))
            (with_slot d "Sebastian Thrun" (ISebastianThrun s')))
    /\ (forall s s',
          EmadMostaque.infrastructure_score s = EmadMostaque.infrastructure_score s' ->
          EmadMostaque.open_source_potential s = EmadMostaque.open_source_potential s' ->
          same_results (with_slot d "Emad Mostaque" (IEmadMostaque s))
            (with_slot d "Emad Mostaque" (IEmadMostaque s'))).
Proof.
  intros d. split; [|split; [|split; [|split]]]; intros;
    apply same_results_of_key_metrics; intros k Hk.
  - apply hassabis_unused; assumption.
  - apply dangelo_unused; assumption.
  - apply gross_unused; assumption.
  - apply thrun_unused; assumption.
  - apply mostaque_unused; assumption.
Qed.

End UnusedScoreFacts.

(* --------------------------------------------------------------------- *)
(** ** The evaluation over the Ollama backend                             *)
(* --------------------------------------------------------------------- *)

Module OllamaEvaluationFacts.
Import Py Orchestrator OrchestratorFacts LlmCalls.

(** [call_llm(prompt)] of [_generate_recommendations] when Ollama is
    used: [call_ollama] without an output format; [post] is what the
    POST request of each prompt does. *)
Definition ollama_llm (post : recommendations_prompt -> http_outcome) : llm :=
  fun prompt => call_ollama (post prompt) None.

(** The request failed: it raised, or its status is not 200. *)
Definition failed (h : http_outcome) : bool :=
  match h with
  | RequestRaises _ => true
  | Response status_code _ => negb (status_code =? 200)
  end.

Lemma call_ollama_text post s :
  call_ollama post None = Ok (PStr s) ->
  str_contains s "```" = true ->
  exists document,
    post = Response 200 (Ok (PDict document))
    /\ dict_get document "response" = Some (PStr s).
Proof.
  unfold call_ollama. intros H C.
  destruct post as [e | status_code json]; [discriminate|].
  destruct (status_code =? 200) eqn:S; [|discriminate].
  apply Z.eqb_eq in S; subst status_code.
  destruct json as [document|e]; [|discriminate].
  destruct document; try discriminate.
  cbn in H. exists d. split; [reflexivity|].
  destruct (dict_get d "response") as [v|].
  - inversion H. reflexivity.
  - inversion H; subst s. discriminate.
Qed.

Lemma call_ollama_failed post output_format :
  failed post = true -> call_ollama post output_format = Ok PNone.
Proof.
  unfold failed, call_ollama. destruct post as [e | status_code json]; [reflexivity|].
  intros H. apply negb_true_iff in H. rewrite H. reflexivity.
Qed.

(** X24: [evaluate_product] over the Ollama backend.  It returns only
    when the request of its recommendation call was answered with
    status 200 and a document whose "response" is a text that holds a
    code fence.  When that request fails (it raises, or the status is
    not 200), [call_ollama] gives [None] and [evaluate_product] raises
    [AttributeError], whatever the agents did. *)
Theorem ollama_evaluation_needs_a_fenced_answer :
  forall (fs : agent_functions) (post : recommendations_prompt -> http_outcome)
         (idea : string) (selected_agents : option (list string))
         (mc tc ub : option (dict pyval)),
    (forall ev,
       evaluate_product fs (ollama_llm post) idea selected_agents mc tc ub = Ok ev ->
       exists prompt document s,
         post prompt = Response 200 (Ok (PDict document))
         /\ dict_get document "response" = Some (PStr s)
         /\ str_contains s "```" = true)
    /\ ((forall prompt, failed (post prompt) = true) ->
        evaluate_product fs (ollama_llm post) idea selected_agents mc tc ub
        = Raise AttributeError).
Proof.
  intros fs post idea selected_agents mc tc ub. split.
  - intros ev Hev.
    destruct (evaluate_product_returns _ _ _ _ _ _ _ _ Hev) as (ev0 & H0 & _).
    destruct (OrchestratorMoreFacts.combine_insights_advice _ _ _ _ H0)
      as (_ & _ & _ & prompt & s & Hs & Hc).
    destruct (call_ollama_text (post prompt) s Hs Hc) as (document & Hp & Hd).
    exists prompt, document, s. auto.
  - intros Hfail. unfold evaluate_product. cbv zeta.
    set (insights := collect_insights _ _).
    unfold _combine_insights.
    destruct (compute_scores_spec insights) as [scores [H _]].
    rewrite H. cbn [bind]. unfold advisor_recommendations.
    destruct (as_ProjectRecommendation _) as [r|]; [reflexivity|].
    cbn [bind]. unfold _generate_recommendations, ollama_llm.
    rewrite call_ollama_failed by apply Hfail. reflexivity.
Qed.

End OllamaEvaluationFacts.

(* --------------------------------------------------------------------- *)
(** ** utils/llm.py: extraction of a fenced JSON block                    *)
(* --------------------------------------------------------------------- *)

Module LlmExtract.
Import Py.

(** The characters [str.strip()] removes: those for which [isspace]
    holds. *)
Definition space_code_points : list Z :=
  [0x09; 0x0A; 0x0B; 0x0C; 0x0D; 0x1C; 0x1D; 0x1E; 0x1F; 0x20; 0x85; 0xA0; 0x1680;
   0x2000; 0x2001; 0x2002; 0x2003; 0x2004; 0x2005; 0x2006; 0x2007; 0x2008; 0x2009;
   0x200A; 0x2028; 0x2029; 0x202F; 0x205F; 0x3000].

Definition space_chars : list string := map Json.utf8 space_code_points.

Fixpoint rev_string (s : string) : string :=
  match s with
  | EmptyString => EmptyString
  | String c r => String.append (rev_string r) (String c EmptyString)
  end.

Definition drop (n : nat) (s : string) : string :=
  String.substring n (String.length s - n) s.

(** The text after its first character, when that is white space.  In
    the UTF-8 encoding a text starts with a character exactly when it
    starts with the character's bytes, and likewise at its end. *)
Definition after_space (s : string) : option string :=
  match List.find (fun p => String.prefix p s) space_chars with
  | Some p => Some (drop (String.length p) s)
  | None => None
  end.

Fixpoint lstrip_go (fuel : nat) (s : string) : string :=
  match fuel with
  | O => s
  | S fuel' =>
      match after_space s with
      | Some r => lstrip_go fuel' r
      | None => s
      end
  end.

Definition lstrip (s : string) : string := lstrip_go (String.length s) s.

(** The reversed text with the white space at its start removed, where
    the bytes of a character stand in reverse order. *)
Definition after_space_reversed (s : string) : option string :=
  match List.find (fun p => String.prefix (rev_string p) s) space_chars with
  | Some p => Some (drop (String.length p) s)
  | None => None
  end.

Fixpoint rstrip_go (fuel : nat) (s : string) : string :=
  match fuel with
  | O => s
  | S fuel' =>
      match after_space_reversed s with
      | Some r => rstrip_go fuel' r
      | None => s
      end
  end.

Definition rstrip (s : string) : string :=
  rev_string (rstrip_go (String.length s) (rev_string s)).

(** [s.strip()]. *)
Definition strip (s : string) : string := rstrip (lstrip s).

(** The body of the [try] of [extract_json_from_response] of llm.py. *)
Definition extract_body (content : string) : result pyval :=
  let json_start := find content "```json" in
  if negb (json_start =? -1) then
    let json_text := slice content (Some (json_start + 7)) None in
    let json_end := find json_text "```" in
    if negb (json_end =? -1) then
      let json_text := strip (slice json_text None (Some json_end)) in
      Json.loads json_text
    else Ok PNone
  else Ok PNone.

(** [extract_json_from_response(content)]: any exception of the body is
    printed and turned into [None]. *)
Definition extract_json_from_response (content : string) : result pyval :=
  try_except (extract_body content) any_Exception (fun _ => Ok PNone).

End LlmExtract.

Module LlmExtractFacts.
Import Py LlmExtract.

(** The text holds no backtick. *)
Fixpoint no_backtick (s : string) : bool :=
  match s with
  | EmptyString => true
  | String c r => negb (Ascii.eqb c "`") && no_backtick r
  end.

Lemma prefix_append (p s : string) : String.prefix p (String.append p s) = true.
Proof.
  induction p as [|c p IH]; cbn [String.prefix String.append].
  - destruct s; reflexivity.
  - destruct (ascii_dec c c) as [_|N]; [exact IH | contradiction].
Qed.

Lemma prefix_backtick sub c s :
  Ascii.eqb c "`" = false -> String.prefix (String "`" sub) (String c s) = false.
Proof.
  intros H. cbn [String.prefix]. destruct (ascii_dec "`" c) as [E|_]; [|reflexivity].
  subst c. discriminate.
Qed.

Lemma find_from_after_plain pre :
  forall sub rest i,
    no_backtick pre = true ->
    find_from (String "`" sub) (String.append pre (String "`" (String.append sub rest))) i
    = i + len pre.
Proof.
  induction pre as [|c pre IH]; intros sub rest i H.
  - cbn [String.append]. unfold len. cbn [String.length].
    assert (P : String.prefix (String "`" sub) (String.append (String "`" sub) rest) = true)
      by apply prefix_append.
    cbn [String.append] in P. cbn [find_from]. rewrite P. cbn. lia.
  - cbn [no_backtick] in H. apply andb_true_iff in H as [Hc Hp].
    apply negb_true_iff in Hc.
    cbn [String.append find_from]. rewrite (prefix_backtick sub c _ Hc).
    rewrite IH by exact Hp. unfold len. cbn [String.length]. lia.
Qed.

Lemma find_from_plain s :
  forall sub i, no_backtick s = true -> find_from (String "`" sub) s i = -1.
Proof.
  induction s as [|c s IH]; intros sub i H.
  - reflexivity.
  - cbn [no_backtick] in H. apply andb_true_iff in H as [Hc Hp].
    apply negb_true_iff in Hc.
    cbn [find_from]. rewrite (prefix_backtick sub c _ Hc). apply IH. exact Hp.
Qed.

Lemma substring_all (t u : string) :
  String.substring 0 (String.length t) (String.append t u) = t.
Proof.
  induction t as [|c t IH]; cbn.
  - destruct u; reflexivity.
  - rewrite IH. reflexivity.
Qed.

Lemma length_append (s t : string) :
  String.length (String.append s t) = (String.length s + String.length t)%nat.
Proof. induction s as [|c s IH]; cbn; [reflexivity | rewrite IH; reflexivity]. Qed.

Lemma slice_from (pre t : string) :
  slice (String.append pre t) (Some (len pre)) None = t.
Proof.
  unfold slice, slice_bound, len. rewrite length_append.
  replace (Z.of_nat (String.length pre) <? 0) with false by (symmetry; apply Z.ltb_ge; lia).
  rewrite Z.min_l by lia. rewrite Nat2Z.id.
  replace (Z.to_nat (Z.of_nat (String.length pre + String.length t)
                     - Z.of_nat (String.length pre))) with (String.length t) by lia.
  rewrite ExtractFacts.substring_skip.
  clear. induction t as [|c t IH]; cbn; [reflexivity | rewrite IH; reflexivity].
Qed.

Lemma slice_upto (t u : string) :
  slice (String.append t u) None (Some (len t)) = t.
Proof.
  unfold slice, slice_bound, len. rewrite length_append.
  replace (Z.of_nat (String.length t) <? 0) with false by (symmetry; apply Z.ltb_ge; lia).
  rewrite Z.min_l by lia. rewrite Z.sub_0_r, Nat2Z.id. cbn [Z.to_nat].
  apply substring_all.
Qed.

Lemma append_assoc (s t u : string) :
  String.append (String.append s t) u = String.append s (String.append t u).
Proof. induction s as [|c s IH]; cbn; [reflexivity | rewrite IH; reflexivity]. Qed.

Lemma len_nonnegative (s : string) : (len s =? -1) = false.
Proof. apply Z.eqb_neq. unfold len. lia. Qed.

Lemma extract_body_fenced pre rest :
  no_backtick pre = true ->
  extract_body (String.append pre (String.append "```json" rest))
  = let json_end := find rest "```" in
    if negb (json_end =? -1)
    then Json.loads (strip (slice rest None (Some json_end)))
    else Ok PNone.
Proof.
  intros H. unfold extract_body.
  assert (F : find (String.append pre (String.append "```json" rest)) "```json" = len pre)
    by exact (find_from_after_plain pre "``json" rest 0 H).
  rewrite F, len_nonnegative. cbn [negb].
  assert (S : slice (String.append pre (String.append "```json" rest)) (Some (len pre + 7)) None
              = rest).
  { rewrite <- append_assoc.
    replace (len pre + 7) with (len (String.append pre "```json"))
      by (unfold len; rewrite length_append; cbn [String.length]; lia).
    apply slice_from. }
  rewrite S. reflexivity.
Qed.

(** X25: [extract_json_from_response] of llm.py takes the first block
    fenced as JSON.  For a text whose first backticks open a fence
    marked json and whose next backticks close it, the result is the
    parsed content of the block, stripped of surrounding white space,
    or [None] when the content is no JSON.  A block that is not closed,
    and a text without backticks, give [None]; the function never
    raises. *)
Theorem fenced_block_is_extracted :
  (forall pre body post : string,
     no_backtick pre = true ->
     no_backtick body = true ->
     extract_json_from_response
       (String.append pre
          (String.append "```json" (String.append body (String.append "```" post))))
     = Ok (ExtractFacts.parsed_or_none (strip body)))
  /\ (forall pre rest : string,
        no_backtick pre = true ->
        no_backtick rest = true ->
        extract_json_from_response (String.append pre (String.append "```json" rest))
        = Ok PNone)
  /\ (forall content : string,
        no_backtick content = true -> extract_json_from_response content = Ok PNone)
  /\ (forall content : string, exists v, extract_json_from_response content = Ok v).
Proof.
  split; [|split; [|split]].
  - intros pre body post Hp Hb. unfold extract_json_from_response.
    rewrite extract_body_fenced by exact Hp. cbv zeta.
    assert (F : find (String.append body (String.append "```" post)) "```" = len body)
      by exact (find_from_after_plain body "``" post 0 Hb).
    rewrite F, len_nonnegative. cbn [negb]. rewrite slice_upto.
    unfold ExtractFacts.parsed_or_none, try_except.
    destruct (Json.loads (strip body)); reflexivity.
  - intros pre rest Hp Hr. unfold extract_json_from_response.
    rewrite extract_body_fenced by exact Hp. cbv zeta.
    unfold find. rewrite find_from_plain by exact Hr. reflexivity.
  - intros content H. unfold extract_json_from_response, extract_body, find.
    rewrite find_from_plain by exact H. reflexivity.
  - intros content. unfold extract_json_from_response, try_except.
    destruct (extract_body content) as [v|e]; cbn; eauto.
Qed.

End LlmExtractFacts.
